(** * project_scaffold: the generation, extension and validation engine

    A shallow embedding of [project_scaffold/models.py], [generator.py],
    [renderers/api.py] and [server.py], and the properties of the
    specification that concern them.

    The program is a sequence of file-system effects that may raise; it is
    embedded as a state-and-exception monad over a flat model of the file
    system.  Text that the program only moves around (template output,
    generated source code) is kept by provenance; the manifest, the one file
    the program reads back, is kept as the JSON value it serialises. *)

From Stdlib Require Import ZArith Ascii String List Sorted.
From stdpp Require Import gmap strings list fin_maps.

Set Warnings "-register-all".

(* ================================================================== *)
(** * Python strings *)
(* ================================================================== *)

(** [bool(s)] for a [str]: the empty string is falsy. *)
Definition truthy (s : string) : bool :=
  match s with EmptyString => false | String _ _ => true end.

Definition map_chars (f : ascii -> ascii) : string -> string :=
  fix go s :=
    match s with
    | EmptyString => EmptyString
    | String a s' => String (f a) (go s')
    end.

(** A [str] whose characters are all ASCII (code points below 128). *)
Definition ascii_only : string -> bool :=
  fix go s :=
    match s with
    | EmptyString => true
    | String a s' => (nat_of_ascii a <? 128)%nat && go s'
    end.

(** [str.lower()] of a [str] of ASCII characters: the letters [A] to [Z] are
    lowered and every other character is kept.  On other strings Python
    lowers more letters than these, so what is stated of a lowered name is
    stated of names that are [ascii_only]. *)
Definition lower_ascii (a : ascii) : ascii :=
  let n := nat_of_ascii a in
  if (65 <=? n)%nat && (n <=? 90)%nat then ascii_of_nat (n + 32) else a.

Definition lower : string -> string := map_chars lower_ascii.

(** [s.replace("-", "_")]. *)
Definition hyphens_to_underscores : string -> string :=
  map_chars (fun a => if Ascii.eqb a "-" then "_"%char else a).

Definition starts_with_slash (s : string) : bool :=
  match s with String a _ => Ascii.eqb a "/" | EmptyString => false end.

(** The pieces of [s] between its slashes. *)
Fixpoint split_slash (s : string) : list string :=
  match s with
  | EmptyString => [EmptyString]
  | String a s' =>
      if Ascii.eqb a "/" then EmptyString :: split_slash s'
      else match split_slash s' with
           | [] => [String a EmptyString]
           | x :: xs => String a x :: xs
           end
  end.

Fixpoint join_slash (l : list string) : string :=
  match l with
  | [] => EmptyString
  | [x] => x
  | x :: l' => x +:+ "/" +:+ join_slash l'
  end.

(* ================================================================== *)
(** * pathlib.Path (POSIX flavour) *)
(* ================================================================== *)

Module Path.

(** A path is its anchor (does it start at [/]) and its parts.  pathlib
    drops empty parts and [.] when it parses a string and keeps [..]. *)
Record t := mk { anchor : bool; parts : list string }.

Definition kept (x : string) : bool :=
  negb (String.eqb x EmptyString) && negb (String.eqb x ".").

Definition parts_of (s : string) : list string :=
  List.filter kept (split_slash s).

(** [Path(s)] *)
Definition of_string (s : string) : t :=
  mk (starts_with_slash s) (parts_of s).

(** [p / s]: an absolute right operand replaces the left one. *)
Definition div (p : t) (s : string) : t :=
  if starts_with_slash s then of_string s
  else mk (anchor p) (parts p ++ parts_of s).

(** [p.parent] *)
Definition parent (p : t) : t := mk (anchor p) (removelast (parts p)).

(** [str(p)] *)
Definition to_string (p : t) : string :=
  if anchor p then "/" +:+ join_slash (parts p)
  else match parts p with [] => "." | _ => join_slash (parts p) end.

Fixpoint strip_prefix (pre l : list string) : option (list string) :=
  match pre, l with
  | [], _ => Some l
  | x :: pre', y :: l' => if String.eqb x y then strip_prefix pre' l' else None
  | _ :: _, [] => None
  end.

(** [p.relative_to(base)]; [None] stands for the [ValueError]. *)
Definition relative_to (p base : t) : option t :=
  if Bool.eqb (anchor p) (anchor base) then
    match strip_prefix (parts base) (parts p) with
    | Some rest => Some (mk false rest)
    | None => None
    end
  else None.

(** [p] extended by parts that are already parsed. *)
Definition extend (p : t) (q : list string) : t := mk (anchor p) (parts p ++ q).

End Path.

Notation "p // s" := (Path.div p s) (at level 40, left associativity).

(* ================================================================== *)
(** * JSON values and Python dicts *)
(* ================================================================== *)

Inductive json :=
| JNull
| JBool (b : bool)
| JInt (z : Z)
| JStr (s : string)
| JList (l : list json)
| JDict (d : list (string * json)).

(** A [dict] with string keys: keys are unique and keep insertion order. *)
Definition dict := list (string * json).

Fixpoint dict_get (k : string) (d : dict) : option json :=
  match d with
  | [] => None
  | (k', v) :: d' => if String.eqb k' k then Some v else dict_get k d'
  end.

(** [d[k] = v] *)
Fixpoint dict_set (k : string) (v : json) (d : dict) : dict :=
  match d with
  | [] => [(k, v)]
  | (k', v') :: d' =>
      if String.eqb k' k then (k, v) :: d' else (k', v') :: dict_set k v d'
  end.

(** [d.get(k, default)] *)
Definition dict_get_default (k : string) (default : json) (d : dict) : json :=
  match dict_get k d with Some v => v | None => default end.

(* ================================================================== *)
(** * Exceptions *)
(* ================================================================== *)

Inductive exn :=
| FileNotFoundError (msg : string)
| FileExistsError
| NotADirectoryError
| IsADirectoryError
| ValueError
| KeyError (key : string)
| AttributeError
| TypeError
| JSONDecodeError
| ValidationError (field : string).

Inductive outcome (A : Type) :=
| Return (a : A)
| Raise (e : exn).
Arguments Return {A} a.
Arguments Raise {A} e.

(** A computation over a state [S] that returns or raises; what it did to
    the state before raising stays done. *)
Definition M (S A : Type) : Type := S -> outcome A * S.

Definition ret {S A} (a : A) : M S A := fun s => (Return a, s).
Definition raise {S A} (e : exn) : M S A := fun s => (Raise e, s).
Definition bind {S A B} (m : M S A) (k : A -> M S B) : M S B :=
  fun s =>
    match m s with
    | (Return a, s') => k a s'
    | (Raise e, s') => (Raise e, s')
    end.

Declare Scope monad_scope.
Delimit Scope monad_scope with monad.
Notation "'let*' x := m 'in' k" := (bind m (fun x => k))
  (at level 10, x name, m at level 100, k at level 200) : monad_scope.
Notation "m >> k" := (bind m (fun _ => k))
  (at level 62, right associativity) : monad_scope.
Open Scope monad_scope.

(** [for x in l: body(x)] *)
Fixpoint for_each {S A} (l : list A) (body : A -> M S unit) : M S unit :=
  match l with
  | [] => ret tt
  | x :: l' => body x >> for_each l' body
  end.

(* ================================================================== *)
(** * The file system *)
(* ================================================================== *)

(** The text of a file.  [JsonText j] is [json.dumps(j, indent=2) + "\n"];
    the other texts are named by where they come from. *)
Inductive content :=
| Rendered (template : string) (ctx : dict)
| StaticAsset (asset : string)
| ModelCode (name : string) (fields : list (string * string))
| SchemaCode (name : string) (fields : list (string * string))
| RouterCode (name : string) (fields : list (string * string)) (include_auth : bool)
| Empty
| JsonText (j : json).

Inductive node :=
| Dir
| File (c : content).

(** The tree is a finite map from the parts of an absolute path to a node;
    the root directory is always there.  [..] and symbolic links are not
    interpreted. *)
Record FileSystem := mkFS {
  cwd : list string;
  nodes : gmap (list string) node
}.

Definition locate (fs : FileSystem) (p : Path.t) : list string :=
  if Path.anchor p then Path.parts p else cwd fs ++ Path.parts p.

Definition stat_key (fs : FileSystem) (k : list string) : option node :=
  match k with
  | [] => Some Dir
  | _ => nodes fs !! k
  end.

Definition stat (fs : FileSystem) (p : Path.t) : option node :=
  stat_key fs (locate fs p).

Definition put (k : list string) (n : node) (fs : FileSystem) : FileSystem :=
  mkFS (cwd fs) (<[k := n]> (nodes fs)).

(** [p.exists()] *)
Definition Path_exists (fs : FileSystem) (p : Path.t) : bool :=
  match stat fs p with Some _ => true | None => false end.

Definition path_exists (p : Path.t) : M FileSystem bool :=
  fun fs => (Return (Path_exists fs p), fs).

(** [p.is_dir()] *)
Definition is_dir (fs : FileSystem) (p : Path.t) : bool :=
  match stat fs p with Some Dir => true | _ => false end.

Definition is_file (fs : FileSystem) (p : Path.t) : bool :=
  match stat fs p with Some (File _) => true | _ => false end.

Definition is_child_of (k k' : list string) : bool :=
  match k' with
  | [] => false
  | _ => bool_decide (removelast k' = k)
  end.

(** The entries directly inside the directory at key [k]. *)
Definition children (fs : FileSystem) (k : list string) : list (list string) :=
  List.filter (is_child_of k) (map fst (map_to_list (nodes fs))).

(** The error of a system call that has to create the entry at [k]. *)
Definition create_entry (k : list string) (n : node) : M FileSystem unit :=
  fun fs =>
    match stat_key fs (removelast k) with
    | None => (Raise (FileNotFoundError (join_slash k)), fs)
    | Some (File _) => (Raise NotADirectoryError, fs)
    | Some Dir => (Return tt, put k n fs)
    end.

(** [os.mkdir(p)] *)
Definition os_mkdir (p : Path.t) : M FileSystem unit :=
  fun fs =>
    match stat fs p with
    | Some _ => (Raise FileExistsError, fs)
    | None => create_entry (locate fs p) Dir fs
    end.

(** [p.mkdir(parents=False, exist_ok=exist_ok)] *)
Definition mkdir_here (p : Path.t) (exist_ok : bool) : M FileSystem unit :=
  fun fs =>
    match os_mkdir p fs with
    | (Raise (FileNotFoundError m), _) => (Raise (FileNotFoundError m), fs)
    | (Raise e, _) =>
        if exist_ok && is_dir fs p then (Return tt, fs) else (Raise e, fs)
    | r => r
    end.

(** [Path.mkdir], by recursion on the parts from the last one up, as
    pathlib recurses on [self.parent]. *)
Fixpoint mkdir_up (a : bool) (rparts : list string) (parents exist_ok : bool)
  : M FileSystem unit :=
  fun fs =>
    let p := Path.mk a (rev rparts) in
    match os_mkdir p fs with
    | (Raise (FileNotFoundError m), _) =>
        match rparts with
        | [] => (Raise (FileNotFoundError m), fs)
        | _ :: rparent =>
            if parents then
              (mkdir_up a rparent true true >> mkdir_here p exist_ok) fs
            else (Raise (FileNotFoundError m), fs)
        end
    | (Raise e, _) =>
        if exist_ok && is_dir fs p then (Return tt, fs) else (Raise e, fs)
    | r => r
    end.

(** [p.mkdir(parents=parents, exist_ok=exist_ok)] *)
Definition mkdir (p : Path.t) (parents exist_ok : bool) : M FileSystem unit :=
  mkdir_up (Path.anchor p) (rev (Path.parts p)) parents exist_ok.

(** [p.write_text(c)] *)
Definition write_text (p : Path.t) (c : content) : M FileSystem unit :=
  fun fs =>
    match stat fs p with
    | Some Dir => (Raise IsADirectoryError, fs)
    | _ => create_entry (locate fs p) (File c) fs
    end.

(** [p.touch()] *)
Definition touch (p : Path.t) : M FileSystem unit :=
  fun fs =>
    match stat fs p with
    | Some _ => (Return tt, fs)
    | None => create_entry (locate fs p) (File Empty) fs
    end.

(** [p.read_text()] *)
Definition read_text (p : Path.t) : M FileSystem content :=
  fun fs =>
    match stat fs p with
    | Some (File c) => (Return c, fs)
    | Some Dir => (Raise IsADirectoryError, fs)
    | None =>
        match stat_key fs (removelast (locate fs p)) with
        | Some (File _) => (Raise NotADirectoryError, fs)
        | _ => (Raise (FileNotFoundError (Path.to_string p)), fs)
        end
    end.

(** [any(p.iterdir())] *)
Definition any_iterdir (p : Path.t) : M FileSystem bool :=
  fun fs =>
    match stat fs p with
    | Some Dir =>
        (Return (match children fs (locate fs p) with [] => false | _ => true end), fs)
    | Some (File _) => (Raise NotADirectoryError, fs)
    | None => (Raise (FileNotFoundError (Path.to_string p)), fs)
    end.

(** [json.loads(text)]: only what [json.dumps] wrote is a JSON document. *)
Definition json_loads {S} (c : content) : M S json :=
  match c with
  | JsonText j => ret j
  | _ => raise JSONDecodeError
  end.

(* ================================================================== *)
(** * models.py *)
(* ================================================================== *)

Inductive ProjectType := work | personal.
Inductive FrontendType := react | htmx.

Definition ProjectType_str (t : ProjectType) : string :=
  match t with work => "work" | personal => "personal" end.
Definition FrontendType_str (t : FrontendType) : string :=
  match t with react => "react" | htmx => "htmx" end.

(** How pydantic converts a value that is given for a [bool] or an [int]
    field (its lax mode, which [BaseModel] uses by default).  For [bool]: a
    boolean as it is, the integers 0 and 1, and the words that pydantic
    reads as a boolean, in any case of their letters.  For [int]: an
    integer as it is, a boolean as 0 or 1, and a string of at most 4300
    characters that is made of decimal digits, after a minus sign or
    without one; the other spellings of a number that pydantic reads from a
    string (with a plus sign, between spaces, with underscores, or followed
    by [.0]) are refused here, so that what is accepted here is accepted by
    pydantic, with the same value. *)
Definition bool_of_str (s : string) : option bool :=
  let w := lower s in
  if existsb (String.eqb w) ["0"; "f"; "n"; "no"; "off"; "false"] then Some false
  else if existsb (String.eqb w) ["1"; "t"; "y"; "on"; "yes"; "true"] then Some true
  else None.

Definition bool_of_json (v : json) : option bool :=
  match v with
  | JBool b => Some b
  | JInt z => if (z =? 0)%Z then Some false
              else if (z =? 1)%Z then Some true
              else None
  | JStr s => bool_of_str s
  | _ => None
  end.

Fixpoint digits_value (acc : Z) (s : string) : option Z :=
  match s with
  | EmptyString => Some acc
  | String a s' =>
      let n := nat_of_ascii a in
      if (48 <=? n)%nat && (n <=? 57)%nat
      then digits_value (10 * acc + Z.of_nat (n - 48))%Z s'
      else None
  end.

Definition int_of_str (s : string) : option Z :=
  if (4300 <? String.length s)%nat then None
  else
    match s with
    | EmptyString => None
    | String a s' =>
        if Ascii.eqb a "-"
        then (if truthy s' then option_map Z.opp (digits_value 0 s') else None)
        else digits_value 0 s
    end.

Definition int_of_json (v : json) : option Z :=
  match v with
  | JInt z => Some z
  | JBool b => Some (if b then 1 else 0)%Z
  | JStr s => int_of_str s
  | _ => None
  end.

(** How pydantic reads one keyword argument.  A [str] field takes a string
    only, and a [Literal] field one of its strings; a [bool] or an [int]
    field takes what the conversion of its type accepts, [as_bool] and
    [as_int] below; a missing argument takes the field's default, or is
    refused when the field has none. *)
Section Fields.
Context {S : Type}.
Variable as_bool : json -> option bool.
Variable as_int : json -> option Z.

Definition str_field (field : string) (default : option string) (kw : dict)
  : M S string :=
  match dict_get field kw, default with
  | Some (JStr s), _ => ret s
  | None, Some d => ret d
  | _, _ => raise (ValidationError field)
  end.

Definition bool_field (field : string) (default : bool) (kw : dict) : M S bool :=
  match dict_get field kw with
  | Some v =>
      match as_bool v with
      | Some b => ret b
      | None => raise (ValidationError field)
      end
  | None => ret default
  end.

Definition int_field (field : string) (default : Z) (kw : dict) : M S Z :=
  match dict_get field kw with
  | Some v =>
      match as_int v with
      | Some z => ret z
      | None => raise (ValidationError field)
      end
  | None => ret default
  end.

Definition optional_str_field (field : string) (kw : dict) : M S (option string) :=
  match dict_get field kw with
  | Some (JStr s) => ret (Some s)
  | Some JNull | None => ret None
  | _ => raise (ValidationError field)
  end.

Definition project_type_field (kw : dict) : M S ProjectType :=
  match dict_get "project_type" kw with
  | Some (JStr s) =>
      if String.eqb s "work" then ret work
      else if String.eqb s "personal" then ret personal
      else raise (ValidationError "project_type")
  | _ => raise (ValidationError "project_type")
  end.

Definition frontend_type_field (kw : dict) : M S FrontendType :=
  match dict_get "frontend_type" kw with
  | Some (JStr s) =>
      if String.eqb s "react" then ret react
      else if String.eqb s "htmx" then ret htmx
      else raise (ValidationError "frontend_type")
  | _ => raise (ValidationError "frontend_type")
  end.
End Fields.

Module ProjectConfig.

Record t := mk {
  name : string;
  project_type : ProjectType;
  frontend_type : FrontendType;
  description : string;
  output_dir : string;
  use_current_dir : bool;
  db_name : option string;
  include_auth : bool;
  include_alembic : bool;
  api_port : Z;
  frontend_port : Z;
  include_tdd : bool;
  include_redis : bool;
  include_sse : bool
}.

(** The constructor [ProjectConfig], called with keyword arguments: the
    fields are validated in the order of their declaration.  [create_with]
    leaves open how the values of the [bool] and [int] fields are
    converted; [create] is the constructor with pydantic's conversions. *)
Definition create_with {S} (as_bool : json -> option bool)
           (as_int : json -> option Z) (kw : dict) : M S t :=
  let* name := str_field "name" None kw in
  let* project_type := project_type_field kw in
  let* frontend_type := frontend_type_field kw in
  let* description := str_field "description" (Some EmptyString) kw in
  let* output_dir := str_field "output_dir" None kw in
  let* use_current_dir := bool_field as_bool "use_current_dir" false kw in
  let* db_name := optional_str_field "db_name" kw in
  let* include_auth := bool_field as_bool "include_auth" true kw in
  let* include_alembic := bool_field as_bool "include_alembic" true kw in
  let* api_port := int_field as_int "api_port" 8000 kw in
  let* frontend_port := int_field as_int "frontend_port" 3000 kw in
  let* include_tdd := bool_field as_bool "include_tdd" false kw in
  let* include_redis := bool_field as_bool "include_redis" false kw in
  let* include_sse := bool_field as_bool "include_sse" false kw in
  ret (mk name project_type frontend_type description output_dir
         use_current_dir db_name include_auth include_alembic api_port
         frontend_port include_tdd include_redis include_sse).

Definition create {S} (kw : dict) : M S t :=
  create_with bool_of_json int_of_json kw.

(** [self.db_name or self.name.replace("-", "_")] *)
Definition resolved_db_name (c : t) : string :=
  match db_name c with
  | Some s => if truthy s then s else hyphens_to_underscores (name c)
  | None => hyphens_to_underscores (name c)
  end.

Definition python_package_name (c : t) : string :=
  hyphens_to_underscores (name c).

(** React projects use 2 repos (api + frontend); HTMX uses 1. *)
Definition is_multi_repo (c : t) : bool :=
  match frontend_type c with react => true | htmx => false end.

End ProjectConfig.

Inductive ComponentKind :=
| api_router | db_model | frontend_page | github_action | docker_service.

Definition ComponentKind_str (k : ComponentKind) : string :=
  match k with
  | api_router => "api_router"
  | db_model => "db_model"
  | frontend_page => "frontend_page"
  | github_action => "github_action"
  | docker_service => "docker_service"
  end.

Module ComponentConfig.
Record t := mk {
  project_dir : string;
  component : ComponentKind;
  name : string;
  fields : option (list (string * string))
}.
End ComponentConfig.

(* ================================================================== *)
(** * config.py *)
(* ================================================================== *)

Definition SCAFFOLD_METADATA_FILE : string := ".scaffold.json".
Definition DEFAULT_DB_USER : string := "postgres".
Definition DEFAULT_DB_PASSWORD : string := "postgres".

(** [bool(v)] for a value read from JSON. *)
Definition json_truthy (v : json) : bool :=
  match v with
  | JNull => false
  | JBool b => b
  | JInt z => negb (Z.eqb z 0)
  | JStr s => truthy s
  | JList l => match l with [] => false | _ => true end
  | JDict d => match d with [] => false | _ => true end
  end.

Definition option_json (o : option string) : json :=
  match o with Some s => JStr s | None => JNull end.

(* ================================================================== *)
(** * generator.py *)
(* ================================================================== *)

Module ProjectGenerator.

(** The generator object: [config] and [project_root] never change after
    [__init__]; [files_created] is the one attribute that is mutated, and
    lives in the state together with the file system. *)
Record t := mk {
  config : ProjectConfig.t;
  project_root : Path.t
}.

Record state := mkState {
  files_created : list string;
  fs : FileSystem
}.

Definition on_fs {A} (m : M FileSystem A) : M state A :=
  fun st =>
    match m (fs st) with
    | (r, fs') => (r, mkState (files_created st) fs')
    end.

Definition __init__ (config : ProjectConfig.t) : t :=
  mk config
     (if ProjectConfig.use_current_dir config
      then Path.of_string (ProjectConfig.output_dir config)
      else Path.of_string (ProjectConfig.output_dir config)
             // ProjectConfig.name config).

(** [meta[key]] *)
Definition subscript {S} (meta : json) (key : string) : M S json :=
  match meta with
  | JDict d =>
      match dict_get key d with
      | Some v => ret v
      | None => raise (KeyError key)
      end
  | _ => raise TypeError
  end.

(** [meta.get(key, default)] *)
Definition get {S} (meta : json) (key : string) (default : json) : M S json :=
  match meta with
  | JDict d => ret (dict_get_default key default d)
  | _ => raise AttributeError
  end.

(** The part of [from_existing] that follows [json.loads]: the keyword
    arguments of [ProjectConfig] are read from the metadata. *)
Definition config_from_metadata {S} (project_dir : string) (meta : json)
  : M S ProjectConfig.t :=
  let* use_current_dir := get meta "use_current_dir" (JBool false) in
  let* name := subscript meta "project_name" in
  let* project_type := subscript meta "project_type" in
  let* frontend_type := subscript meta "frontend_type" in
  let* description := get meta "description" (JStr EmptyString) in
  let output_dir :=
    if json_truthy use_current_dir then project_dir
    else Path.to_string (Path.parent (Path.of_string project_dir)) in
  let* db_name := get meta "db_name" JNull in
  let* include_auth := get meta "include_auth" (JBool true) in
  let* include_alembic := get meta "include_alembic" (JBool true) in
  let* api_port := get meta "api_port" (JInt 8000) in
  let* frontend_port := get meta "frontend_port" (JInt 3000) in
  let* include_tdd := get meta "include_tdd" (JBool false) in
  let* include_redis := get meta "include_redis" (JBool false) in
  let* include_sse := get meta "include_sse" (JBool false) in
  ProjectConfig.create
    [("name", name); ("project_type", project_type);
     ("frontend_type", frontend_type); ("description", description);
     ("output_dir", JStr output_dir); ("db_name", db_name);
     ("include_auth", include_auth); ("include_alembic", include_alembic);
     ("api_port", api_port); ("frontend_port", frontend_port);
     ("use_current_dir", use_current_dir); ("include_tdd", include_tdd);
     ("include_redis", include_redis); ("include_sse", include_sse)].

(** Load a generator from an existing scaffolded project's metadata. *)
Definition from_existing (project_dir : string) : M FileSystem t :=
  let meta_path := Path.of_string project_dir // SCAFFOLD_METADATA_FILE in
  let* found := path_exists meta_path in
  if negb found then
    raise (FileNotFoundError
             ("No " +:+ SCAFFOLD_METADATA_FILE +:+ " found in " +:+ project_dir
              +:+ ". Is this a scaffolded project?"))
  else
    let* text := read_text meta_path in
    let* meta := json_loads text in
    let* config := config_from_metadata project_dir meta in
    ret (__init__ config).

Section Methods.
Variable self : t.

Local Abbreviation cfg := (config self).

(** Build the Jinja2 template context from config. *)
Definition _context : dict :=
  [("project_name", JStr (ProjectConfig.name cfg));
   ("project_type", JStr (ProjectType_str (ProjectConfig.project_type cfg)));
   ("frontend_type", JStr (FrontendType_str (ProjectConfig.frontend_type cfg)));
   ("description", JStr (ProjectConfig.description cfg));
   ("db_name", JStr (ProjectConfig.resolved_db_name cfg));
   ("db_user", JStr DEFAULT_DB_USER);
   ("db_password", JStr DEFAULT_DB_PASSWORD);
   ("include_auth", JBool (ProjectConfig.include_auth cfg));
   ("include_alembic", JBool (ProjectConfig.include_alembic cfg));
   ("api_port", JInt (ProjectConfig.api_port cfg));
   ("frontend_port", JInt (ProjectConfig.frontend_port cfg));
   ("is_multi_repo", JBool (ProjectConfig.is_multi_repo cfg));
   ("python_package_name", JStr (ProjectConfig.python_package_name cfg));
   ("include_tdd", JBool (ProjectConfig.include_tdd cfg));
   ("include_redis", JBool (ProjectConfig.include_redis cfg));
   ("include_sse", JBool (ProjectConfig.include_sse cfg))].

(** Render a single Jinja2 template: the engine is a collaborator, its
    output is named by the template and the context. *)
Definition _render (template_path : string) : content :=
  Rendered template_path _context.

(** [self.files_created.append(str(output_path.relative_to(self.project_root)))] *)
Definition record_created (output_path : Path.t) : M state unit :=
  match Path.relative_to output_path (project_root self) with
  | Some rel =>
      fun st => (Return tt,
                 mkState (files_created st ++ [Path.to_string rel]) (fs st))
  | None => raise ValueError
  end.

(** Write rendered content to a file, creating parent dirs as needed. *)
Definition _write (output_path : Path.t) (c : content) : M state unit :=
  on_fs (mkdir (Path.parent output_path) true true) >>
  on_fs (write_text output_path c) >>
  record_created output_path.

(** Create an empty file (e.g. __init__.py, .gitkeep). *)
Definition _write_empty (output_path : Path.t) : M state unit :=
  on_fs (mkdir (Path.parent output_path) true true) >>
  on_fs (touch output_path) >>
  record_created output_path.

(** Get the API directory root, depending on project structure. *)
Definition _api_root : Path.t :=
  if ProjectConfig.is_multi_repo cfg
  then project_root self // (ProjectConfig.name cfg +:+ "-api")
  else project_root self.

(** Get the frontend directory root (React projects only). *)
Definition _frontend_root : Path.t :=
  project_root self // (ProjectConfig.name cfg +:+ "-frontend").

(** [for tmpl, out in pairs: self._write(base / out, self._render(tmpl))] *)
Definition write_rendered (base : Path.t) (pairs : list (string * string))
  : M state unit :=
  for_each pairs (fun '(tmpl, out) => _write (base // out) (_render tmpl)).


(** Generate workspace-level common files. *)
Definition _generate_common : M state unit :=
  write_rendered (project_root self)
    [("common/README.md.j2", "README.md");
     ("common/env_example.j2", ".env.example");
     ("common/Makefile.j2", "Makefile")] >>
  let gitignore_content := _render "common/gitignore.j2" in
  if ProjectConfig.is_multi_repo cfg then
    _write (_api_root // ".gitignore") gitignore_content >>
    _write (_frontend_root // ".gitignore")
           (_render "common/gitignore_frontend.j2")
  else
    _write (project_root self // ".gitignore") gitignore_content.

(** Generate docker-compose files at workspace root. *)
Definition _generate_docker : M state unit :=
  write_rendered (project_root self)
    [("docker/docker-compose.yml.j2", "docker-compose.yml");
     ("docker/docker-compose.override.yml.j2", "docker-compose.override.yml")].

(** Generate the FastAPI application. *)
Definition _generate_api : M state unit :=
  let api_root := _api_root in
  let app_dir := api_root // "app" in
  write_rendered api_root
    [("api/pyproject.toml.j2", "pyproject.toml");
     ("api/Dockerfile.j2", "Dockerfile");
     ("api/startup.sh.j2", "startup.sh")] >>
  write_rendered app_dir
    [("api/app/main.py.j2", "main.py");
     ("api/app/config.py.j2", "config.py");
     ("api/app/database.py.j2", "database.py");
     ("api/app/dependencies.py.j2", "dependencies.py")] >>
  _write_empty (app_dir // "__init__.py") >>
  let models_dir := app_dir // "models" in
  _write_empty (models_dir // "__init__.py") >>
  write_rendered models_dir
    [("api/app/models/base.py.j2", "base.py");
     ("api/app/models/user.py.j2", "user.py")] >>
  let schemas_dir := app_dir // "schemas" in
  _write_empty (schemas_dir // "__init__.py") >>
  write_rendered schemas_dir
    [("api/app/schemas/common.py.j2", "common.py");
     ("api/app/schemas/user.py.j2", "user.py")] >>
  let routers_dir := app_dir // "routers" in
  _write_empty (routers_dir // "__init__.py") >>
  write_rendered routers_dir
    [("api/app/routers/health.py.j2", "health.py");
     ("api/app/routers/users.py.j2", "users.py")] >>
  (if ProjectConfig.include_sse cfg
   then _write (routers_dir // "sse.py") (_render "api/app/routers/sse.py.j2")
   else ret tt) >>
  let tests_dir := api_root // "tests" in
  _write_empty (tests_dir // "__init__.py") >>
  write_rendered tests_dir
    [("api/tests/conftest.py.j2", "conftest.py");
     ("api/tests/test_health.py.j2", "test_health.py")].

(** Generate the React (Vite + TypeScript) frontend. *)
Definition _generate_react_frontend : M state unit :=
  let fe_root := _frontend_root in
  let src_dir := fe_root // "src" in
  write_rendered fe_root
    [("frontend/react/package.json.j2", "package.json");
     ("frontend/react/vite.config.ts.j2", "vite.config.ts");
     ("frontend/react/tsconfig.json.j2", "tsconfig.json");
     ("frontend/react/tsconfig.node.json.j2", "tsconfig.node.json");
     ("frontend/react/index.html.j2", "index.html");
     ("frontend/react/Dockerfile.j2", "Dockerfile");
     ("frontend/react/nginx.conf.j2", "nginx.conf")] >>
  write_rendered src_dir
    [("frontend/react/src/main.tsx.j2", "main.tsx");
     ("frontend/react/src/App.tsx.j2", "App.tsx");
     ("frontend/react/src/vite-env.d.ts.j2", "vite-env.d.ts")] >>
  _write (src_dir // "api" // "client.ts")
         (_render "frontend/react/src/api/client.ts.j2") >>
  _write (src_dir // "pages" // "Home.tsx")
         (_render "frontend/react/src/pages/Home.tsx.j2") >>
  _write (src_dir // "components" // "Layout.tsx")
         (_render "frontend/react/src/components/Layout.tsx.j2") >>
  _write (src_dir // "styles" // "globals.css")
         (_render "frontend/react/src/styles/globals.css.j2") >>
  on_fs (mkdir (fe_root // "public") true true).

(** Generate HTMX templates inside the API app directory. *)
Definition _generate_htmx_templates : M state unit :=
  let api_root := _api_root in
  let templates_dir := api_root // "app" // "templates" in
  let static_dir := api_root // "app" // "static" in
  write_rendered templates_dir
    [("frontend/htmx/templates/base.html.j2", "base.html");
     ("frontend/htmx/templates/index.html.j2", "index.html")] >>
  _write (templates_dir // "partials" // "user_list.html")
         (_render "frontend/htmx/templates/partials/user_list.html.j2") >>
  _write (templates_dir // "partials" // "user_form.html")
         (_render "frontend/htmx/templates/partials/user_form.html.j2") >>
  _write (static_dir // "css" // "style.css")
         (_render "frontend/htmx/static/css/style.css.j2") >>
  _write (api_root // "app" // "routers" // "pages.py")
         (_render "api/app/routers/pages.py.j2").

(** Generate GitHub Actions workflows for Azure deployment. *)
Definition _generate_azure_cicd : M state unit :=
  let api_root := _api_root in
  let api_workflows := api_root // ".github" // "workflows" in
  _write (api_workflows // "ci.yml") (_render "cicd/azure/ci-api.yml.j2") >>
  match ProjectConfig.frontend_type cfg with
  | react =>
      let fe_root := _frontend_root in
      let fe_workflows := fe_root // ".github" // "workflows" in
      _write (fe_workflows // "ci.yml")
             (_render "cicd/azure/ci-frontend.yml.j2") >>
      _write (fe_workflows // "deploy.yml")
             (_render "cicd/azure/deploy-frontend.yml.j2")
  | htmx => ret tt
  end.

(** Generate render.yaml for Render.com deployment. *)
Definition _generate_render_config : M state unit :=
  _write (project_root self // "render.yaml")
         (_render "cicd/render/render.yaml.j2").

(** Generate Alembic migration configuration.  [script.py.mako] is read
    from the package's own template directory. *)
Definition _generate_alembic : M state unit :=
  let api_root := _api_root in
  let alembic_dir := api_root // "alembic" in
  _write (api_root // "alembic.ini") (_render "alembic/alembic.ini.j2") >>
  _write (alembic_dir // "env.py") (_render "alembic/env.py.j2") >>
  _write (alembic_dir // "script.py.mako") (StaticAsset "alembic/script.py.mako") >>
  _write_empty (alembic_dir // "versions" // ".gitkeep").

(** Generate JWT authentication boilerplate. *)
Definition _generate_auth : M state unit :=
  let api_root := _api_root in
  let auth_dir := api_root // "app" // "auth" in
  _write_empty (auth_dir // "__init__.py") >>
  _write (auth_dir // "jwt.py") (_render "api/app/auth/jwt.py.j2") >>
  _write (auth_dir // "routes.py") (_render "api/app/auth/routes.py.j2").

(** Generate CLAUDE.md with AI development guidelines at project root. *)
Definition _generate_claude : M state unit :=
  _write (project_root self // "CLAUDE.md") (_render "claude/CLAUDE.md.j2").

(** Write .scaffold.json metadata; [now] is
    [datetime.now(timezone.utc).isoformat()]. *)
Definition metadata (now : string) : dict :=
  [("scaffold_version", JStr "0.1.0");
   ("project_name", JStr (ProjectConfig.name cfg));
   ("project_type", JStr (ProjectType_str (ProjectConfig.project_type cfg)));
   ("frontend_type", JStr (FrontendType_str (ProjectConfig.frontend_type cfg)));
   ("description", JStr (ProjectConfig.description cfg));
   ("db_name", JStr (ProjectConfig.resolved_db_name cfg));
   ("include_auth", JBool (ProjectConfig.include_auth cfg));
   ("include_alembic", JBool (ProjectConfig.include_alembic cfg));
   ("api_port", JInt (ProjectConfig.api_port cfg));
   ("frontend_port", JInt (ProjectConfig.frontend_port cfg));
   ("use_current_dir", JBool (ProjectConfig.use_current_dir cfg));
   ("include_tdd", JBool (ProjectConfig.include_tdd cfg));
   ("include_redis", JBool (ProjectConfig.include_redis cfg));
   ("include_sse", JBool (ProjectConfig.include_sse cfg));
   ("created_at", JStr now);
   ("components", JList [])].

Definition _write_metadata (now : string) : M state unit :=
  let path := project_root self // SCAFFOLD_METADATA_FILE in
  _write path (JsonText (JDict (metadata now))).

(** Return next-step instructions for the user. *)
Definition _git_instructions : list string :=
  (if ProjectConfig.is_multi_repo cfg then
     let api_name := ProjectConfig.name cfg +:+ "-api" in
     let fe_name := ProjectConfig.name cfg +:+ "-frontend" in
     ["cd " +:+ Path.to_string (project_root self // api_name) +:+ " && git init";
      "cd " +:+ Path.to_string (project_root self // fe_name) +:+ " && git init"]
   else if ProjectConfig.use_current_dir cfg then ["git init"]
   else ["cd " +:+ Path.to_string (project_root self) +:+ " && git init"])
  ++ ["Copy .env.example to .env and fill in values";
      "Run 'make up' to start docker-compose"]
  ++ (if ProjectConfig.include_alembic cfg then
        ["Run 'make migration msg=" +:+ String (ascii_of_nat 34) "initial"
           +:+ String (ascii_of_nat 34) "' to create first migration";
         "Run 'make migrate' to apply migrations"]
      else [])
  ++ [match ProjectConfig.project_type cfg with
      | work => "Link repo(s) to Azure App Service / Static Web Apps in the Azure portal"
      | personal => "Connect repo to Render.com and use the render.yaml blueprint"
      end].

Definition error_result (message : string) : dict :=
  [("status", JStr "error"); ("message", JStr message)].

(** The phases of [generate] that follow the checks of the target
    directory. *)
Definition generate_phases (now : string) : M state dict :=
  _generate_common >>
  _generate_docker >>
  _generate_api >>
  match ProjectConfig.frontend_type cfg with
  | react => _generate_react_frontend
  | htmx => _generate_htmx_templates
  end >>
  match ProjectConfig.project_type cfg with
  | work => _generate_azure_cicd
  | personal => _generate_render_config
  end >>
  (if ProjectConfig.include_alembic cfg then _generate_alembic else ret tt) >>
  (if ProjectConfig.include_auth cfg then _generate_auth else ret tt) >>
  _generate_claude >>
  _write_metadata now >>
  let git_instructions := _git_instructions in
  fun st =>
    (Return [("status", JStr "success");
             ("project_root", JStr (Path.to_string (project_root self)));
             ("files_created", JInt (Z.of_nat (length (files_created st))));
             ("file_list", JList (map JStr (files_created st)));
             ("next_steps", JList (map JStr git_instructions))],
     st).

(** Generate the complete project. Returns summary. *)
Definition generate (now : string) : M state dict :=
  if ProjectConfig.use_current_dir cfg then
    let* found := on_fs (path_exists (project_root self)) in
    if negb found then
      ret (error_result ("Directory does not exist: "
                         +:+ Path.to_string (project_root self)))
    else
      let* occupied := on_fs (any_iterdir (project_root self)) in
      if occupied then
        ret (error_result ("Directory is not empty: "
                           +:+ Path.to_string (project_root self)
                           +:+ ". use_current_dir requires an empty directory."))
      else generate_phases now
  else
    let* found := on_fs (path_exists (project_root self)) in
    if found then
      ret (error_result ("Directory already exists: "
                         +:+ Path.to_string (project_root self)))
    else
      on_fs (mkdir (project_root self) true false) >>
      generate_phases now.

(** List files expected in a scaffolded project. *)
Definition _expected_files : list string :=
  let api_prefix :=
    if ProjectConfig.is_multi_repo cfg
    then ProjectConfig.name cfg +:+ "-api" else EmptyString in
  let fe_prefix :=
    if ProjectConfig.is_multi_repo cfg
    then ProjectConfig.name cfg +:+ "-frontend" else EmptyString in
  let api (p : string) :=
    if truthy api_prefix then api_prefix +:+ "/" +:+ p else p in
  let fe (p : string) :=
    if truthy fe_prefix then fe_prefix +:+ "/" +:+ p else p in
  let fe2 (p : string) :=
    let fe_prefix_val := if truthy fe_prefix then fe_prefix else EmptyString in
    if truthy fe_prefix_val then fe_prefix_val +:+ "/" +:+ p else p in
  [SCAFFOLD_METADATA_FILE; "README.md"; "CLAUDE.md"; ".env.example";
   "Makefile"; "docker-compose.yml"; "docker-compose.override.yml"]
  ++ [api ".gitignore"; api "Dockerfile"; api "pyproject.toml";
      api "startup.sh"; api "app/__init__.py"; api "app/main.py";
      api "app/config.py"; api "app/database.py"; api "app/dependencies.py";
      api "app/models/__init__.py"; api "app/models/base.py";
      api "app/models/user.py"; api "app/schemas/__init__.py";
      api "app/schemas/common.py"; api "app/schemas/user.py";
      api "app/routers/__init__.py"; api "app/routers/health.py";
      api "app/routers/users.py"; api "tests/__init__.py";
      api "tests/conftest.py"; api "tests/test_health.py"]
  ++ (if ProjectConfig.include_alembic cfg then
        [api "alembic.ini"; api "alembic/env.py";
         api "alembic/script.py.mako"; api "alembic/versions/.gitkeep"]
      else [])
  ++ (if ProjectConfig.include_sse cfg then [api "app/routers/sse.py"] else [])
  ++ (if ProjectConfig.include_auth cfg then
        [api "app/auth/__init__.py"; api "app/auth/jwt.py";
         api "app/auth/routes.py"]
      else [])
  ++ match ProjectConfig.frontend_type cfg with
     | react =>
         [fe ".gitignore"; fe "Dockerfile"; fe "package.json";
          fe "vite.config.ts"; fe "tsconfig.json"; fe "index.html";
          fe "src/main.tsx"; fe "src/App.tsx"]
     | htmx =>
         [api "app/templates/base.html"; api "app/templates/index.html";
          api "app/routers/pages.py"]
     end
  ++ match ProjectConfig.project_type cfg with
     | work =>
         api ".github/workflows/ci.yml"
         :: match ProjectConfig.frontend_type cfg with
            | react =>
                [fe2 ".github/workflows/ci.yml"; fe2 ".github/workflows/deploy.yml"]
            | htmx => []
            end
     | personal => ["render.yaml"]
     end.

(** Validate that all expected files exist in the project. *)
Definition validate : M state dict :=
  fun st =>
    let expected := _expected_files in
    let missing :=
      List.filter (fun f => negb (Path_exists (fs st) (project_root self // f)))
                  expected in
    (Return [("status", JStr (match missing with [] => "valid" | _ => "invalid" end));
             ("project_root", JStr (Path.to_string (project_root self)));
             ("total_expected", JInt (Z.of_nat (length expected)));
             ("missing_files", JList (map JStr missing));
             ("missing_count", JInt (Z.of_nat (length missing)))],
     st).

(** Return information about the scaffolded project. *)
Definition info : M state dict :=
  let meta_path := project_root self // SCAFFOLD_METADATA_FILE in
  let* text := on_fs (read_text meta_path) in
  let* meta := json_loads text in
  ret [("project_root", JStr (Path.to_string (project_root self)));
       ("config", meta);
       ("structure",
        JStr (if ProjectConfig.is_multi_repo cfg then "multi-repo" else "single-repo"))].

End Methods.
End ProjectGenerator.

(* ================================================================== *)
(** * renderers/api.py *)
(* ================================================================== *)

Module api.
Import ProjectGenerator.

(** [config.fields or {}] *)
Definition fields_or_empty (config : ComponentConfig.t) : list (string * string) :=
  match ComponentConfig.fields config with
  | Some f => f
  | None => []
  end.

Definition component_entry (component_type name : string) : json :=
  JDict [("type", JStr component_type); ("name", JStr name)].

(** [meta.setdefault("components", []).append(entry)], and the dict that
    is left in [meta]. *)
Definition append_component (meta : json) (entry : json) : M FileSystem json :=
  match meta with
  | JDict d =>
      match dict_get "components" d with
      | None => ret (JDict (dict_set "components" (JList [entry]) d))
      | Some (JList l) => ret (JDict (dict_set "components" (JList (l ++ [entry])) d))
      | Some _ => raise AttributeError
      end
  | _ => raise AttributeError
  end.

(** Update .scaffold.json with the new component. *)
Definition _update_metadata (project_root : Path.t) (component_type name : string)
  : M FileSystem unit :=
  let meta_path := project_root // SCAFFOLD_METADATA_FILE in
  let* found := path_exists meta_path in
  if found then
    let* text := read_text meta_path in
    let* meta := json_loads text in
    let* meta' := append_component meta (component_entry component_type name) in
    write_text meta_path (JsonText meta')
  else ret tt.

Definition success_result (component name : string) (files : list string)
           (next_steps : list string) : dict :=
  [("status", JStr "success");
   ("component", JStr component);
   ("name", JStr name);
   ("files_created", JList (map JStr files));
   ("next_steps", JList (map JStr next_steps))].

Definition get_files_created : M state (list string) :=
  fun st => (Return (files_created st), st).

(** Add a new SQLAlchemy model + Pydantic schema to an existing project. *)
Definition add_model (generator : ProjectGenerator.t) (config : ComponentConfig.t)
  : M state dict :=
  let api_root := _api_root generator in
  let name := lower (ComponentConfig.name config) in
  let fields := fields_or_empty config in
  let model_path := api_root // "app" // "models" // (name +:+ ".py") in
  let* model_found := on_fs (path_exists model_path) in
  if model_found then
    ret (error_result ("Model already exists: " +:+ Path.to_string model_path))
  else
    _write generator model_path (ModelCode name fields) >>
    let schema_path := api_root // "app" // "schemas" // (name +:+ ".py") in
    let* schema_found := on_fs (path_exists schema_path) in
    (if negb schema_found
     then _write generator schema_path (SchemaCode name fields)
     else ret tt) >>
    on_fs (_update_metadata (project_root generator) "db_model" name) >>
    let* files := get_files_created in
    ret (success_result "db_model" name files
           ["Import the model in alembic/env.py: `from app.models import " +:+ name +:+ "`";
            "Run 'make migration msg=" +:+ String (ascii_of_nat 34) "add " +:+ name
              +:+ String (ascii_of_nat 34) "' to create migration";
            "Run 'make migrate' to apply"]).

Definition is_error (result : dict) : bool :=
  match dict_get "status" result with
  | Some (JStr s) => String.eqb s "error"
  | _ => false
  end.

(** Add a new API router + schema to an existing project. *)
Definition add_router (generator : ProjectGenerator.t) (config : ComponentConfig.t)
  : M state dict :=
  let api_root := _api_root generator in
  let name := lower (ComponentConfig.name config) in
  let fields := fields_or_empty config in
  let rest : M state dict :=
    let router_path := api_root // "app" // "routers" // (name +:+ ".py") in
    let* router_found := on_fs (path_exists router_path) in
    if router_found then
      ret (error_result ("Router already exists: " +:+ Path.to_string router_path))
    else
      _write generator router_path
             (RouterCode name fields (ProjectConfig.include_auth (ProjectGenerator.config generator))) >>
      (match fields with
       | [] =>
           let schema_path := api_root // "app" // "schemas" // (name +:+ ".py") in
           let* schema_found := on_fs (path_exists schema_path) in
           if negb schema_found
           then _write generator schema_path (SchemaCode name fields)
           else ret tt
       | _ => ret tt
       end) >>
      on_fs (_update_metadata (project_root generator) "api_router" name) >>
      let* files := get_files_created in
      ret (success_result "api_router" name files
             ["Add `from app.routers import " +:+ name +:+ "` to app/main.py";
              "Add `app.include_router(" +:+ name +:+ ".router, prefix="
                +:+ String (ascii_of_nat 34) "/api/" +:+ name
                +:+ String (ascii_of_nat 34) ", tags=["
                +:+ String (ascii_of_nat 34) name
                +:+ String (ascii_of_nat 34) "])` to app/main.py"]) in
  match fields with
  | [] => rest
  | _ =>
      let* result := add_model generator config in
      if is_error result then ret result else rest
  end.

End api.

(** [ProjectGenerator.add_component]: add a component to an existing
    project. *)
Definition ProjectGenerator_add_component (self : ProjectGenerator.t)
           (component_config : ComponentConfig.t) : M ProjectGenerator.state dict :=
  match ComponentConfig.component component_config with
  | api_router => api.add_router self component_config
  | db_model => api.add_model self component_config
  | other =>
      ret (ProjectGenerator.error_result
             ("Component type '" +:+ ComponentKind_str other +:+ "' not yet implemented"))
  end.

(* ================================================================== *)
(** * server.py *)
(* ================================================================== *)

Module server.

(** A tool call works on a generator object of its own, whose
    [files_created] starts empty and is dropped when the call ends. *)
Definition with_generator {A} (m : M ProjectGenerator.state A) : M FileSystem A :=
  fun fs0 =>
    match m (ProjectGenerator.mkState [] fs0) with
    | (r, st) => (r, ProjectGenerator.fs st)
    end.

Definition create_project (config : ProjectConfig.t) (now : string)
  : M FileSystem dict :=
  let generator := ProjectGenerator.__init__ config in
  with_generator (ProjectGenerator.generate generator now).

Definition add_component (config : ComponentConfig.t) : M FileSystem dict :=
  let* generator := ProjectGenerator.from_existing (ComponentConfig.project_dir config) in
  with_generator (ProjectGenerator_add_component generator config).

Definition validate_project (project_dir : string) : M FileSystem dict :=
  let* generator := ProjectGenerator.from_existing project_dir in
  with_generator (ProjectGenerator.validate generator).

Definition get_project_info (project_dir : string) : M FileSystem dict :=
  let* generator := ProjectGenerator.from_existing project_dir in
  with_generator (ProjectGenerator.info generator).

End server.

(* ================================================================== *)
(** * Reading results *)
(* ================================================================== *)

Definition status_of (result : dict) : option json := dict_get "status" result.

Definition empty_fs : FileSystem := mkFS [] ∅.

Definition acme : ProjectConfig.t :=
  ProjectConfig.mk "acme" personal htmx "demo" "/tmp/w" false None
                   true true 8000 3000 false false false.

(* ================================================================== *)
(** * Notions used by the properties *)
(* ================================================================== *)

Fixpoint no_slash (s : string) : bool :=
  match s with
  | EmptyString => true
  | String a s' => negb (Ascii.eqb a "/") && no_slash s'
  end.

(** A name that is one part of a path: not empty, without a slash, and
    neither [.] nor [..]. *)
Definition identifier_token (s : string) : bool :=
  no_slash s && truthy s && negb (String.eqb s ".") && negb (String.eqb s "..").

(** A part as pathlib keeps it. *)
Definition clean_part (s : string) : bool := no_slash s && Path.kept s.

Definition clean (p : Path.t) : Prop := Forall (fun x => clean_part x = true) (Path.parts p).

Definition with_name (n : string) (c : ProjectConfig.t) : ProjectConfig.t :=
  ProjectConfig.mk n
    (ProjectConfig.project_type c) (ProjectConfig.frontend_type c)
    (ProjectConfig.description c) (ProjectConfig.output_dir c)
    (ProjectConfig.use_current_dir c) (ProjectConfig.db_name c)
    (ProjectConfig.include_auth c) (ProjectConfig.include_alembic c)
    (ProjectConfig.api_port c) (ProjectConfig.frontend_port c)
    (ProjectConfig.include_tdd c) (ProjectConfig.include_redis c)
    (ProjectConfig.include_sse c).

(** The keyword arguments of Scenario A, with a name to choose. *)
Definition scenario_kwargs (n : string) : dict :=
  [("name", JStr n); ("project_type", JStr "personal");
   ("frontend_type", JStr "htmx"); ("output_dir", JStr "/tmp/w")].

(** Keyword arguments with values that pydantic converts: a port given as
    a string of digits, a flag as 0 and a flag as a word. *)
Definition lenient_kwargs : dict :=
  scenario_kwargs "acme"
  ++ [("api_port", JStr "9000"); ("include_auth", JInt 0);
      ("include_sse", JStr "Yes")].

(** What the specification asks of the constructor: an empty name is
    refused, whatever the other arguments are. *)
Definition empty_name_rejected : Prop :=
  forall (kw : dict) (s : unit),
    dict_get "name" kw = Some (JStr EmptyString) ->
    exists e, ProjectConfig.create kw s = (Raise e, s).

(** The readers of keyword arguments leave the state alone. *)
Definition reads_only {S A} (m : M S A) : Prop :=
  forall s a s1, m s = (Return a, s1) -> s1 = s /\ forall s2, m s2 = (Return a, s2).

(** [fs'] has everything [fs] has: directories stay directories and files
    stay files (their text may change). *)
Definition fs_grows (fs fs' : FileSystem) : Prop :=
  cwd fs' = cwd fs /\
  forall k,
    (stat_key fs k = Some Dir -> stat_key fs' k = Some Dir) /\
    (forall c, stat_key fs k = Some (File c) -> exists c', stat_key fs' k = Some (File c')).

(** The keys at which two file systems differ are all among the prefixes
    of the keys in [ks]. *)
Definition changed_within (ks : list (list string)) (fs fs' : FileSystem) : Prop :=
  forall k, stat_key fs' k <> stat_key fs k ->
            exists k0 rest, In k0 ks /\ k0 = k ++ rest.

(** What a method of the generator does when it returns: it records the
    files [L] (as parts under the project root), in this order, the file
    system has grown, and every recorded file is there. *)
Definition writes (self : ProjectGenerator.t) (L : list (list string))
           {A} (m : M ProjectGenerator.state A) : Prop :=
  forall st a st',
    m st = (Return a, st') ->
    ProjectGenerator.files_created st'
      = ProjectGenerator.files_created st ++ map join_slash L /\
    fs_grows (ProjectGenerator.fs st) (ProjectGenerator.fs st') /\
    Forall (fun q => Path_exists (ProjectGenerator.fs st')
                       (Path.extend (ProjectGenerator.project_root self) q) = true) L.

(** The API root and the frontend root, as parts under the project root. *)
Definition api_parts (c : ProjectConfig.t) : list string :=
  if ProjectConfig.is_multi_repo c then [ProjectConfig.name c +:+ "-api"] else [].

Definition frontend_parts (c : ProjectConfig.t) : list string :=
  [ProjectConfig.name c +:+ "-frontend"].

(** The files each phase of [generate] records, as parts under the project
    root and in the order in which they are written. *)
Definition common_parts (c : ProjectConfig.t) : list (list string) :=
  [["README.md"]; [".env.example"]; ["Makefile"]]
  ++ (if ProjectConfig.is_multi_repo c
      then [api_parts c ++ [".gitignore"]; frontend_parts c ++ [".gitignore"]]
      else [[".gitignore"]]).

Definition docker_parts : list (list string) :=
  [["docker-compose.yml"]; ["docker-compose.override.yml"]].

Definition api_tree_parts (c : ProjectConfig.t) : list (list string) :=
  map (app (api_parts c))
    ([["pyproject.toml"]; ["Dockerfile"]; ["startup.sh"];
      ["app"; "main.py"]; ["app"; "config.py"]; ["app"; "database.py"];
      ["app"; "dependencies.py"]; ["app"; "__init__.py"];
      ["app"; "models"; "__init__.py"]; ["app"; "models"; "base.py"];
      ["app"; "models"; "user.py"];
      ["app"; "schemas"; "__init__.py"]; ["app"; "schemas"; "common.py"];
      ["app"; "schemas"; "user.py"];
      ["app"; "routers"; "__init__.py"]; ["app"; "routers"; "health.py"];
      ["app"; "routers"; "users.py"]]
     ++ (if ProjectConfig.include_sse c then [["app"; "routers"; "sse.py"]] else [])
     ++ [["tests"; "__init__.py"]; ["tests"; "conftest.py"];
         ["tests"; "test_health.py"]]).

Definition react_parts (c : ProjectConfig.t) : list (list string) :=
  map (app (frontend_parts c))
    [["package.json"]; ["vite.config.ts"]; ["tsconfig.json"];
     ["tsconfig.node.json"]; ["index.html"]; ["Dockerfile"]; ["nginx.conf"];
     ["src"; "main.tsx"]; ["src"; "App.tsx"]; ["src"; "vite-env.d.ts"];
     ["src"; "api"; "client.ts"]; ["src"; "pages"; "Home.tsx"];
     ["src"; "components"; "Layout.tsx"]; ["src"; "styles"; "globals.css"]].

Definition htmx_parts (c : ProjectConfig.t) : list (list string) :=
  map (app (api_parts c))
    [["app"; "templates"; "base.html"]; ["app"; "templates"; "index.html"];
     ["app"; "templates"; "partials"; "user_list.html"];
     ["app"; "templates"; "partials"; "user_form.html"];
     ["app"; "static"; "css"; "style.css"]; ["app"; "routers"; "pages.py"]].

Definition azure_parts (c : ProjectConfig.t) : list (list string) :=
  [api_parts c ++ [".github"; "workflows"; "ci.yml"]]
  ++ match ProjectConfig.frontend_type c with
     | react => [frontend_parts c ++ [".github"; "workflows"; "ci.yml"];
                 frontend_parts c ++ [".github"; "workflows"; "deploy.yml"]]
     | htmx => []
     end.

Definition alembic_parts (c : ProjectConfig.t) : list (list string) :=
  map (app (api_parts c))
    [["alembic.ini"]; ["alembic"; "env.py"]; ["alembic"; "script.py.mako"];
     ["alembic"; "versions"; ".gitkeep"]].

Definition auth_parts (c : ProjectConfig.t) : list (list string) :=
  map (app (api_parts c))
    [["app"; "auth"; "__init__.py"]; ["app"; "auth"; "jwt.py"];
     ["app"; "auth"; "routes.py"]].

Definition generated_parts (c : ProjectConfig.t) : list (list string) :=
  common_parts c ++ docker_parts ++ api_tree_parts c
  ++ match ProjectConfig.frontend_type c with
     | react => react_parts c
     | htmx => htmx_parts c
     end
  ++ match ProjectConfig.project_type c with
     | work => azure_parts c
     | personal => [["render.yaml"]]
     end
  ++ (if ProjectConfig.include_alembic c then alembic_parts c else [])
  ++ (if ProjectConfig.include_auth c then auth_parts c else [])
  ++ [["CLAUDE.md"]] ++ [[".scaffold.json"]].

(** The three failures of the target directory that the specification
    lists for [generate], each with the message of its result. *)
Inductive PreconditionFailure (self : ProjectGenerator.t) (fs : FileSystem)
  : string -> Prop :=
| target_missing :
    ProjectConfig.use_current_dir (ProjectGenerator.config self) = true ->
    Path_exists fs (ProjectGenerator.project_root self) = false ->
    PreconditionFailure self fs
      ("Directory does not exist: "
       +:+ Path.to_string (ProjectGenerator.project_root self))
| target_not_empty :
    ProjectConfig.use_current_dir (ProjectGenerator.config self) = true ->
    is_dir fs (ProjectGenerator.project_root self) = true ->
    children fs (locate fs (ProjectGenerator.project_root self)) <> [] ->
    PreconditionFailure self fs
      ("Directory is not empty: "
       +:+ Path.to_string (ProjectGenerator.project_root self)
       +:+ ". use_current_dir requires an empty directory.")
| target_exists :
    ProjectConfig.use_current_dir (ProjectGenerator.config self) = false ->
    Path_exists fs (ProjectGenerator.project_root self) = true ->
    PreconditionFailure self fs
      ("Directory already exists: "
       +:+ Path.to_string (ProjectGenerator.project_root self)).

(** The summary that a completed generation returns. *)
Definition success_summary (self : ProjectGenerator.t)
           (st : ProjectGenerator.state) : dict :=
  [("status", JStr "success");
   ("project_root", JStr (Path.to_string (ProjectGenerator.project_root self)));
   ("files_created", JInt (Z.of_nat (length (ProjectGenerator.files_created st))));
   ("file_list", JList (map JStr (ProjectGenerator.files_created st)));
   ("next_steps", JList (map JStr (ProjectGenerator._git_instructions self)))].

(** The message of the [FileNotFoundError] that [from_existing] raises. *)
Definition not_scaffolded_message (project_dir : string) : string :=
  "No " +:+ SCAFFOLD_METADATA_FILE +:+ " found in " +:+ project_dir
  +:+ ". Is this a scaffolded project?".

(** What the specification asks of the three operations on an existing
    project when the manifest is missing: an error result, not a fault. *)
Definition manifest_missing_is_an_error_result : Prop :=
  forall (request : ComponentConfig.t) (fs : FileSystem),
    Path_exists fs (Path.of_string (ComponentConfig.project_dir request)
                    // SCAFFOLD_METADATA_FILE) = false ->
    forall op,
      In op [server.add_component request;
             server.validate_project (ComponentConfig.project_dir request);
             server.get_project_info (ComponentConfig.project_dir request)] ->
      exists d fs', op fs = (Return d, fs') /\ status_of d = Some (JStr "error").

(** A request for a model called widget in the project of Scenario A. *)
Definition widget_model : ComponentConfig.t :=
  ComponentConfig.mk "/tmp/w/acme" db_model "widget" None.

(** Scenario D: generation into the current directory, which holds a file. *)
Definition in_place : ProjectConfig.t :=
  ProjectConfig.mk "acme" personal htmx "demo" "/tmp/w" true None
                   true true 8000 3000 false false false.

Definition occupied_fs : FileSystem :=
  mkFS [] (<[ ["tmp"; "w"; "notes.txt"] := File Empty ]>
           (<[ ["tmp"; "w"] := Dir ]> (<[ ["tmp"] := Dir ]> ∅))).

(** Where a generated file sits: in the workspace root, under the API
    root, or under the frontend root. *)
Inductive base := AtRoot | InApi | InFrontend.

(** The parts under the project root of a file given by its base and its
    parts under that base. *)
Definition place (c : ProjectConfig.t) (t : base * list string) : list string :=
  match fst t with
  | AtRoot => []
  | InApi => api_parts c
  | InFrontend => frontend_parts c
  end ++ snd t.

(** The files generation records and the files the validator expects, by
    base, as functions of the five settings that select files. *)
Definition generated_tokens (ft : FrontendType) (pt : ProjectType)
           (alembic sse auth : bool) : list (base * list string) :=
  [(AtRoot, ["README.md"]); (AtRoot, [".env.example"]); (AtRoot, ["Makefile"]);
   (InApi, [".gitignore"])]
  ++ match ft with react => [(InFrontend, [".gitignore"])] | htmx => [] end
  ++ [(AtRoot, ["docker-compose.yml"]); (AtRoot, ["docker-compose.override.yml"])]
  ++ map (pair InApi)
       ([["pyproject.toml"]; ["Dockerfile"]; ["startup.sh"];
         ["app"; "main.py"]; ["app"; "config.py"]; ["app"; "database.py"];
         ["app"; "dependencies.py"]; ["app"; "__init__.py"];
         ["app"; "models"; "__init__.py"]; ["app"; "models"; "base.py"];
         ["app"; "models"; "user.py"];
         ["app"; "schemas"; "__init__.py"]; ["app"; "schemas"; "common.py"];
         ["app"; "schemas"; "user.py"];
         ["app"; "routers"; "__init__.py"]; ["app"; "routers"; "health.py"];
         ["app"; "routers"; "users.py"]]
        ++ (if sse then [["app"; "routers"; "sse.py"]] else [])
        ++ [["tests"; "__init__.py"]; ["tests"; "conftest.py"];
            ["tests"; "test_health.py"]])
  ++ match ft with
     | react =>
         map (pair InFrontend)
           [["package.json"]; ["vite.config.ts"]; ["tsconfig.json"];
            ["tsconfig.node.json"]; ["index.html"]; ["Dockerfile"]; ["nginx.conf"];
            ["src"; "main.tsx"]; ["src"; "App.tsx"]; ["src"; "vite-env.d.ts"];
            ["src"; "api"; "client.ts"]; ["src"; "pages"; "Home.tsx"];
            ["src"; "components"; "Layout.tsx"]; ["src"; "styles"; "globals.css"]]
     | htmx =>
         map (pair InApi)
           [["app"; "templates"; "base.html"]; ["app"; "templates"; "index.html"];
            ["app"; "templates"; "partials"; "user_list.html"];
            ["app"; "templates"; "partials"; "user_form.html"];
            ["app"; "static"; "css"; "style.css"]; ["app"; "routers"; "pages.py"]]
     end
  ++ match pt with
     | work =>
         (InApi, [".github"; "workflows"; "ci.yml"])
         :: match ft with
            | react => [(InFrontend, [".github"; "workflows"; "ci.yml"]);
                        (InFrontend, [".github"; "workflows"; "deploy.yml"])]
            | htmx => []
            end
     | personal => [(AtRoot, ["render.yaml"])]
     end
  ++ (if alembic then
        map (pair InApi)
          [["alembic.ini"]; ["alembic"; "env.py"]; ["alembic"; "script.py.mako"];
           ["alembic"; "versions"; ".gitkeep"]]
      else [])
  ++ (if auth then
        map (pair InApi)
          [["app"; "auth"; "__init__.py"]; ["app"; "auth"; "jwt.py"];
           ["app"; "auth"; "routes.py"]]
      else [])
  ++ [(AtRoot, ["CLAUDE.md"]); (AtRoot, [".scaffold.json"])].

Definition expected_tokens (ft : FrontendType) (pt : ProjectType)
           (alembic sse auth : bool) : list (base * list string) :=
  map (pair AtRoot)
    [[".scaffold.json"]; ["README.md"]; ["CLAUDE.md"]; [".env.example"];
     ["Makefile"]; ["docker-compose.yml"]; ["docker-compose.override.yml"]]
  ++ map (pair InApi)
       [[".gitignore"]; ["Dockerfile"]; ["pyproject.toml"]; ["startup.sh"];
        ["app"; "__init__.py"]; ["app"; "main.py"]; ["app"; "config.py"];
        ["app"; "database.py"]; ["app"; "dependencies.py"];
        ["app"; "models"; "__init__.py"]; ["app"; "models"; "base.py"];
        ["app"; "models"; "user.py"]; ["app"; "schemas"; "__init__.py"];
        ["app"; "schemas"; "common.py"]; ["app"; "schemas"; "user.py"];
        ["app"; "routers"; "__init__.py"]; ["app"; "routers"; "health.py"];
        ["app"; "routers"; "users.py"]; ["tests"; "__init__.py"];
        ["tests"; "conftest.py"]; ["tests"; "test_health.py"]]
  ++ (if alembic then
        map (pair InApi)
          [["alembic.ini"]; ["alembic"; "env.py"]; ["alembic"; "script.py.mako"];
           ["alembic"; "versions"; ".gitkeep"]]
      else [])
  ++ (if sse then [(InApi, ["app"; "routers"; "sse.py"])] else [])
  ++ (if auth then
        map (pair InApi)
          [["app"; "auth"; "__init__.py"]; ["app"; "auth"; "jwt.py"];
           ["app"; "auth"; "routes.py"]]
      else [])
  ++ match ft with
     | react =>
         map (pair InFrontend)
           [[".gitignore"]; ["Dockerfile"]; ["package.json"]; ["vite.config.ts"];
            ["tsconfig.json"]; ["index.html"]; ["src"; "main.tsx"];
            ["src"; "App.tsx"]]
     | htmx =>
         map (pair InApi)
           [["app"; "templates"; "base.html"]; ["app"; "templates"; "index.html"];
            ["app"; "routers"; "pages.py"]]
     end
  ++ match pt with
     | work =>
         (InApi, [".github"; "workflows"; "ci.yml"])
         :: match ft with
            | react => [(InFrontend, [".github"; "workflows"; "ci.yml"]);
                        (InFrontend, [".github"; "workflows"; "deploy.yml"])]
            | htmx => []
            end
     | personal => [(AtRoot, ["render.yaml"])]
     end.

Definition tokens_of (tokens : FrontendType -> ProjectType -> bool -> bool -> bool
                               -> list (base * list string))
           (c : ProjectConfig.t) : list (base * list string) :=
  tokens (ProjectConfig.frontend_type c) (ProjectConfig.project_type c)
         (ProjectConfig.include_alembic c) (ProjectConfig.include_sse c)
         (ProjectConfig.include_auth c).

(** [result["file_list"]] *)
Definition file_list (result : dict) : list json :=
  match dict_get "file_list" result with
  | Some (JList l) => l
  | _ => []
  end.

(** The name is free of slashes where it is used to name directories:
    in a project of two repositories. *)
Definition name_fits (c : ProjectConfig.t) : Prop :=
  ProjectConfig.frontend_type c = react -> no_slash (ProjectConfig.name c) = true.

(** Scenario B: the project of Scenario A with a React frontend. *)
Definition acme_react : ProjectConfig.t :=
  ProjectConfig.mk "acme" personal react "demo" "/tmp/w" false None
                   true true 8000 3000 false false false.

(** [f] is a path inside the directory [dir]. *)
Definition under (dir f : string) : bool := String.prefix (dir +:+ "/") f.

(** What the specification says of the validator's list: it is the file
    plan of generation, the same set of relative paths. *)
Definition same_file_plan : Prop :=
  forall (c : ProjectConfig.t) (now : string) (fs : FileSystem) (d : dict),
    fst (server.create_project c now fs) = Return d ->
    status_of d = Some (JStr "success") ->
    forall f, In f (ProjectGenerator._expected_files (ProjectGenerator.__init__ c))
              <-> In (JStr f) (file_list d).

(** What the specification says of a project of two repositories: every
    path that generation creates lies under one of the two sub-roots. *)
Definition two_sub_roots_hold_everything : Prop :=
  forall (c : ProjectConfig.t) (now : string) (fs : FileSystem) (d : dict),
    fst (server.create_project c now fs) = Return d ->
    status_of d = Some (JStr "success") ->
    ProjectConfig.is_multi_repo c = true ->
    forall f, In (JStr f) (file_list d) ->
              under (ProjectConfig.name c +:+ "-api") f = true \/
              under (ProjectConfig.name c +:+ "-frontend") f = true.

(** Where a recorded file lies in a project of two repositories: directly
    in the workspace root, or inside one of the two sub-roots. *)
Definition in_workspace_or_sub_root (c : ProjectConfig.t) (q : list string) : Prop :=
  (exists leaf, q = [leaf]) \/
  (exists rest, rest <> [] /\ q = (ProjectConfig.name c +:+ "-api") :: rest) \/
  (exists rest, rest <> [] /\ q = (ProjectConfig.name c +:+ "-frontend") :: rest).

(** The same, read on a token. *)
Definition token_in_place (t : base * list string) : bool :=
  match fst t, snd t with
  | AtRoot, [_] => true
  | AtRoot, _ => false
  | _, [] => false
  | _, _ => true
  end.

(** Scenario A, run on an empty file system: the summary it returns and
    the file system it leaves. *)
Definition scenario_a_summary : dict :=
  Eval vm_compute in
    match fst (server.create_project acme "t0" empty_fs) with
    | Return d => d
    | Raise _ => []
    end.

Definition scenario_a_fs : FileSystem :=
  snd (server.create_project acme "t0" empty_fs).

(** Scenario B, run on an empty file system. *)
Definition react_summary : dict :=
  Eval vm_compute in
    match fst (server.create_project acme_react "t0" empty_fs) with
    | Return d => d
    | Raise _ => []
    end.

Definition react_fs : FileSystem :=
  snd (server.create_project acme_react "t0" empty_fs).

(** The configuration that [from_existing] rebuilds from the manifest that
    generation wrote for [c], when it is given the directory [project_dir]. *)
Definition reloaded (c : ProjectConfig.t) (project_dir : string) : ProjectConfig.t :=
  ProjectConfig.mk
    (ProjectConfig.name c) (ProjectConfig.project_type c)
    (ProjectConfig.frontend_type c) (ProjectConfig.description c)
    (if ProjectConfig.use_current_dir c then project_dir
     else Path.to_string (Path.parent (Path.of_string project_dir)))
    (ProjectConfig.use_current_dir c)
    (Some (ProjectConfig.resolved_db_name c))
    (ProjectConfig.include_auth c) (ProjectConfig.include_alembic c)
    (ProjectConfig.api_port c) (ProjectConfig.frontend_port c)
    (ProjectConfig.include_tdd c) (ProjectConfig.include_redis c)
    (ProjectConfig.include_sse c).

(** The result of a validation that misses nothing. *)
Definition valid_result (self : ProjectGenerator.t) : dict :=
  [("status", JStr "valid");
   ("project_root", JStr (Path.to_string (ProjectGenerator.project_root self)));
   ("total_expected",
    JInt (Z.of_nat (length (ProjectGenerator._expected_files self))));
   ("missing_files", JList []);
   ("missing_count", JInt 0)].

(** The manifest of the project at [root], when it holds a JSON object. *)
Definition manifest_of (fs : FileSystem) (root : Path.t) : option dict :=
  match stat fs (root // SCAFFOLD_METADATA_FILE) with
  | Some (File (JsonText (JDict meta))) => Some meta
  | _ => None
  end.

(** Its list of components; a manifest without the key has none. *)
Definition components_of (meta : dict) : option (list json) :=
  match dict_get "components" meta with
  | None => Some []
  | Some (JList l) => Some l
  | Some _ => None
  end.

Definition manifest_components (fs : FileSystem) (root : Path.t) : option (list json) :=
  match manifest_of fs root with
  | Some meta => components_of meta
  | None => None
  end.

(** The file of a component: [kind] is [models], [schemas] or [routers]. *)
Definition component_path (g : ProjectGenerator.t) (kind name : string) : Path.t :=
  ProjectGenerator._api_root g // "app" // kind // (lower name +:+ ".py").

(** The project root and the three package directories of the API are
    directories. *)
Definition dirs_ready (g : ProjectGenerator.t) (fs : FileSystem) : bool :=
  is_dir fs (ProjectGenerator.project_root g)
  && is_dir fs (ProjectGenerator._api_root g // "app" // "models")
  && is_dir fs (ProjectGenerator._api_root g // "app" // "schemas")
  && is_dir fs (ProjectGenerator._api_root g // "app" // "routers").

(** The parts, under the project root, of the file of a component. *)
Definition component_parts (c : ProjectConfig.t) (kind file : string) : list string :=
  (api_parts c ++ ["app"; kind]) ++ [file].

(** The state that a first [add_model] leaves: the model file, the schema
    file unless there was one, and one more entry in the manifest. *)
Definition model_added (g : ProjectGenerator.t) (request : ComponentConfig.t)
           (meta : dict) (l : list json) (st : ProjectGenerator.state)
  : ProjectGenerator.state :=
  let c := ProjectGenerator.config g in
  let name := lower (ComponentConfig.name request) in
  let fields := api.fields_or_empty request in
  let here := locate (ProjectGenerator.fs st) (ProjectGenerator.project_root g) in
  let model := component_parts c "models" (name +:+ ".py") in
  let schema := component_parts c "schemas" (name +:+ ".py") in
  let had_schema :=
    Path_exists (ProjectGenerator.fs st)
                (Path.extend (ProjectGenerator.project_root g) schema) in
  let fs_model := put (here ++ model) (File (ModelCode name fields)) (ProjectGenerator.fs st) in
  let fs_schema :=
    if had_schema then fs_model
    else put (here ++ schema) (File (SchemaCode name fields)) fs_model in
  ProjectGenerator.mkState
    (ProjectGenerator.files_created st
     ++ [join_slash model] ++ (if had_schema then [] else [join_slash schema]))
    (put (here ++ [SCAFFOLD_METADATA_FILE])
         (File (JsonText (JDict (dict_set "components"
                                   (JList (l ++ [api.component_entry "db_model" name]))
                                   meta))))
         fs_schema).

(** The state that the router step of [add_router] leaves when fields were
    given: the router file and one more entry in the manifest. *)
Definition router_added (g : ProjectGenerator.t) (request : ComponentConfig.t)
           (meta : dict) (l : list json) (st : ProjectGenerator.state)
  : ProjectGenerator.state :=
  let c := ProjectGenerator.config g in
  let name := lower (ComponentConfig.name request) in
  let fields := api.fields_or_empty request in
  let here := locate (ProjectGenerator.fs st) (ProjectGenerator.project_root g) in
  let router := component_parts c "routers" (name +:+ ".py") in
  ProjectGenerator.mkState
    (ProjectGenerator.files_created st ++ [join_slash router])
    (put (here ++ [SCAFFOLD_METADATA_FILE])
         (File (JsonText (JDict (dict_set "components"
                                   (JList (l ++ [api.component_entry "api_router" name]))
                                   meta))))
         (put (here ++ router)
              (File (RouterCode name fields
                                (ProjectConfig.include_auth c)))
              (ProjectGenerator.fs st))).

(** The part of [add_router] that follows the model: the router file and
    its entry in the manifest. *)
Definition router_step (generator : ProjectGenerator.t) (config : ComponentConfig.t)
  : M ProjectGenerator.state dict :=
  let api_root := ProjectGenerator._api_root generator in
  let name := lower (ComponentConfig.name config) in
  let fields := api.fields_or_empty config in
  let router_path := api_root // "app" // "routers" // (name +:+ ".py") in
  let* router_found := ProjectGenerator.on_fs (path_exists router_path) in
  if router_found then
    ret (ProjectGenerator.error_result
           ("Router already exists: " +:+ Path.to_string router_path))
  else
    ProjectGenerator._write generator router_path
           (RouterCode name fields
              (ProjectConfig.include_auth (ProjectGenerator.config generator))) >>
    (match fields with
     | [] =>
         let schema_path := api_root // "app" // "schemas" // (name +:+ ".py") in
         let* schema_found := ProjectGenerator.on_fs (path_exists schema_path) in
         if negb schema_found
         then ProjectGenerator._write generator schema_path (SchemaCode name fields)
         else ret tt
     | _ => ret tt
     end) >>
    ProjectGenerator.on_fs
      (api._update_metadata (ProjectGenerator.project_root generator) "api_router" name) >>
    let* files := api.get_files_created in
    ret (api.success_result "api_router" name files
           ["Add `from app.routers import " +:+ name +:+ "` to app/main.py";
            "Add `app.include_router(" +:+ name +:+ ".router, prefix="
              +:+ String (ascii_of_nat 34) "/api/" +:+ name
              +:+ String (ascii_of_nat 34) ", tags=["
              +:+ String (ascii_of_nat 34) name
              +:+ String (ascii_of_nat 34) "])` to app/main.py"]).

(** Scenario C: a router named Widget, with two fields. *)
Definition widget_router : ComponentConfig.t :=
  ComponentConfig.mk "/tmp/w/acme" api_router "Widget"
                     (Some [("title", "string"); ("price", "float")]).

(** The project of Scenario A after a router named Widget was added
    without fields: the router is there, the model is not. *)
Definition router_only_fs : FileSystem :=
  snd (server.add_component
         (ComponentConfig.mk "/tmp/w/acme" api_router "Widget" None) scenario_a_fs).

(** The generator that the calls of the scenarios load. *)
Definition acme_generator : ProjectGenerator.t :=
  ProjectGenerator.__init__ (reloaded acme "/tmp/w/acme").

(** The state that [add_router] leaves when no fields are given: the
    router file, the schema file unless there was one, and one more entry
    in the manifest. *)
Definition router_alone_added (g : ProjectGenerator.t) (request : ComponentConfig.t)
           (meta : dict) (l : list json) (st : ProjectGenerator.state)
  : ProjectGenerator.state :=
  let c := ProjectGenerator.config g in
  let name := lower (ComponentConfig.name request) in
  let here := locate (ProjectGenerator.fs st) (ProjectGenerator.project_root g) in
  let router := component_parts c "routers" (name +:+ ".py") in
  let schema := component_parts c "schemas" (name +:+ ".py") in
  let had_schema :=
    Path_exists (ProjectGenerator.fs st)
                (Path.extend (ProjectGenerator.project_root g) schema) in
  let fs_router :=
    put (here ++ router)
        (File (RouterCode name [] (ProjectConfig.include_auth c)))
        (ProjectGenerator.fs st) in
  let fs_schema :=
    if had_schema then fs_router
    else put (here ++ schema) (File (SchemaCode name [])) fs_router in
  ProjectGenerator.mkState
    (ProjectGenerator.files_created st
     ++ [join_slash router] ++ (if had_schema then [] else [join_slash schema]))
    (put (here ++ [SCAFFOLD_METADATA_FILE])
         (File (JsonText (JDict (dict_set "components"
                                   (JList (l ++ [api.component_entry "api_router" name]))
                                   meta))))
         fs_schema).

(** A page added to the project of Scenario A: a kind that is not
    implemented. *)
Definition about_page : ComponentConfig.t :=
  ComponentConfig.mk "/tmp/w/acme" frontend_page "about" None.

(** The same model as [widget_model], named in upper case. *)
Definition widget_model_upper : ComponentConfig.t :=
  ComponentConfig.mk "/tmp/w/acme" db_model "WIDGET" None.

(** A router without fields. *)
Definition gadget_router : ComponentConfig.t :=
  ComponentConfig.mk "/tmp/w/acme" api_router "Gadget" None.


(** A manifest that names no project. *)
Definition nameless_fs : FileSystem :=
  mkFS [] (<[ ["tmp"; "w"; ".scaffold.json"] :=
               File (JsonText (JDict [("project_type", JStr "work")])) ]>
           (<[ ["tmp"; "w"] := Dir ]> (<[ ["tmp"] := Dir ]> ∅))).

(** A manifest that holds a JSON array. *)
Definition array_fs : FileSystem :=
  mkFS [] (<[ ["tmp"; "w"; ".scaffold.json"] := File (JsonText (JList [])) ]>
           (<[ ["tmp"; "w"] := Dir ]> (<[ ["tmp"] := Dir ]> ∅))).

Definition is_JDict (j : json) : bool :=
  match j with JDict _ => true | _ => false end.
(** [c in s] *)
Fixpoint has_char (a : ascii) (s : string) : bool :=
  match s with
  | EmptyString => false
  | String b s' => Ascii.eqb b a || has_char a s'
  end.

(** A manifest whose components are not a list. *)
Definition odd_components_fs : FileSystem :=
  mkFS [] (<[ ["tmp"; "w"; ".scaffold.json"] :=
               File (JsonText (JDict [("components", JStr "none")])) ]>
           (<[ ["tmp"; "w"] := Dir ]> (<[ ["tmp"] := Dir ]> ∅))).

(** [p] is free or a directory: a directory can be made there. *)
Definition not_file (fs : FileSystem) (p : Path.t) : bool :=
  match stat fs p with Some (File _) => false | _ => true end.

(** The directories that generation makes without writing a file into
    them, as parts under the project root. *)
Definition made_dirs (c : ProjectConfig.t) : list (list string) :=
  match ProjectConfig.frontend_type c with
  | react => [frontend_parts c ++ ["public"]]
  | htmx => []
  end.

(** A plan of files [P] and directories [D] has no file in the way: no
    file of the plan lies on the path to another file or to a directory
    of the plan. *)
Definition plan_ok (P D : list (list string)) : Prop :=
  (forall q, In q P -> q <> []) /\
  (forall q1 q2 r, In q1 P -> In q2 P -> q2 = q1 ++ r -> r = []) /\
  (forall q d r, In q P -> In d D -> d <> q ++ r).

(** The file system is ready for the plan under [root]: the root is a
    directory, no directory stands where a file is planned, and no file
    stands on the path to a planned file or directory. *)
Definition ready_for (root : Path.t) (P D : list (list string)) (fs : FileSystem)
  : Prop :=
  is_dir fs root = true /\
  (forall q, In q P -> is_dir fs (Path.extend root q) = false) /\
  (forall q p r, In q P -> q = p ++ r -> r <> [] ->
                 not_file fs (Path.extend root p) = true) /\
  (forall d p r, In d D -> d = p ++ r -> not_file fs (Path.extend root p) = true).

(** A method of the generator runs to its end on every state that is
    ready for a plan that has the files [L] it writes, and leaves a state
    that is ready for the plan. *)
Definition performs (self : ProjectGenerator.t) (L : list (list string))
           {A} (m : M ProjectGenerator.state A) : Prop :=
  forall P st,
    incl L P ->
    plan_ok P (made_dirs (ProjectGenerator.config self)) ->
    ready_for (ProjectGenerator.project_root self) P
              (made_dirs (ProjectGenerator.config self)) (ProjectGenerator.fs st) ->
    exists a st',
      m st = (Return a, st') /\
      ready_for (ProjectGenerator.project_root self) P
                (made_dirs (ProjectGenerator.config self)) (ProjectGenerator.fs st').

(** [s.endswith(suffix)] *)
Fixpoint ends_with (suffix s : string) : bool :=
  String.eqb s suffix
  || match s with
     | EmptyString => false
     | String _ s' => ends_with suffix s'
     end.

(** [p] is the beginning of [q]. *)
Fixpoint prefixb (p q : list string) : bool :=
  match p, q with
  | [], _ => true
  | x :: p', y :: q' => String.eqb x y && prefixb p' q'
  | _ :: _, [] => false
  end.

(** [p] is the beginning of [q] and shorter: a file at [p] would be in the
    way of [q]. *)
Definition blocks (p q : list string) : bool :=
  prefixb p q && negb (Nat.eqb (length p) (length q)).

Definition base_eqb (b1 b2 : base) : bool :=
  match b1, b2 with
  | AtRoot, AtRoot | InApi, InApi | InFrontend, InFrontend => true
  | _, _ => false
  end.

(** The checks on the tokens of a plan: a token is placed where no
    sub-root can be mistaken for it, and no token is in the way of
    another one under the same base. *)
Definition token_ok (multi : bool) (t : base * list string) : bool :=
  match snd t with
  | [] => false
  | x :: _ =>
      if multi then
        match fst t with
        | AtRoot => negb (ends_with "-api" x) && negb (ends_with "-frontend" x)
        | InApi => true
        | InFrontend => negb (prefixb (snd t) ["public"])
        end
      else
        match fst t with InFrontend => false | _ => true end
  end.

Definition pair_ok (multi : bool) (t1 t2 : base * list string) : bool :=
  if multi && negb (base_eqb (fst t1) (fst t2)) then true
  else negb (blocks (snd t1) (snd t2)).

Definition plan_check (ft : FrontendType) (pt : ProjectType)
           (alembic sse auth : bool) : bool :=
  let ts := generated_tokens ft pt alembic sse auth in
  let multi := match ft with react => true | htmx => false end in
  forallb (token_ok multi) ts
  && forallb (fun t1 => forallb (pair_ok multi t1) ts) ts.

(** Every entry of the tree is in a directory. *)
Definition well_formed (fs : FileSystem) : bool :=
  forallb (fun k => match stat_key fs (removelast k) with
                    | Some Dir => true
                    | _ => false
                    end)
          (map fst (map_to_list (nodes fs))).

(** No file stands on the way down to [p]. *)
Definition way_clear (fs : FileSystem) (p : Path.t) : bool :=
  is_dir fs (Path.mk (Path.anchor p) [])
  && forallb (fun n => not_file fs (Path.mk (Path.anchor p) (firstn n (Path.parts p))))
             (seq 0 (S (length (Path.parts p)))).

(** The target directory passes the checks of [generate], and can be made
    where it has to be. *)
Definition target_ready (c : ProjectConfig.t) (fs : FileSystem) : bool :=
  let root := ProjectGenerator.project_root (ProjectGenerator.__init__ c) in
  if ProjectConfig.use_current_dir c
  then is_dir fs root
       && match children fs (locate fs root) with [] => true | _ => false end
  else negb (Path_exists fs root) && way_clear fs root.

(** What changes when the directories down to a file at [q] are made and
    the file is put. *)
Definition touched (fs fs' : FileSystem) (root : Path.t) (q : list string) : Prop :=
  cwd fs' = cwd fs /\
  forall k,
    stat_key fs' k = stat_key fs k \/
    (k = locate fs root ++ q /\ exists c, stat_key fs' k = Some (File c)) \/
    (stat_key fs k = None /\ stat_key fs' k = Some Dir /\
     exists p r, q = p ++ r /\ p <> [] /\ r <> [] /\ k = locate fs root ++ p).

(** What changes when the directories down to [d] are made. *)
Definition dirs_made (fs fs' : FileSystem) (root : Path.t) (d : list string) : Prop :=
  cwd fs' = cwd fs /\
  forall k,
    stat_key fs' k = stat_key fs k \/
    (stat_key fs k = None /\ stat_key fs' k = Some Dir /\
     exists p r, d = p ++ r /\ p <> [] /\ k = locate fs root ++ p).

(* ------------------------------------------------------------------ *)
(** ** config.py and renderers/api.py: the code of a component *)

Definition SQLALCHEMY_TYPES_MAP : list (string * string) :=
  [("str", "String"); ("string", "String"); ("int", "Integer");
   ("integer", "Integer"); ("float", "Float"); ("bool", "Boolean");
   ("boolean", "Boolean"); ("date", "Date"); ("datetime", "DateTime");
   ("text", "Text"); ("uuid", "Uuid")].

Definition PYDANTIC_TYPES_MAP : list (string * string) :=
  [("str", "str"); ("string", "str"); ("int", "int"); ("integer", "int");
   ("float", "float"); ("bool", "bool"); ("boolean", "bool"); ("date", "date");
   ("datetime", "datetime"); ("text", "str"); ("uuid", "UUID")].

(** [d.get(k)] on a [dict[str, str]] *)
Fixpoint types_find (k : string) (d : list (string * string)) : option string :=
  match d with
  | [] => None
  | (k', v) :: d' => if String.eqb k' k then Some v else types_find k d'
  end.

(** [d.get(k, default)] *)
Definition types_get (d : list (string * string)) (k default : string) : string :=
  match types_find k d with Some v => v | None => default end.

(** [str.capitalize()], on the ASCII letters. *)
Definition upper_ascii (a : ascii) : ascii :=
  let n := nat_of_ascii a in
  if (97 <=? n)%nat && (n <=? 122)%nat then ascii_of_nat (n - 32) else a.

Definition capitalize (s : string) : string :=
  match s with
  | EmptyString => EmptyString
  | String a s' => String (upper_ascii a) (lower s')
  end.

Definition quote : string := String (ascii_of_nat 34) EmptyString.
Definition newline : string := String (ascii_of_nat 10) EmptyString.

(** [sep.join(l)] *)
Fixpoint join (sep : string) (l : list string) : string :=
  match l with
  | [] => EmptyString
  | [x] => x
  | x :: l' => x +:+ sep +:+ join sep l'
  end.

(** [sorted(s)] for a set [s] of strings, built by insertion. *)
Fixpoint insert_sorted (x : string) (l : list string) : list string :=
  match l with
  | [] => [x]
  | y :: l' =>
      match String.compare x y with
      | Eq => l
      | Lt => x :: l
      | Gt => y :: insert_sorted x l'
      end
  end.

Definition sorted_set (l : list string) : list string :=
  fold_right insert_sorted [] l.

(** [SQLALCHEMY_TYPES_MAP.get(field_type.lower(), "String")] *)
Definition sa_type (field_type : string) : string :=
  types_get SQLALCHEMY_TYPES_MAP (lower field_type) "String".

(** [PYDANTIC_TYPES_MAP.get(field_type.lower(), "str")] *)
Definition py_type (field_type : string) : string :=
  types_get PYDANTIC_TYPES_MAP (lower field_type) "str".

(** The line of a field in the model: the body of the loop of
    [_generate_model]. *)
Definition model_column (field : string * string) : string :=
  let '(field_name, field_type) := field in
  if String.eqb (sa_type field_type) "String"
  then "    " +:+ field_name +:+ ": Mapped[str] = mapped_column(String(255))"
  else "    " +:+ field_name +:+ ": Mapped[" +:+ py_type field_type
       +:+ "] = mapped_column()".

(** The types that the model imports: [sorted({"String"} | sa_imports)]. *)
Definition all_sa_types (fields : list (string * string)) : list string :=
  sorted_set ("String" :: map (fun f => sa_type (snd f)) fields).

(** Generate a SQLAlchemy model file: its lines. *)
Definition _generate_model_lines (name : string) (fields : list (string * string))
  : list string :=
  let class_name := capitalize name in
  let lines :=
    ["from sqlalchemy import String";
     "from sqlalchemy.orm import Mapped, mapped_column";
     EmptyString;
     "from app.models.base import Base, TimestampMixin";
     EmptyString;
     EmptyString;
     "class " +:+ class_name +:+ "(TimestampMixin, Base):";
     "    __tablename__ = " +:+ quote +:+ name +:+ "s" +:+ quote;
     EmptyString;
     "    id: Mapped[int] = mapped_column(primary_key=True)"]
    ++ map model_column fields in
  let import_line := "from sqlalchemy import " +:+ join ", " (all_sa_types fields) in
  import_line :: tl lines.

Definition _generate_model (name : string) (fields : list (string * string)) : string :=
  join newline (_generate_model_lines name fields) +:+ newline.

(** Generate Pydantic v2 schema file: its lines. *)
Definition _generate_schema_lines (name : string) (fields : list (string * string))
  : list string :=
  let class_name := capitalize name in
  ["from datetime import datetime";
   EmptyString;
   "from pydantic import BaseModel, ConfigDict";
   EmptyString;
   EmptyString;
   "class " +:+ class_name +:+ "Base(BaseModel):"]
  ++ (match fields with
      | [] => ["    pass"]
      | _ => map (fun f => "    " +:+ fst f +:+ ": " +:+ py_type (snd f)) fields
      end)
  ++ [EmptyString;
      EmptyString;
      "class " +:+ class_name +:+ "Create(" +:+ class_name +:+ "Base):";
      "    pass";
      EmptyString;
      EmptyString;
      "class " +:+ class_name +:+ "Update(BaseModel):"]
  ++ (match fields with
      | [] => ["    pass"]
      | _ => map (fun f => "    " +:+ fst f +:+ ": " +:+ py_type (snd f)
                           +:+ " | None = None") fields
      end)
  ++ [EmptyString;
      EmptyString;
      "class " +:+ class_name +:+ "Read(" +:+ class_name +:+ "Base):";
      "    model_config = ConfigDict(from_attributes=True)";
      EmptyString;
      "    id: int";
      "    created_at: datetime";
      "    updated_at: datetime"].

Definition _generate_schema (name : string) (fields : list (string * string)) : string :=
  join newline (_generate_schema_lines name fields) +:+ newline.

(** The text of the files that [add_model] and [add_router] write for a
    model and a schema. *)
Definition code_text (c : content) : option string :=
  match c with
  | ModelCode name fields => Some (_generate_model name fields)
  | SchemaCode name fields => Some (_generate_schema name fields)
  | _ => None
  end.


(** A file system in which the directory of Scenario D is empty. *)
Definition empty_target_fs : FileSystem :=
  mkFS [] (<[ ["tmp"; "w"] := Dir ]> (<[ ["tmp"] := Dir ]> ∅)).

(** The project of Scenario A, moved to a directory of another name: the
    manifest still names [acme]. *)
Definition moved_fs : FileSystem :=
  mkFS [] (<[ ["tmp"; "w"; "moved"; ".scaffold.json"] :=
               File (JsonText (JDict (ProjectGenerator.metadata
                                        (ProjectGenerator.__init__ acme) "t0"))) ]>
           (<[ ["tmp"; "w"; "moved"] := Dir ]>
            (<[ ["tmp"; "w"] := Dir ]> (<[ ["tmp"] := Dir ]> ∅)))).



(** Scenario A, run beside a file that is already there: the summary it
    returns and the file system it leaves. *)
Definition grown_summary : dict :=
  Eval vm_compute in
    match fst (server.create_project acme "t0" occupied_fs) with
    | Return d => d
    | Raise _ => []
    end.

Definition grown_fs : FileSystem := snd (server.create_project acme "t0" occupied_fs).

(** ** A project without a name *)

(** Scenario A with the empty string for a name, run on an empty file
    system: the summary that generation returns, the file system it leaves,
    and the report of [validate_project] on the project root that the
    summary names. *)
Definition unnamed : ProjectConfig.t := with_name EmptyString acme.

Definition unnamed_summary : dict :=
  Eval vm_compute in
    match fst (server.create_project unnamed "t0" empty_fs) with
    | Return d => d
    | Raise _ => []
    end.

Definition unnamed_fs : FileSystem :=
  snd (server.create_project unnamed "t0" empty_fs).

Definition unnamed_report : dict :=
  Eval vm_compute in
    match fst (server.validate_project "/tmp/w" unnamed_fs) with
    | Return v => v
    | Raise _ => []
    end.

(** What the specification says of validation after generation: whenever
    generation succeeds, validating the project root that the result names
    misses no file. *)
Definition validate_misses_nothing : Prop :=
  forall (c : ProjectConfig.t) (now : string) (fs fs' : FileSystem) (d : dict),
    server.create_project c now fs = (Return d, fs') ->
    status_of d = Some (JStr "success") ->
    exists project_dir v,
      dict_get "project_root" d = Some (JStr project_dir) /\
      fst (server.validate_project project_dir fs') = Return v /\
      dict_get "missing_count" v = Some (JInt 0).

(* ================================================================== *)
(** * Strings and paths: parsing and printing *)
(* ================================================================== *)

Lemma append_cons (x : ascii) (a b : string) :
  String x a +:+ b = String x (a +:+ b).
Proof. reflexivity. Qed.

Lemma append_nil_l (b : string) : EmptyString +:+ b = b.
Proof. reflexivity. Qed.

(** Appends whose left operand is known are carried out. *)
Ltac run_append := rewrite ?append_cons, ?append_nil_l.

Lemma append_assoc (a b c : string) : (a +:+ b) +:+ c = a +:+ (b +:+ c).
Proof. induction a as [|x a IH]; run_append; [reflexivity | now rewrite IH]. Qed.

Lemma append_nil_r (a : string) : a +:+ EmptyString = a.
Proof. induction a as [|x a IH]; run_append; [reflexivity | now rewrite IH]. Qed.

Lemma no_slash_append (a b : string) :
  no_slash (a +:+ b) = no_slash a && no_slash b.
Proof.
  induction a as [|x a IH]; run_append; simpl; [reflexivity |].
  rewrite IH. now rewrite andb_assoc.
Qed.

Lemma split_slash_nonempty (s : string) : split_slash s <> [].
Proof.
  destruct s as [|a s]; simpl; [discriminate |].
  destruct (Ascii.eqb a "/"); [discriminate |].
  destruct (split_slash s); discriminate.
Qed.

Lemma split_slash_no_slash (s : string) :
  no_slash s = true -> split_slash s = [s].
Proof.
  induction s as [|a s IH]; simpl; [reflexivity |].
  intros [Ha Hs]%andb_prop.
  apply negb_true_iff in Ha. rewrite Ha, (IH Hs). reflexivity.
Qed.

Lemma split_slash_append (a b : string) :
  split_slash (a +:+ "/" +:+ b) = split_slash a ++ split_slash b.
Proof.
  change ("/" +:+ b) with (String "/" b).
  induction a as [|x a IH]; rewrite ?append_cons, ?append_nil_l; simpl; [reflexivity |].
  destruct (Ascii.eqb x "/"); simpl.
  - now rewrite <- IH.
  - rewrite IH.
    pose proof (split_slash_nonempty a) as Hne.
    destruct (split_slash a); [contradiction | reflexivity].
Qed.

Lemma split_slash_parts (s : string) :
  Forall (fun x => no_slash x = true) (split_slash s).
Proof.
  induction s as [|a s IH]; simpl.
  - constructor; [reflexivity | constructor].
  - destruct (Ascii.eqb a "/") eqn:Ha.
    + constructor; [reflexivity | exact IH].
    + destruct (split_slash s) as [|x xs].
      * constructor; [simpl; now rewrite Ha | constructor].
      * inversion IH; subst. constructor; [simpl; now rewrite Ha | assumption].
Qed.

Lemma split_join (l : list string) :
  l <> [] -> Forall (fun x => no_slash x = true) l ->
  split_slash (join_slash l) = l.
Proof.
  induction l as [|x l IH]; [contradiction |].
  intros _ Hall. inversion Hall as [|? ? Hx Hl]; subst.
  destruct l as [|y l].
  - simpl. now apply split_slash_no_slash.
  - change (join_slash (x :: y :: l)) with (x +:+ "/" +:+ join_slash (y :: l)).
    rewrite split_slash_append, (split_slash_no_slash x Hx), IH; [reflexivity | discriminate | assumption].
Qed.

Lemma parts_of_append (a b : string) :
  Path.parts_of (a +:+ "/" +:+ b) = Path.parts_of a ++ Path.parts_of b.
Proof. unfold Path.parts_of. rewrite split_slash_append. apply List.filter_app. Qed.

Lemma parts_of_clean_part (s : string) :
  clean_part s = true -> Path.parts_of s = [s].
Proof.
  intros [Hs Hk]%andb_prop. unfold Path.parts_of.
  rewrite (split_slash_no_slash s Hs). simpl. now rewrite Hk.
Qed.

Lemma parts_of_are_clean (s : string) :
  Forall (fun x => clean_part x = true) (Path.parts_of s).
Proof.
  unfold Path.parts_of. apply List.Forall_forall. intros x Hx.
  apply List.filter_In in Hx as [Hin Hk].
  unfold clean_part. rewrite Hk, andb_true_r.
  pose proof (split_slash_parts s) as Hall.
  rewrite List.Forall_forall in Hall. now apply Hall.
Qed.

Lemma filter_all_true {A} (f : A -> bool) (l : list A) :
  Forall (fun x => f x = true) l -> List.filter f l = l.
Proof.
  induction 1 as [|x l Hx _ IH]; simpl; [reflexivity |]. now rewrite Hx, IH.
Qed.

Lemma parts_of_join (l : list string) :
  Forall (fun x => clean_part x = true) l ->
  Path.parts_of (join_slash l) = l.
Proof.
  intros Hall. destruct l as [|x l]; [reflexivity |].
  unfold Path.parts_of. rewrite split_join.
  - apply filter_all_true. eapply List.Forall_impl; [| exact Hall].
    intros a [_ Hk]%andb_prop. exact Hk.
  - discriminate.
  - eapply List.Forall_impl; [| exact Hall]. intros a [Hs _]%andb_prop. exact Hs.
Qed.

Lemma starts_with_slash_no_slash (s : string) :
  no_slash s = true -> starts_with_slash s = false.
Proof.
  destruct s as [|a s]; simpl; [reflexivity |].
  intros [Ha _]%andb_prop. now apply negb_true_iff in Ha.
Qed.

Lemma starts_with_slash_append (a b : string) :
  truthy a = true -> starts_with_slash (a +:+ b) = starts_with_slash a.
Proof. destruct a; [discriminate | run_append; reflexivity]. Qed.

Lemma starts_with_slash_join (l : list string) :
  Forall (fun x => clean_part x = true) l ->
  starts_with_slash (join_slash l) = false.
Proof.
  intros Hall. destruct l as [|x l]; [reflexivity |].
  inversion Hall as [|? ? Hx _]; subst.
  apply andb_prop in Hx as [Hs Hk].
  assert (Ht : truthy x = true).
  { destruct x; [discriminate Hk | reflexivity]. }
  destruct l as [|y l]; cbn [join_slash].
  - now apply starts_with_slash_no_slash.
  - rewrite starts_with_slash_append by exact Ht.
    now apply starts_with_slash_no_slash.
Qed.

Lemma identifier_token_clean (s : string) :
  identifier_token s = true -> clean_part s = true.
Proof.
  unfold identifier_token, clean_part, Path.kept.
  intros [[[Hs Ht]%andb_prop Hd]%andb_prop _]%andb_prop.
  rewrite Hs, Hd, andb_true_r. simpl.
  destruct s; [discriminate Ht | reflexivity].
Qed.

(** A name followed by a suffix such as [-api] is one clean part as soon
    as the name has no slash. *)
Lemma clean_part_suffixed (s suffix : string) :
  no_slash s = true -> clean_part suffix = true ->
  String.length suffix >= 2 ->
  clean_part (s +:+ suffix) = true.
Proof.
  intros Hs [Hsuf Hk]%andb_prop Hlen.
  unfold clean_part. rewrite no_slash_append, Hs, Hsuf. simpl.
  unfold Path.kept.
  destruct s as [|a s]; [exact Hk |].
  destruct s as [|b s]; run_append; simpl.
  - destruct suffix as [|c suffix]; [simpl in Hlen; lia |].
    simpl. destruct (Ascii.eqb a "."); reflexivity.
  - destruct (Ascii.eqb a "."); reflexivity.
Qed.

(* ================================================================== *)
(** * Running computations *)
(* ================================================================== *)

Lemma bind_Return {S A B} (m : M S A) (k : A -> M S B) s a s1 :
  m s = (Return a, s1) -> bind m k s = k a s1.
Proof. intros H. unfold bind. now rewrite H. Qed.

Lemma bind_Raise {S A B} (m : M S A) (k : A -> M S B) s e s1 :
  m s = (Raise e, s1) -> bind m k s = (Raise e, s1).
Proof. intros H. unfold bind. now rewrite H. Qed.

Lemma bind_ret {S A B} (a : A) (k : A -> M S B) s : bind (ret a) k s = k a s.
Proof. reflexivity. Qed.

Lemma bind_Return_inv {S A B} (m : M S A) (k : A -> M S B) s b s' :
  bind m k s = (Return b, s') ->
  exists a s1, m s = (Return a, s1) /\ k a s1 = (Return b, s').
Proof.
  unfold bind. destruct (m s) as [[a|e] s1]; [eauto | discriminate].
Qed.

Lemma dict_get_set_eq (k : string) (v : json) (d : dict) :
  dict_get k (dict_set k v d) = Some v.
Proof.
  induction d as [|[k' v'] d IH]; simpl.
  - now rewrite String.eqb_refl.
  - destruct (String.eqb k' k) eqn:E; simpl.
    + now rewrite String.eqb_refl.
    + now rewrite E.
Qed.

Lemma dict_get_set_ne (k k0 : string) (v : json) (d : dict) :
  String.eqb k k0 = false ->
  dict_get k0 (dict_set k v d) = dict_get k0 d.
Proof.
  intros Hne. induction d as [|[k' v'] d IH]; simpl.
  - now rewrite Hne.
  - destruct (String.eqb k' k) eqn:E; simpl.
    + apply String.eqb_eq in E. subst k'. now rewrite Hne.
    + now rewrite IH.
Qed.

(* ================================================================== *)
(** * The configuration model *)
(* ================================================================== *)

Section Readers.
Context {S : Type}.

Lemma reads_only_ret {A} (a : A) : reads_only (@ret S A a).
Proof. intros s a' s1 [= <- <-]. split; reflexivity. Qed.

Lemma reads_only_raise {A} (e : exn) : reads_only (@raise S A e).
Proof. intros s a' s1 [=]. Qed.

Lemma reads_only_str_field f d kw : reads_only (@str_field S f d kw).
Proof.
  unfold str_field.
  destruct (dict_get f kw) as [[| | | | |]|], d;
    auto using @reads_only_ret, @reads_only_raise.
Qed.

Lemma reads_only_bool_field cb f d kw : reads_only (@bool_field S cb f d kw).
Proof.
  unfold bool_field.
  destruct (dict_get f kw) as [v|]; [destruct (cb v) |];
    auto using @reads_only_ret, @reads_only_raise.
Qed.

Lemma reads_only_int_field ci f d kw : reads_only (@int_field S ci f d kw).
Proof.
  unfold int_field.
  destruct (dict_get f kw) as [v|]; [destruct (ci v) |];
    auto using @reads_only_ret, @reads_only_raise.
Qed.

Lemma reads_only_optional_str_field f kw : reads_only (@optional_str_field S f kw).
Proof.
  unfold optional_str_field.
  destruct (dict_get f kw) as [[| | | | |]|];
    auto using @reads_only_ret, @reads_only_raise.
Qed.

Lemma reads_only_project_type_field kw : reads_only (@project_type_field S kw).
Proof.
  unfold project_type_field.
  destruct (dict_get "project_type" kw) as [[| | | s | |]|];
    auto using @reads_only_ret, @reads_only_raise.
  destruct (String.eqb s "work"); [apply reads_only_ret |].
  destruct (String.eqb s "personal"); auto using @reads_only_ret, @reads_only_raise.
Qed.

Lemma reads_only_frontend_type_field kw : reads_only (@frontend_type_field S kw).
Proof.
  unfold frontend_type_field.
  destruct (dict_get "frontend_type" kw) as [[| | | s | |]|];
    auto using @reads_only_ret, @reads_only_raise.
  destruct (String.eqb s "react"); [apply reads_only_ret |].
  destruct (String.eqb s "htmx"); auto using @reads_only_ret, @reads_only_raise.
Qed.
End Readers.

Create HintDb readers.
#[export] Hint Resolve reads_only_str_field reads_only_bool_field reads_only_int_field
  reads_only_optional_str_field reads_only_project_type_field
  reads_only_frontend_type_field : readers.

(** One read of the accepted construction is replayed in the goal. *)
Ltac replay_read H :=
  let a := fresh "a" in
  let s1 := fresh "s" in
  let Hr := fresh "Hr" in
  apply bind_Return_inv in H as (a & s1 & Hr & H);
  let P := fresh "P" in
  match type of Hr with
  | ?m _ = _ => assert (P : reads_only m) by auto with readers
  end;
  apply P in Hr as [-> Hr]; clear P;
  rewrite (bind_Return _ _ _ _ _ (Hr _)).

Section NameOnly.
Context {S : Type}.
Variables (v : json) (kw : dict).

Lemma str_field_other f d :
  String.eqb "name" f = false ->
  @str_field S f d (dict_set "name" v kw) = str_field f d kw.
Proof. intros H. unfold str_field. now rewrite dict_get_set_ne. Qed.

Lemma bool_field_other cb f d :
  String.eqb "name" f = false ->
  @bool_field S cb f d (dict_set "name" v kw) = bool_field cb f d kw.
Proof. intros H. unfold bool_field. now rewrite dict_get_set_ne. Qed.

Lemma int_field_other ci f d :
  String.eqb "name" f = false ->
  @int_field S ci f d (dict_set "name" v kw) = int_field ci f d kw.
Proof. intros H. unfold int_field. now rewrite dict_get_set_ne. Qed.

Lemma optional_str_field_other f :
  String.eqb "name" f = false ->
  @optional_str_field S f (dict_set "name" v kw) = optional_str_field f kw.
Proof. intros H. unfold optional_str_field. now rewrite dict_get_set_ne. Qed.

Lemma project_type_field_other :
  @project_type_field S (dict_set "name" v kw) = project_type_field kw.
Proof. unfold project_type_field. now rewrite dict_get_set_ne. Qed.

Lemma frontend_type_field_other :
  @frontend_type_field S (dict_set "name" v kw) = frontend_type_field kw.
Proof. unfold frontend_type_field. now rewrite dict_get_set_ne. Qed.
End NameOnly.

Lemma create_with_name {S} (kw : dict) (c : ProjectConfig.t) (n : string) (s s' : S) :
  ProjectConfig.create kw s = (Return c, s') ->
  ProjectConfig.create (dict_set "name" (JStr n) kw) s = (Return (with_name n c), s).
Proof.
  unfold ProjectConfig.create, ProjectConfig.create_with. intros H.
  apply bind_Return_inv in H as (n0 & s0 & Hn & H).
  apply reads_only_str_field in Hn as [-> _].
  rewrite (bind_Return _ _ s n s)
    by (unfold str_field; now rewrite dict_get_set_eq).
  rewrite project_type_field_other, frontend_type_field_other.
  rewrite !str_field_other, !bool_field_other, !int_field_other,
    optional_str_field_other by reflexivity.
  do 13 replay_read H.
  injection H as <- <-. reflexivity.
Qed.

(* ================================================================== *)
(** * The file system only grows *)
(* ================================================================== *)

Lemma fs_grows_refl fs : fs_grows fs fs.
Proof. split; [reflexivity |]. intros k. split; eauto. Qed.

Lemma fs_grows_trans fs1 fs2 fs3 :
  fs_grows fs1 fs2 -> fs_grows fs2 fs3 -> fs_grows fs1 fs3.
Proof.
  intros [Hc1 H1] [Hc2 H2]. split; [congruence |].
  intros k. destruct (H1 k) as [Hd1 Hf1], (H2 k) as [Hd2 Hf2]. split.
  - auto.
  - intros c Hc. destruct (Hf1 c Hc) as [c' Hc']. eauto.
Qed.

Lemma stat_key_put (k k' : list string) (n : node) (fs : FileSystem) :
  stat_key (put k n fs) k' =
  if decide (k = k') then (match k with [] => Some Dir | _ => Some n end)
  else stat_key fs k'.
Proof.
  unfold stat_key, put. cbn [nodes].
  destruct (decide (k = k')) as [<-|Hne].
  - destruct k; [reflexivity | apply lookup_insert_eq].
  - destruct k'; [reflexivity | now apply lookup_insert_ne].
Qed.

Lemma locate_grows fs fs' p : fs_grows fs fs' -> locate fs' p = locate fs p.
Proof. intros [Hc _]. unfold locate. now rewrite Hc. Qed.

Lemma exists_grows fs fs' p :
  fs_grows fs fs' -> Path_exists fs p = true -> Path_exists fs' p = true.
Proof.
  intros Hg. unfold Path_exists, stat. rewrite (locate_grows _ _ _ Hg).
  destruct Hg as [_ Hk]. destruct (Hk (locate fs p)) as [Hd Hf].
  destruct (stat_key fs (locate fs p)) as [[|c]|] eqn:E; [| | discriminate].
  - now rewrite Hd.
  - destruct (Hf c eq_refl) as [c' ->]. reflexivity.
Qed.

Lemma is_dir_grows fs fs' p :
  fs_grows fs fs' -> is_dir fs p = true -> is_dir fs' p = true.
Proof.
  intros Hg. unfold is_dir, stat. rewrite (locate_grows _ _ _ Hg).
  destruct Hg as [_ Hk]. destruct (Hk (locate fs p)) as [Hd _].
  destruct (stat_key fs (locate fs p)) as [[|c]|] eqn:E; try discriminate.
  now rewrite Hd.
Qed.

Lemma is_file_grows fs fs' p :
  fs_grows fs fs' -> is_file fs p = true -> is_file fs' p = true.
Proof.
  intros Hg. unfold is_file, stat. rewrite (locate_grows _ _ _ Hg).
  destruct Hg as [_ Hk]. destruct (Hk (locate fs p)) as [_ Hf].
  destruct (stat_key fs (locate fs p)) as [[|c]|] eqn:E; try discriminate.
  destruct (Hf c eq_refl) as [c' ->]. reflexivity.
Qed.

(** Putting a node where there was none, or a file over a file. *)
Lemma put_grows (k : list string) (n : node) (fs : FileSystem) :
  (stat_key fs k = None \/ exists c c', stat_key fs k = Some (File c) /\ n = File c') ->
  fs_grows fs (put k n fs).
Proof.
  intros Hk. split; [reflexivity |]. intros k'.
  rewrite stat_key_put. destruct (decide (k = k')) as [<-|Hne]; [| split; eauto].
  destruct k as [|x k]; [split; eauto |].
  destruct Hk as [Hk | (c & c' & Hk & ->)]; rewrite Hk.
  - split; [discriminate | intros ? [=]].
  - split; [discriminate | eauto].
Qed.

Lemma create_entry_Return k n fs fs' :
  create_entry k n fs = (Return tt, fs') ->
  stat_key fs (removelast k) = Some Dir /\ fs' = put k n fs.
Proof.
  unfold create_entry.
  destruct (stat_key fs (removelast k)) as [[|c]|]; intros [=]; auto.
Qed.

Lemma os_mkdir_Return p fs fs' :
  os_mkdir p fs = (Return tt, fs') ->
  stat fs p = None /\ fs' = put (locate fs p) Dir fs.
Proof.
  unfold os_mkdir. destruct (stat fs p) eqn:E; [discriminate |].
  intros H. apply create_entry_Return in H as [_ ->]. auto.
Qed.

Lemma os_mkdir_grows p fs fs' :
  os_mkdir p fs = (Return tt, fs') -> fs_grows fs fs' /\ is_dir fs' p = true.
Proof.
  intros H. apply os_mkdir_Return in H as [Hn ->]. split.
  - apply put_grows. left. exact Hn.
  - unfold is_dir, stat. change (locate (put _ _ fs) p) with (locate fs p).
    rewrite stat_key_put. destruct (decide _) as [_|]; [| congruence].
    destruct (locate fs p); reflexivity.
Qed.

Lemma mkdir_here_grows p exist_ok fs fs' :
  mkdir_here p exist_ok fs = (Return tt, fs') ->
  fs_grows fs fs' /\ is_dir fs' p = true.
Proof.
  unfold mkdir_here.
  destruct (os_mkdir p fs) as [[[]|e] fs1] eqn:E.
  - intros [= <-]. now apply os_mkdir_grows.
  - destruct e; try discriminate;
      (destruct (exist_ok && is_dir fs p) eqn:Hd; [| discriminate];
       intros [= <-]; apply andb_prop in Hd as [_ Hd];
       split; [apply fs_grows_refl | exact Hd]).
Qed.

Lemma mkdir_up_grows a rparts parents exist_ok fs fs' :
  mkdir_up a rparts parents exist_ok fs = (Return tt, fs') ->
  fs_grows fs fs' /\ is_dir fs' (Path.mk a (rev rparts)) = true.
Proof.
  revert parents exist_ok fs fs'.
  induction rparts as [|x rparts IH]; intros parents exist_ok fs fs'.
  - cbn [mkdir_up].
    destruct (os_mkdir _ fs) as [[[]|e] fs1] eqn:E.
    + intros [= <-]. now apply os_mkdir_grows.
    + destruct e; try discriminate;
        (destruct (exist_ok && is_dir fs _) eqn:Hd; [| discriminate];
         intros [= <-]; apply andb_prop in Hd as [_ Hd];
         split; [apply fs_grows_refl | exact Hd]).
  - cbn [mkdir_up].
    destruct (os_mkdir _ fs) as [[[]|e] fs1] eqn:E.
    + intros [= <-]. now apply os_mkdir_grows.
    + destruct e; try discriminate;
        try (destruct (exist_ok && is_dir fs _) eqn:Hd; [| discriminate];
             intros [= <-]; apply andb_prop in Hd as [_ Hd];
             split; [apply fs_grows_refl | exact Hd]).
      destruct parents; [| discriminate].
      intros H. apply bind_Return_inv in H as ([] & fs2 & H1 & H2).
      apply IH in H1 as [Hg1 _].
      apply mkdir_here_grows in H2 as [Hg2 Hd2].
      split; [eapply fs_grows_trans; eassumption | exact Hd2].
Qed.

Lemma mkdir_grows p parents exist_ok fs fs' :
  mkdir p parents exist_ok fs = (Return tt, fs') ->
  fs_grows fs fs' /\ is_dir fs' p = true.
Proof.
  unfold mkdir. intros H. apply mkdir_up_grows in H.
  rewrite rev_involutive in H. now destruct p.
Qed.

Lemma write_text_grows p c fs fs' :
  write_text p c fs = (Return tt, fs') ->
  fs_grows fs fs' /\ stat fs' p = Some (File c).
Proof.
  unfold write_text.
  destruct (stat fs p) as [[|c0]|] eqn:E; [discriminate | |];
    intros H; apply create_entry_Return in H as [Hpar ->].
  - split.
    + apply put_grows. right. exists c0, c. auto.
    + unfold stat. change (locate (put _ _ fs) p) with (locate fs p).
      rewrite stat_key_put. destruct (decide _) as [_|]; [| congruence].
      unfold stat in E. destruct (locate fs p); [discriminate E | reflexivity].
  - split.
    + apply put_grows. left. exact E.
    + unfold stat. change (locate (put _ _ fs) p) with (locate fs p).
      rewrite stat_key_put. destruct (decide _) as [_|]; [| congruence].
      unfold stat in E. destruct (locate fs p); [discriminate E | reflexivity].
Qed.

Lemma touch_grows p fs fs' :
  touch p fs = (Return tt, fs') ->
  fs_grows fs fs' /\ Path_exists fs' p = true.
Proof.
  unfold touch. destruct (stat fs p) as [n|] eqn:E.
  - intros [= <-]. split; [apply fs_grows_refl |].
    unfold Path_exists. now rewrite E.
  - intros H. apply create_entry_Return in H as [Hpar ->]. split.
    + apply put_grows. left. exact E.
    + unfold Path_exists, stat. change (locate (put _ _ fs) p) with (locate fs p).
      rewrite stat_key_put. destruct (decide _) as [_|]; [| congruence].
      destruct (locate fs p); reflexivity.
Qed.

(* ================================================================== *)
(** * Paths under the project root *)
(* ================================================================== *)

Lemma extend_nil (p : Path.t) : Path.extend p [] = p.
Proof. destruct p as [a l]. unfold Path.extend. cbn. now rewrite app_nil_r. Qed.

Lemma extend_extend (p : Path.t) (q r : list string) :
  Path.extend (Path.extend p q) r = Path.extend p (q ++ r).
Proof. unfold Path.extend. cbn. now rewrite app_assoc. Qed.

Lemma div_extend (p : Path.t) (q : list string) (s : string) :
  starts_with_slash s = false ->
  Path.extend p q // s = Path.extend p (q ++ Path.parts_of s).
Proof.
  intros H. unfold Path.div. rewrite H. unfold Path.extend. cbn.
  now rewrite app_assoc.
Qed.

Lemma div_root (p : Path.t) (s : string) :
  starts_with_slash s = false -> p // s = Path.extend p (Path.parts_of s).
Proof. intros H. unfold Path.div. now rewrite H. Qed.

Lemma strip_prefix_app (pre rest : list string) :
  Path.strip_prefix pre (pre ++ rest) = Some rest.
Proof.
  induction pre as [|x pre IH]; [reflexivity |].
  cbn. now rewrite String.eqb_refl.
Qed.

Lemma relative_to_extend (p : Path.t) (q : list string) :
  Path.relative_to (Path.extend p q) p = Some (Path.mk false q).
Proof.
  unfold Path.relative_to, Path.extend. cbn.
  rewrite Bool.eqb_reflx, strip_prefix_app. reflexivity.
Qed.

Lemma to_string_relative (q : list string) :
  q <> [] -> Path.to_string (Path.mk false q) = join_slash q.
Proof. destruct q; [contradiction | reflexivity]. Qed.

Lemma parent_extend (p : Path.t) (q : list string) (x : string) :
  Path.parent (Path.extend p (q ++ [x])) = Path.extend p q.
Proof.
  unfold Path.parent, Path.extend. cbn.
  now rewrite app_assoc, removelast_last.
Qed.

Lemma locate_extend fs (p : Path.t) (q : list string) :
  locate fs (Path.extend p q) = locate fs p ++ q.
Proof.
  unfold locate, Path.extend. cbn. destruct (Path.anchor p); [reflexivity |].
  now rewrite app_assoc.
Qed.

(* ================================================================== *)
(** * What the writer records *)
(* ================================================================== *)

Section Writer.
Import ProjectGenerator.
Variable self : ProjectGenerator.t.

Lemma on_fs_Return {A} (m : M FileSystem A) st a st' :
  on_fs m st = (Return a, st') ->
  m (fs st) = (Return a, fs st') /\ files_created st' = files_created st.
Proof.
  unfold on_fs. destruct (m (fs st)) as [r fs1]. intros [= -> <-]. auto.
Qed.

Lemma on_fs_run {A} (m : M FileSystem A) st r fs' :
  m (fs st) = (r, fs') -> on_fs m st = (r, mkState (files_created st) fs').
Proof. intros H. unfold on_fs. now rewrite H. Qed.

Lemma record_created_Return (q : list string) st st' :
  q <> [] ->
  record_created self (Path.extend (project_root self) q) st = (Return tt, st') ->
  files_created st' = files_created st ++ [join_slash q] /\ fs st' = fs st.
Proof.
  intros Hq. unfold record_created.
  rewrite relative_to_extend, (to_string_relative q Hq).
  intros [= <-]. auto.
Qed.

Lemma writes_ret {A} (a : A) : writes self [] (ret a).
Proof.
  intros st a' st' [= <- <-]. cbn. rewrite app_nil_r.
  split; [reflexivity |]. split; [apply fs_grows_refl | constructor].
Qed.

Lemma writes_bind {A B} (m : M state A) (k : A -> M state B) L1 L2 :
  writes self L1 m -> (forall a, writes self L2 (k a)) ->
  writes self (L1 ++ L2) (bind m k).
Proof.
  intros Hm Hk st b st' H.
  apply bind_Return_inv in H as (a & st1 & H1 & H2).
  apply Hm in H1 as (Hf1 & Hg1 & He1).
  apply Hk in H2 as (Hf2 & Hg2 & He2).
  split; [| split].
  - rewrite Hf2, Hf1, map_app, app_assoc. reflexivity.
  - eapply fs_grows_trans; eassumption.
  - apply Forall_app. split; [| exact He2].
    eapply List.Forall_impl; [| exact He1].
    intros q Hq. eapply exists_grows; eassumption.
Qed.

Lemma writes_eq {A} (m : M state A) L L' :
  writes self L m -> L = L' -> writes self L' m.
Proof. now intros H <-. Qed.

Lemma writes_if {A} (b : bool) (m1 m2 : M state A) L1 L2 :
  writes self L1 m1 -> writes self L2 m2 ->
  writes self (if b then L1 else L2) (if b then m1 else m2).
Proof. now destruct b. Qed.

Lemma writes_frontend {A} (t : FrontendType) (m1 m2 : M state A) L1 L2 :
  (t = react -> writes self L1 m1) -> (t = htmx -> writes self L2 m2) ->
  writes self (match t with react => L1 | htmx => L2 end)
         (match t with react => m1 | htmx => m2 end).
Proof. destruct t; auto. Qed.

Lemma writes_project_type {A} (t : ProjectType) (m1 m2 : M state A) L1 L2 :
  writes self L1 m1 -> writes self L2 m2 ->
  writes self (match t with work => L1 | personal => L2 end)
         (match t with work => m1 | personal => m2 end).
Proof. now destruct t. Qed.

Lemma writes_mkdir p parents exist_ok :
  writes self [] (on_fs (mkdir p parents exist_ok)).
Proof.
  intros st [] st' H. apply on_fs_Return in H as [H Hf].
  apply mkdir_grows in H as [Hg _]. cbn. rewrite app_nil_r.
  split; [exact Hf |]. split; [exact Hg | constructor].
Qed.

Lemma writes__write (q : list string) (c : content) :
  q <> [] ->
  writes self [q] (_write self (Path.extend (project_root self) q) c).
Proof.
  intros Hq st [] st' H. unfold _write in H.
  apply bind_Return_inv in H as ([] & st1 & H1 & H).
  apply bind_Return_inv in H as ([] & st2 & H2 & H3).
  apply on_fs_Return in H1 as [H1 Hf1].
  apply on_fs_Return in H2 as [H2 Hf2].
  apply (record_created_Return q _ _ Hq) in H3 as [Hf3 Hfs3].
  apply mkdir_grows in H1 as [Hg1 _].
  apply write_text_grows in H2 as [Hg2 Hs2].
  split; [| split].
  - cbn. congruence.
  - rewrite Hfs3. eapply fs_grows_trans; eassumption.
  - constructor; [| constructor]. rewrite Hfs3.
    unfold Path_exists. now rewrite Hs2.
Qed.

Lemma writes__write_empty (q : list string) :
  q <> [] ->
  writes self [q] (_write_empty self (Path.extend (project_root self) q)).
Proof.
  intros Hq st [] st' H. unfold _write_empty in H.
  apply bind_Return_inv in H as ([] & st1 & H1 & H).
  apply bind_Return_inv in H as ([] & st2 & H2 & H3).
  apply on_fs_Return in H1 as [H1 Hf1].
  apply on_fs_Return in H2 as [H2 Hf2].
  apply (record_created_Return q _ _ Hq) in H3 as [Hf3 Hfs3].
  apply mkdir_grows in H1 as [Hg1 _].
  apply touch_grows in H2 as [Hg2 Hs2].
  split; [| split].
  - cbn. congruence.
  - rewrite Hfs3. eapply fs_grows_trans; eassumption.
  - constructor; [| constructor]. now rewrite Hfs3.
Qed.

(** The loops over [(template, out)] pairs. *)
Lemma writes_write_rendered (bq : list string) (pairs : list (string * string)) :
  Forall (fun pr => starts_with_slash (snd pr) = false /\ Path.parts_of (snd pr) <> [])
         pairs ->
  writes self (map (fun pr => bq ++ Path.parts_of (snd pr)) pairs)
         (write_rendered self (Path.extend (project_root self) bq) pairs).
Proof.
  unfold write_rendered.
  induction 1 as [|[tmpl out] pairs [Hs Hp] _ IH]; cbn [for_each map].
  - apply writes_ret.
  - change (?x :: ?l) with ([x] ++ l).
    apply writes_bind; [| intros _; exact IH].
    cbn [snd]. rewrite (div_extend _ _ _ Hs).
    apply writes__write. intros E. apply app_eq_nil in E as [_ E]. contradiction.
Qed.

End Writer.

(* ================================================================== *)
(** * What each phase of generation records *)
(* ================================================================== *)

Lemma div_suffixed (p : Path.t) (n suffix : string) :
  no_slash n = true -> clean_part suffix = true -> String.length suffix >= 2 ->
  p // (n +:+ suffix) = Path.extend p [n +:+ suffix].
Proof.
  intros Hn Hs Hl.
  pose proof (clean_part_suffixed _ _ Hn Hs Hl) as Hc.
  rewrite div_root.
  - now rewrite parts_of_clean_part.
  - apply starts_with_slash_no_slash. now apply andb_prop in Hc as [Hc _].
Qed.

Lemma writes_write_rendered_root (self : ProjectGenerator.t)
      (pairs : list (string * string)) :
  Forall (fun pr => starts_with_slash (snd pr) = false /\ Path.parts_of (snd pr) <> [])
         pairs ->
  writes self (map (fun pr => [] ++ Path.parts_of (snd pr)) pairs)
         (ProjectGenerator.write_rendered self (ProjectGenerator.project_root self) pairs).
Proof.
  intros H. pose proof (writes_write_rendered self [] pairs H) as W.
  now rewrite extend_nil in W.
Qed.

Lemma writes_read (self : ProjectGenerator.t) {A} (f : ProjectGenerator.state -> A) :
  writes self [] (fun st => (Return (f st), st)).
Proof.
  intros st a st' [= <- <-]. cbn. rewrite app_nil_r.
  split; [reflexivity |]. split; [apply fs_grows_refl | constructor].
Qed.

(** The paths of a phase are brought to the form of the project root
    extended by parts; the name enters them only when the project has two
    repositories. *)
Ltac norm_paths Hname :=
  unfold ProjectGenerator._api_root, ProjectGenerator._frontend_root,
    ProjectConfig.is_multi_repo;
  cbv zeta;
  match goal with
  | |- context [ProjectConfig.frontend_type ?c] =>
      let Hft := fresh "Hft" in
      destruct (ProjectConfig.frontend_type c) eqn:Hft;
      [ pose proof (Hname eq_refl) as Hns | ]
  | _ => idtac
  end;
  cbv beta iota;
  repeat match goal with
         | Hns : no_slash _ = true |- _ =>
             rewrite !(div_suffixed _ _ _ Hns) by (first [reflexivity | cbn; lia])
         end;
  repeat first [rewrite div_extend by reflexivity | rewrite div_root by reflexivity];
  rewrite ?extend_extend.

Ltac nonempty_parts :=
  let E := fresh "E" in
  intros E; apply (f_equal (@List.length string)) in E;
  rewrite ?length_app in E; cbn in E; lia.

Ltac pairs_ok :=
  repeat (constructor; [split; [reflexivity | cbv; discriminate] |]); constructor.

Ltac derive :=
  lazymatch goal with
  | |- writes _ _ (bind _ _) => eapply writes_bind; [derive | intros ?; derive]
  | |- writes _ _ (ret _) => apply writes_ret
  | |- writes _ _ (if _ then _ else _) => eapply writes_if; derive
  | |- writes _ _ (ProjectGenerator._write _ _ _) =>
      eapply writes__write; nonempty_parts
  | |- writes _ _ (ProjectGenerator._write_empty _ _) =>
      eapply writes__write_empty; nonempty_parts
  | |- writes _ _ (ProjectGenerator.write_rendered _ (Path.extend _ _) _) =>
      eapply writes_write_rendered; pairs_ok
  | |- writes _ _ (ProjectGenerator.write_rendered _ _ _) =>
      eapply writes_write_rendered_root; pairs_ok
  | |- writes _ _ (ProjectGenerator.on_fs (mkdir _ _ _)) => apply writes_mkdir
  end.

(** A phase is traced, and the trace is compared with the list stated. *)
Ltac trace_phase Hname :=
  norm_paths Hname;
  (eapply writes_eq; [derive | reflexivity]).

Section PhaseTraces.
Import ProjectGenerator.
Variable self : ProjectGenerator.t.
Local Abbreviation c := (config self).
Hypothesis name_ok :
  ProjectConfig.frontend_type c = react -> no_slash (ProjectConfig.name c) = true.

Lemma api_root_extend :
  _api_root self = Path.extend (project_root self) (api_parts c).
Proof.
  unfold _api_root, api_parts, ProjectConfig.is_multi_repo.
  destruct (ProjectConfig.frontend_type c); [| now rewrite extend_nil].
  apply div_suffixed; [now apply name_ok | reflexivity | cbn; lia].
Qed.

Lemma writes_generate_common : writes self (common_parts c) (_generate_common self).
Proof.
  unfold _generate_common, common_parts, api_parts, frontend_parts.
  trace_phase name_ok.
Qed.

Lemma writes_generate_docker : writes self docker_parts (_generate_docker self).
Proof. unfold _generate_docker. trace_phase name_ok. Qed.

Lemma writes_generate_api : writes self (api_tree_parts c) (_generate_api self).
Proof.
  unfold _generate_api, api_tree_parts, api_parts.
  norm_paths name_ok;
    (eapply writes_eq; [derive | destruct (ProjectConfig.include_sse c); reflexivity]).
Qed.

Lemma writes_generate_react_frontend :
  ProjectConfig.frontend_type c = react ->
  writes self (react_parts c) (_generate_react_frontend self).
Proof.
  intros Hreact. pose proof (name_ok Hreact) as Hns.
  unfold _generate_react_frontend, react_parts, frontend_parts, _frontend_root.
  cbv zeta. rewrite !(div_suffixed _ _ _ Hns) by (first [reflexivity | cbn; lia]).
  repeat first [rewrite div_extend by reflexivity | rewrite div_root by reflexivity].
  rewrite ?extend_extend.
  eapply writes_eq; [derive | reflexivity].
Qed.

Lemma writes_generate_htmx_templates :
  writes self (htmx_parts c) (_generate_htmx_templates self).
Proof.
  unfold _generate_htmx_templates, htmx_parts, api_parts.
  trace_phase name_ok.
Qed.

Lemma writes_generate_azure_cicd :
  writes self (azure_parts c) (_generate_azure_cicd self).
Proof.
  unfold _generate_azure_cicd, azure_parts, api_parts, frontend_parts.
  trace_phase name_ok.
Qed.

Lemma writes_generate_render_config :
  writes self [["render.yaml"]] (_generate_render_config self).
Proof. unfold _generate_render_config. trace_phase name_ok. Qed.

Lemma writes_generate_alembic :
  writes self (alembic_parts c) (_generate_alembic self).
Proof.
  unfold _generate_alembic, alembic_parts, api_parts.
  trace_phase name_ok.
Qed.

Lemma writes_generate_auth : writes self (auth_parts c) (_generate_auth self).
Proof.
  unfold _generate_auth, auth_parts, api_parts.
  trace_phase name_ok.
Qed.

Lemma writes_generate_claude :
  writes self [["CLAUDE.md"]] (_generate_claude self).
Proof. unfold _generate_claude. trace_phase name_ok. Qed.

Lemma writes_write_metadata now :
  writes self [[".scaffold.json"]] (_write_metadata self now).
Proof. unfold _write_metadata. trace_phase name_ok. Qed.

(** The whole of generation records [generated_parts]. *)
Lemma writes_generate_phases now :
  writes self (generated_parts c) (generate_phases self now).
Proof.
  unfold generate_phases. eapply writes_eq.
  - eapply writes_bind; [apply writes_generate_common | intros _].
    eapply writes_bind; [apply writes_generate_docker | intros _].
    eapply writes_bind; [apply writes_generate_api | intros _].
    eapply writes_bind;
      [eapply writes_frontend;
       [apply writes_generate_react_frontend | intros _; apply writes_generate_htmx_templates]
      | intros _].
    eapply writes_bind;
      [eapply writes_project_type;
       [apply writes_generate_azure_cicd | apply writes_generate_render_config]
      | intros _].
    eapply writes_bind;
      [eapply writes_if; [apply writes_generate_alembic | apply writes_ret]
      | intros _].
    eapply writes_bind;
      [eapply writes_if; [apply writes_generate_auth | apply writes_ret]
      | intros _].
    eapply writes_bind; [apply writes_generate_claude | intros _].
    eapply writes_bind; [apply writes_write_metadata | intros _].
    apply writes_read.
  - reflexivity.
Qed.

End PhaseTraces.

(* ================================================================== *)
(** * The checks of the target directory *)
(* ================================================================== *)

Section Generate.
Import ProjectGenerator.
Variable self : ProjectGenerator.t.
Local Abbreviation c := (config self).
Local Abbreviation root := (project_root self).

(** Whatever the phases return is the success summary. *)
Lemma generate_phases_result now st d st' :
  generate_phases self now st = (Return d, st') -> d = success_summary self st'.
Proof.
  unfold generate_phases. intros H.
  do 9 (apply bind_Return_inv in H as (? & ? & _ & H)).
  now injection H as <- <-.
Qed.

Lemma run_path_exists p st :
  on_fs (path_exists p) st = (Return (Path_exists (fs st) p), st).
Proof. now destruct st. Qed.

Lemma run_any_iterdir_dir p st :
  is_dir (fs st) p = true ->
  on_fs (any_iterdir p) st
  = (Return (match children (fs st) (locate (fs st) p) with
             | [] => false | _ => true end), st).
Proof.
  destruct st as [created fs0]. unfold on_fs, any_iterdir, is_dir. cbn [fs files_created].
  now destruct (stat fs0 p) as [[|]|].
Qed.

Lemma is_dir_exists fs0 p : is_dir fs0 p = true -> Path_exists fs0 p = true.
Proof. unfold is_dir, Path_exists. now destruct (stat fs0 p) as [[|]|]. Qed.

Lemma generate_failure now st msg :
  PreconditionFailure self (fs st) msg ->
  generate self now st = (Return (error_result msg), st).
Proof.
  intros [Hu Hm | Hu Hd Hc | Hu He]; unfold generate; rewrite Hu.
  - rewrite (bind_Return _ _ _ _ _ (run_path_exists _ _)). now rewrite Hm.
  - rewrite (bind_Return _ _ _ _ _ (run_path_exists _ _)).
    rewrite (is_dir_exists _ _ Hd). cbn [negb].
    rewrite (bind_Return _ _ _ _ _ (run_any_iterdir_dir _ _ Hd)).
    now destruct (children (fs st) (locate (fs st) root)).
  - rewrite (bind_Return _ _ _ _ _ (run_path_exists _ _)). now rewrite He.
Qed.

(** A run of [generate] that returns either stopped at one of the three
    checks, leaving everything as it was, or went through all phases, on a
    target directory that is then there. *)
Lemma generate_Return now st d st' :
  generate self now st = (Return d, st') ->
  (exists msg, PreconditionFailure self (fs st) msg /\
               d = error_result msg /\ st' = st) \/
  (exists st1, files_created st1 = files_created st /\
               fs_grows (fs st) (fs st1) /\
               is_dir (fs st1) root = true /\
               generate_phases self now st1 = (Return d, st')).
Proof.
  unfold generate.
  destruct (ProjectConfig.use_current_dir c) eqn:Hu;
    rewrite (bind_Return _ _ _ _ _ (run_path_exists _ _));
    destruct (Path_exists (fs st) root) eqn:He; cbn [negb].
  - intros H. apply bind_Return_inv in H as (occupied & st1 & H1 & H2).
    assert (Hd : is_dir (fs st) root = true).
    { destruct st as [created fs0]. unfold on_fs, any_iterdir in H1.
      cbn [fs files_created] in *. unfold is_dir.
      now destruct (stat fs0 root) as [[|]|]. }
    rewrite (run_any_iterdir_dir _ _ Hd) in H1. injection H1 as <- <-.
    destruct (children (fs st) (locate (fs st) root)) eqn:Hc.
    + right. exists st.
      split; [reflexivity | split; [apply fs_grows_refl | split; [exact Hd | exact H2]]].
    + injection H2 as <- <-. left. eexists. split; [| split; reflexivity].
      apply target_not_empty; [exact Hu | exact Hd | now rewrite Hc].
  - intros [= <- <-]. left. eexists. split; [| split; reflexivity].
    now apply target_missing.
  - intros [= <- <-]. left. eexists. split; [| split; reflexivity].
    now apply target_exists.
  - intros H. apply bind_Return_inv in H as ([] & st1 & H1 & H2).
    apply on_fs_Return in H1 as [H1 Hf].
    apply mkdir_grows in H1 as [Hg Hd].
    right. exists st1.
    split; [exact Hf | split; [exact Hg | split; [exact Hd | exact H2]]].
Qed.

Lemma error_is_not_success st :
  status_of (success_summary self st) <> Some (JStr "error").
Proof. discriminate. Qed.

End Generate.

(* ================================================================== *)
(** * The validator's list against the generator's *)
(* ================================================================== *)

Lemma truthy_append_r (a b : string) : truthy b = true -> truthy (a +:+ b) = true.
Proof. destruct a; [now rewrite append_nil_l | reflexivity]. Qed.

#[export] Instance base_eq_dec : EqDecision base.
Proof. solve_decision. Defined.

Lemma generated_parts_tokens (c : ProjectConfig.t) :
  generated_parts c = map (place c) (tokens_of generated_tokens c).
Proof.
  unfold generated_parts, tokens_of, common_parts, docker_parts, api_tree_parts,
    react_parts, htmx_parts, azure_parts, alembic_parts, auth_parts, place,
    api_parts, frontend_parts, ProjectConfig.is_multi_repo.
  destruct (ProjectConfig.frontend_type c), (ProjectConfig.project_type c),
    (ProjectConfig.include_alembic c), (ProjectConfig.include_sse c),
    (ProjectConfig.include_auth c); reflexivity.
Qed.

Lemma expected_files_tokens (self : ProjectGenerator.t) :
  ProjectGenerator._expected_files self
  = map (fun t => join_slash (place (ProjectGenerator.config self) t))
        (tokens_of expected_tokens (ProjectGenerator.config self)).
Proof.
  destruct self as [c root]. cbn [ProjectGenerator.config].
  unfold ProjectGenerator._expected_files, tokens_of, place, api_parts,
    frontend_parts, ProjectConfig.is_multi_repo, SCAFFOLD_METADATA_FILE.
  cbn [ProjectGenerator.config].
  destruct (ProjectConfig.frontend_type c);
    rewrite ?truthy_append_r by reflexivity; cbn [truthy];
    destruct (ProjectConfig.project_type c), (ProjectConfig.include_alembic c),
      (ProjectConfig.include_sse c), (ProjectConfig.include_auth c); reflexivity.
Qed.

(** Whatever the five settings are, the expected files are among the
    generated ones. *)
Lemma expected_tokens_generated ft pt alembic sse auth :
  expected_tokens ft pt alembic sse auth ⊆ generated_tokens ft pt alembic sse auth.
Proof.
  destruct ft, pt, alembic, sse, auth;
    refine (bool_decide_eq_true_1 _ _); vm_compute; reflexivity.
Qed.

(** Every file the validator expects is one that generation records. *)
Lemma expected_files_generated (self : ProjectGenerator.t) :
  incl (ProjectGenerator._expected_files self)
       (map join_slash (generated_parts (ProjectGenerator.config self))).
Proof.
  rewrite expected_files_tokens, generated_parts_tokens, map_map.
  intros f Hin. apply in_map_iff in Hin as (t & <- & Hin).
  apply in_map_iff. exists t. split; [reflexivity |].
  apply list_elem_of_In. apply (expected_tokens_generated _ _ _ _ _ t).
  now apply list_elem_of_In.
Qed.

(* ================================================================== *)
(** * A generation that succeeds *)
(* ================================================================== *)

Lemma identifier_token_no_slash (s : string) :
  identifier_token s = true -> no_slash s = true.
Proof.
  unfold identifier_token.
  now intros [[[Hs _]%andb_prop _]%andb_prop _]%andb_prop.
Qed.

Lemma identifier_name_fits (c : ProjectConfig.t) :
  identifier_token (ProjectConfig.name c) = true -> name_fits c.
Proof. intros H _. now apply identifier_token_no_slash. Qed.

Lemma htmx_name_fits (c : ProjectConfig.t) :
  ProjectConfig.frontend_type c = htmx -> name_fits c.
Proof. intros H H'. congruence. Qed.

Section Success.
Import ProjectGenerator.
Variable self : ProjectGenerator.t.
Local Abbreviation c := (config self).
Local Abbreviation root := (project_root self).
Hypothesis name_ok : name_fits c.

(** A generation that does not report an error went through all phases:
    it returns the summary, has recorded the generated files after those
    recorded before, and every one of them is in the file system, under a
    project root that is a directory. *)
Lemma generate_success now st d st' :
  generate self now st = (Return d, st') ->
  status_of d = Some (JStr "success") ->
  d = success_summary self st' /\
  files_created st' = files_created st ++ map join_slash (generated_parts c) /\
  fs_grows (fs st) (fs st') /\
  Forall (fun q => Path_exists (fs st') (Path.extend root q) = true)
         (generated_parts c) /\
  is_dir (fs st') root = true.
Proof.
  intros Hrun Hstatus.
  apply generate_Return in Hrun
      as [(msg & _ & -> & _) | (st1 & Hf & Hg & Hd & Hphases)];
    [discriminate Hstatus |].
  pose proof (generate_phases_result _ _ _ _ _ Hphases) as ->.
  apply (writes_generate_phases self name_ok) in Hphases as (Hf' & Hg' & He).
  split; [reflexivity |]. split; [congruence |].
  split; [eapply fs_grows_trans; eassumption |].
  split; [exact He |]. eapply is_dir_grows; eassumption.
Qed.

End Success.

Lemma with_generator_Return {A} (m : M ProjectGenerator.state A) fs a fs' :
  server.with_generator m fs = (Return a, fs') ->
  exists st', m (ProjectGenerator.mkState [] fs) = (Return a, st')
              /\ ProjectGenerator.fs st' = fs'.
Proof.
  unfold server.with_generator.
  destruct (m _) as [r st'] eqn:E. intros [= -> <-]. eauto.
Qed.

(** The same for the tool [create_project], whose generator starts with
    no file recorded. *)
Lemma create_project_success (c : ProjectConfig.t) now fs d fs' :
  name_fits c ->
  server.create_project c now fs = (Return d, fs') ->
  status_of d = Some (JStr "success") ->
  file_list d = map JStr (map join_slash (generated_parts c)) /\
  dict_get "project_root" d
  = Some (JStr (Path.to_string (ProjectGenerator.project_root (ProjectGenerator.__init__ c)))) /\
  fs_grows fs fs' /\
  Forall (fun q => Path_exists fs'
                     (Path.extend (ProjectGenerator.project_root (ProjectGenerator.__init__ c)) q)
                   = true)
         (generated_parts c) /\
  is_dir fs' (ProjectGenerator.project_root (ProjectGenerator.__init__ c)) = true.
Proof.
  intros Hname Hrun Hstatus. unfold server.create_project in Hrun.
  apply with_generator_Return in Hrun as (st' & Hrun & <-).
  apply (generate_success (ProjectGenerator.__init__ c) Hname) in Hrun
      as (-> & Hf & Hg & He & Hd); [| exact Hstatus].
  cbn [ProjectGenerator.files_created ProjectGenerator.fs app] in *.
  unfold file_list, success_summary. cbn [dict_get String.eqb Ascii.eqb Bool.eqb].
  rewrite Hf. auto.
Qed.

(* ================================================================== *)
(** * Scenario A *)
(* ================================================================== *)

Lemma scenario_a_run :
  server.create_project acme "t0" empty_fs = (Return scenario_a_summary, scenario_a_fs).
Proof.
  unfold scenario_a_fs.
  rewrite (surjective_pairing (server.create_project acme "t0" empty_fs)) at 1.
  apply (f_equal2 pair); [vm_compute; reflexivity | reflexivity].
Qed.

Lemma In_JStr (f : string) (L : list string) : In (JStr f) (map JStr L) <-> In f L.
Proof.
  rewrite in_map_iff. split.
  - now intros (x & [= ->] & Hx).
  - intros Hf. now exists f.
Qed.

Lemma htmx_tokens_frontend_free pt alembic sse auth :
  Forall (fun t => fst t <> InFrontend) (generated_tokens htmx pt alembic sse auth).
Proof.
  destruct pt, alembic, sse, auth;
    refine (bool_decide_eq_true_1 _ _); vm_compute; reflexivity.
Qed.

(** With HTMX there is one repository, and the parts of a generated file
    are those of its token. *)
Lemma htmx_parts_are_tokens (c : ProjectConfig.t) :
  ProjectConfig.frontend_type c = htmx ->
  generated_parts c = map snd (tokens_of generated_tokens c).
Proof.
  intros Hft. rewrite generated_parts_tokens. unfold tokens_of. rewrite Hft.
  apply map_ext_in. intros [b q] Hin.
  pose proof (htmx_tokens_frontend_free (ProjectConfig.project_type c)
                (ProjectConfig.include_alembic c) (ProjectConfig.include_sse c)
                (ProjectConfig.include_auth c)) as Hfree.
  rewrite List.Forall_forall in Hfree. specialize (Hfree _ Hin).
  unfold place, api_parts, ProjectConfig.is_multi_repo. rewrite Hft. cbn [fst snd] in *.
  destruct b; [reflexivity | reflexivity | contradiction].
Qed.

(* ================================================================== *)
(** * Two repositories *)
(* ================================================================== *)

Lemma react_run :
  server.create_project acme_react "t0" empty_fs = (Return react_summary, react_fs).
Proof.
  unfold react_fs.
  rewrite (surjective_pairing (server.create_project acme_react "t0" empty_fs)) at 1.
  apply (f_equal2 pair); [vm_compute; reflexivity | reflexivity].
Qed.

Lemma react_tokens_in_place (c : ProjectConfig.t) :
  ProjectConfig.frontend_type c = react ->
  Forall (fun t => token_in_place t = true) (tokens_of generated_tokens c).
Proof.
  intros Hreact. unfold tokens_of. rewrite Hreact.
  destruct (ProjectConfig.project_type c), (ProjectConfig.include_alembic c),
    (ProjectConfig.include_sse c), (ProjectConfig.include_auth c);
    refine (bool_decide_eq_true_1 _ _); vm_compute; reflexivity.
Qed.

Lemma token_place (c : ProjectConfig.t) (t : base * list string) :
  ProjectConfig.frontend_type c = react ->
  token_in_place t = true ->
  in_workspace_or_sub_root c (place c t).
Proof.
  intros Hreact. destruct t as [b q].
  unfold token_in_place, place, api_parts, frontend_parts,
    ProjectConfig.is_multi_repo, in_workspace_or_sub_root.
  rewrite Hreact. cbn [fst snd app].
  destruct b, q as [|x q]; try discriminate.
  - destruct q; [| discriminate]. intros _. left. now exists x.
  - intros _. right. left. exists (x :: q). split; [discriminate | reflexivity].
  - intros _. right. right. exists (x :: q). split; [discriminate | reflexivity].
Qed.

(* ================================================================== *)
(** * Reading the manifest back *)
(* ================================================================== *)

Lemma record_created_fs (self : ProjectGenerator.t) p st st' :
  ProjectGenerator.record_created self p st = (Return tt, st') ->
  ProjectGenerator.fs st' = ProjectGenerator.fs st.
Proof.
  unfold ProjectGenerator.record_created.
  destruct (Path.relative_to p _); [| discriminate].
  now intros [= <-].
Qed.

Lemma _write_content (self : ProjectGenerator.t) p c st st' :
  ProjectGenerator._write self p c st = (Return tt, st') ->
  stat (ProjectGenerator.fs st') p = Some (File c).
Proof.
  unfold ProjectGenerator._write. intros H.
  apply bind_Return_inv in H as ([] & st1 & H1 & H).
  apply bind_Return_inv in H as ([] & st2 & H2 & H3).
  apply on_fs_Return in H2 as [H2 _].
  apply write_text_grows in H2 as [_ Hs].
  apply record_created_fs in H3. now rewrite H3.
Qed.

(** Generation ends by writing the manifest. *)
Lemma generate_phases_manifest (self : ProjectGenerator.t) now st d st' :
  ProjectGenerator.generate_phases self now st = (Return d, st') ->
  stat (ProjectGenerator.fs st')
       (ProjectGenerator.project_root self // SCAFFOLD_METADATA_FILE)
  = Some (File (JsonText (JDict (ProjectGenerator.metadata self now)))).
Proof.
  unfold ProjectGenerator.generate_phases. intros H.
  do 8 (apply bind_Return_inv in H as (? & ? & _ & H)).
  apply bind_Return_inv in H as ([] & st9 & Hmeta & H).
  injection H as _ <-.
  now apply _write_content in Hmeta.
Qed.

Lemma create_project_manifest (c : ProjectConfig.t) now fs d fs' :
  server.create_project c now fs = (Return d, fs') ->
  status_of d = Some (JStr "success") ->
  stat fs' (ProjectGenerator.project_root (ProjectGenerator.__init__ c)
            // SCAFFOLD_METADATA_FILE)
  = Some (File (JsonText (JDict (ProjectGenerator.metadata (ProjectGenerator.__init__ c) now)))).
Proof.
  intros Hrun Hstatus. unfold server.create_project in Hrun.
  apply with_generator_Return in Hrun as (st' & Hrun & <-).
  apply generate_Return in Hrun
      as [(msg & _ & -> & _) | (st1 & _ & _ & _ & Hphases)];
    [discriminate Hstatus |].
  now apply generate_phases_manifest in Hphases.
Qed.

(** [Path(str(p))] is [p]. *)
Lemma of_string_to_string (p : Path.t) :
  clean p -> Path.of_string (Path.to_string p) = p.
Proof.
  destruct p as [a q]. unfold clean, Path.of_string, Path.to_string. cbn [Path.anchor Path.parts].
  intros Hq. destruct a.
  - change ("/" +:+ join_slash q) with (String "/" (join_slash q)).
    cbn [starts_with_slash]. f_equal.
    unfold Path.parts_of. cbn [split_slash]. cbn [Ascii.eqb Bool.eqb].
    cbn [List.filter Path.kept String.eqb negb andb].
    now apply parts_of_join.
  - destruct q as [|x q]; [reflexivity |].
    now rewrite starts_with_slash_join, parts_of_join.
Qed.

Lemma of_string_clean (s : string) : clean (Path.of_string s).
Proof. apply parts_of_are_clean. Qed.

Lemma div_identifier (p : Path.t) (n : string) :
  identifier_token n = true -> p // n = Path.extend p [n].
Proof.
  intros Hn. pose proof (identifier_token_clean _ Hn) as Hc.
  rewrite div_root.
  - now rewrite parts_of_clean_part.
  - apply starts_with_slash_no_slash. now apply identifier_token_no_slash.
Qed.

Lemma extend_clean (p : Path.t) (q : list string) :
  clean p -> Forall (fun x => clean_part x = true) q -> clean (Path.extend p q).
Proof. intros Hp Hq. unfold clean, Path.extend. cbn. now apply Forall_app. Qed.

(** The project root of a configuration with an identifier for a name is
    found again from its string. *)
Lemma project_root_reloaded (c : ProjectConfig.t) :
  identifier_token (ProjectConfig.name c) = true ->
  let root := ProjectGenerator.project_root (ProjectGenerator.__init__ c) in
  clean root /\
  ProjectGenerator.project_root
    (ProjectGenerator.__init__ (reloaded c (Path.to_string root))) = root.
Proof.
  intros Hn. unfold ProjectGenerator.__init__, reloaded.
  cbn [ProjectGenerator.project_root ProjectConfig.use_current_dir
         ProjectConfig.output_dir ProjectConfig.name].
  destruct (ProjectConfig.use_current_dir c).
  - split; [apply of_string_clean |].
    apply of_string_to_string, of_string_clean.
  - rewrite (div_identifier _ _ Hn).
    assert (Hc : clean (Path.extend (Path.of_string (ProjectConfig.output_dir c))
                                    [ProjectConfig.name c])).
    { apply extend_clean; [apply of_string_clean |].
      constructor; [now apply identifier_token_clean | constructor]. }
    split; [exact Hc |].
    rewrite (of_string_to_string _ Hc).
    rewrite (parent_extend _ [] (ProjectConfig.name c)
             : Path.parent (Path.extend _ [ProjectConfig.name c]) = _).
    rewrite extend_nil, (of_string_to_string _ (of_string_clean _)).
    apply div_identifier, Hn.
Qed.

Lemma path_exists_of_stat fs p n :
  stat fs p = Some n -> path_exists p fs = (Return true, fs).
Proof. intros H. unfold path_exists, Path_exists. now rewrite H. Qed.

Lemma read_text_of_stat fs p c :
  stat fs p = Some (File c) -> read_text p fs = (Return c, fs).
Proof. intros H. unfold read_text. now rewrite H. Qed.

(** [from_existing] on the manifest that generation wrote. *)
Lemma from_existing_generated (self : ProjectGenerator.t) now project_dir fs :
  stat fs (Path.of_string project_dir // SCAFFOLD_METADATA_FILE)
  = Some (File (JsonText (JDict (ProjectGenerator.metadata self now)))) ->
  ProjectGenerator.from_existing project_dir fs
  = (Return (ProjectGenerator.__init__
               (reloaded (ProjectGenerator.config self) project_dir)), fs).
Proof.
  intros Hstat. unfold ProjectGenerator.from_existing.
  rewrite (bind_Return _ _ _ _ _ (path_exists_of_stat _ _ _ Hstat)). cbn [negb].
  rewrite (bind_Return _ _ _ _ _ (read_text_of_stat _ _ _ Hstat)).
  destruct self as [c root]. cbn [ProjectGenerator.config].
  destruct c as [n pt ft desc out ucd dbn auth alembic ap fp tdd redis sse].
  destruct pt, ft, ucd; reflexivity.
Qed.

Lemma filter_none {A} (f : A -> bool) (l : list A) :
  Forall (fun x => f x = false) l -> List.filter f l = [].
Proof. induction 1 as [|x l Hx _ IH]; cbn; [reflexivity | now rewrite Hx]. Qed.

(** A validation that finds every expected file. *)
Lemma validate_all_present (self : ProjectGenerator.t) st :
  Forall (fun f => Path_exists (ProjectGenerator.fs st)
                     (ProjectGenerator.project_root self // f) = true)
         (ProjectGenerator._expected_files self) ->
  ProjectGenerator.validate self st = (Return (valid_result self), st).
Proof.
  intros Hall. unfold ProjectGenerator.validate, valid_result.
  rewrite filter_none; [reflexivity |].
  eapply List.Forall_impl; [| exact Hall]. intros f Hf. cbn. now rewrite Hf.
Qed.

Lemma generated_tokens_clean ft pt alembic sse auth :
  Forall (fun t => snd t <> [] /\ Forall (fun x => clean_part x = true) (snd t))
         (generated_tokens ft pt alembic sse auth).
Proof.
  destruct ft, pt, alembic, sse, auth;
    refine (bool_decide_eq_true_1 _ _); vm_compute; reflexivity.
Qed.

Lemma place_clean (c : ProjectConfig.t) (t : base * list string) :
  no_slash (ProjectConfig.name c) = true ->
  snd t <> [] -> Forall (fun x => clean_part x = true) (snd t) ->
  place c t <> [] /\ Forall (fun x => clean_part x = true) (place c t).
Proof.
  intros Hns Hne Hclean. unfold place. split.
  - intros E. apply app_eq_nil in E as [_ E]. contradiction.
  - apply Forall_app. split; [| exact Hclean].
    unfold api_parts, frontend_parts.
    destruct (fst t); [constructor | |].
    + destruct (ProjectConfig.is_multi_repo c); constructor; [| constructor].
      apply clean_part_suffixed; [exact Hns | reflexivity | cbn; lia].
    + constructor; [| constructor].
      apply clean_part_suffixed; [exact Hns | reflexivity | cbn; lia].
Qed.

Lemma div_join (p : Path.t) (q : list string) :
  Forall (fun x => clean_part x = true) q ->
  p // join_slash q = Path.extend p q.
Proof.
  intros Hq. rewrite div_root by now apply starts_with_slash_join.
  now rewrite parts_of_join.
Qed.

(** After a successful generation every expected file is found under the
    project root. *)
Lemma expected_files_present (c : ProjectConfig.t) now fs d fs' :
  identifier_token (ProjectConfig.name c) = true ->
  server.create_project c now fs = (Return d, fs') ->
  status_of d = Some (JStr "success") ->
  Forall (fun f => Path_exists fs'
                     (ProjectGenerator.project_root (ProjectGenerator.__init__ c) // f)
                   = true)
         (ProjectGenerator._expected_files (ProjectGenerator.__init__ c)).
Proof.
  intros Hname Hrun Hstatus.
  pose proof (identifier_token_no_slash _ Hname) as Hns.
  destruct (create_project_success c now fs d fs' (identifier_name_fits c Hname)
              Hrun Hstatus) as (_ & _ & _ & Hthere & _).
  rewrite generated_parts_tokens in Hthere.
  rewrite List.Forall_forall in Hthere.
  rewrite expected_files_tokens. cbn [ProjectGenerator.config ProjectGenerator.__init__].
  apply List.Forall_forall. intros f Hf.
  apply in_map_iff in Hf as (t & <- & Ht).
  assert (Hgen : In t (tokens_of generated_tokens c)).
  { apply list_elem_of_In. apply (expected_tokens_generated _ _ _ _ _ t).
    now apply list_elem_of_In. }
  pose proof (generated_tokens_clean (ProjectConfig.frontend_type c)
                (ProjectConfig.project_type c) (ProjectConfig.include_alembic c)
                (ProjectConfig.include_sse c) (ProjectConfig.include_auth c)) as Hclean.
  rewrite List.Forall_forall in Hclean. destruct (Hclean t Hgen) as [Hne Hparts].
  destruct (place_clean c t Hns Hne Hparts) as [_ Hplace].
  rewrite (div_join _ _ Hplace).
  apply Hthere. now apply in_map.
Qed.

Lemma expected_files_reloaded (c : ProjectConfig.t) (project_dir : string) :
  ProjectGenerator._expected_files (ProjectGenerator.__init__ (reloaded c project_dir))
  = ProjectGenerator._expected_files (ProjectGenerator.__init__ c).
Proof. reflexivity. Qed.

(* ================================================================== *)
(** * Single writes *)
(* ================================================================== *)

Lemma stat_put (k : list string) (n : node) (fs : FileSystem) (p : Path.t) :
  k <> [] ->
  stat (put k n fs) p = if decide (k = locate fs p) then Some n else stat fs p.
Proof.
  intros Hk. unfold stat. change (locate (put k n fs) p) with (locate fs p).
  rewrite stat_key_put. destruct (decide _); [| reflexivity].
  destruct k; [contradiction | reflexivity].
Qed.

Lemma is_dir_stat fs p : is_dir fs p = true <-> stat fs p = Some Dir.
Proof.
  unfold is_dir. destruct (stat fs p) as [[|c]|]; split; congruence.
Qed.

(** [mkdir(parents=True, exist_ok=True)] on a directory that is there. *)
Lemma mkdir_existing_dir (p : Path.t) (fs : FileSystem) :
  is_dir fs p = true -> mkdir p true true fs = (Return tt, fs).
Proof.
  intros Hd. unfold mkdir.
  assert (Hos : os_mkdir (Path.mk (Path.anchor p) (rev (rev (Path.parts p)))) fs
                = (Raise FileExistsError, fs)).
  { rewrite rev_involutive. destruct p as [a q]. cbn [Path.anchor Path.parts].
    unfold os_mkdir. apply is_dir_stat in Hd. now rewrite Hd. }
  assert (Hd' : is_dir fs (Path.mk (Path.anchor p) (rev (rev (Path.parts p)))) = true).
  { rewrite rev_involutive. now destruct p. }
  destruct (rev (Path.parts p)); cbn [mkdir_up]; rewrite Hos; cbn [andb]; now rewrite Hd'.
Qed.

(** [write_text] where the parent is a directory and the target is not
    one. *)
Lemma write_text_at (p : Path.t) (c : content) (fs : FileSystem) :
  is_dir fs p = false ->
  stat_key fs (removelast (locate fs p)) = Some Dir ->
  write_text p c fs = (Return tt, put (locate fs p) (File c) fs).
Proof.
  intros Hnd Hpar. unfold write_text, create_entry.
  unfold is_dir in Hnd. destruct (stat fs p) as [[|c0]|]; try discriminate;
    now rewrite Hpar.
Qed.

Section SingleWrite.
Import ProjectGenerator.
Variable self : ProjectGenerator.t.
Local Abbreviation root := (project_root self).

(** One [_write] under the project root, into a directory that is there. *)
Lemma _write_at (q : list string) (x : string) (c : content) (st : state) :
  is_dir (fs st) (Path.extend root q) = true ->
  is_dir (fs st) (Path.extend root (q ++ [x])) = false ->
  _write self (Path.extend root (q ++ [x])) c st
  = (Return tt,
     mkState (files_created st ++ [join_slash (q ++ [x])])
             (put (locate (fs st) root ++ q ++ [x]) (File c) (fs st))).
Proof.
  intros Hpar Hnd. unfold _write.
  assert (Hmk : on_fs (mkdir (Path.parent (Path.extend root (q ++ [x]))) true true) st
                = (Return tt, st)).
  { rewrite parent_extend. unfold on_fs. rewrite (mkdir_existing_dir _ _ Hpar).
    now destruct st. }
  rewrite (bind_Return _ _ _ _ _ Hmk).
  assert (Hwr : on_fs (write_text (Path.extend root (q ++ [x])) c) st
                = (Return tt,
                   mkState (files_created st)
                           (put (locate (fs st) root ++ q ++ [x]) (File c) (fs st)))).
  { unfold on_fs. rewrite write_text_at.
    - now rewrite locate_extend.
    - exact Hnd.
    - rewrite locate_extend, app_assoc, removelast_last.
      apply is_dir_stat in Hpar. unfold stat in Hpar. now rewrite locate_extend in Hpar. }
  rewrite (bind_Return _ _ _ _ _ Hwr).
  unfold record_created. rewrite relative_to_extend, to_string_relative.
  - reflexivity.
  - intros E. apply app_eq_nil in E as [_ E]. discriminate E.
Qed.

End SingleWrite.

(** [_update_metadata] on a manifest whose components are a list. *)
Lemma _update_metadata_appends (root : Path.t) (kind name : string)
      (fs : FileSystem) (meta : dict) (l : list json) :
  manifest_of fs root = Some meta ->
  components_of meta = Some l ->
  is_dir fs root = true ->
  api._update_metadata root kind name fs
  = (Return tt,
     put (locate fs root ++ [SCAFFOLD_METADATA_FILE])
         (File (JsonText (JDict (dict_set "components"
                                   (JList (l ++ [api.component_entry kind name])) meta))))
         fs).
Proof.
  intros Hm Hc Hd. unfold manifest_of in Hm.
  destruct (stat fs (root // SCAFFOLD_METADATA_FILE)) as [[|text]|] eqn:Hstat;
    try discriminate Hm.
  destruct text as [| | | | | |j]; try discriminate Hm.
  destruct j as [| | | | |meta0]; try discriminate Hm.
  injection Hm as ->.
  unfold api._update_metadata.
  rewrite (bind_Return _ _ _ _ _ (path_exists_of_stat _ _ _ Hstat)).
  rewrite (bind_Return _ _ _ _ _ (read_text_of_stat _ _ _ Hstat)).
  cbn [json_loads]. rewrite (bind_Return _ _ fs (JDict meta) fs) by reflexivity.
  assert (Happ : api.append_component (JDict meta) (api.component_entry kind name) fs
                 = (Return (JDict (dict_set "components"
                                     (JList (l ++ [api.component_entry kind name])) meta)),
                    fs)).
  { unfold api.append_component, components_of in *.
    destruct (dict_get "components" meta) as [[| | | |l0|]|]; try discriminate Hc;
      now injection Hc as <-. }
  rewrite (bind_Return _ _ _ _ _ Happ).
  rewrite div_root in * by reflexivity.
  change (Path.parts_of SCAFFOLD_METADATA_FILE) with [SCAFFOLD_METADATA_FILE] in *.
  rewrite write_text_at.
  - now rewrite locate_extend.
  - unfold is_dir. now rewrite Hstat.
  - rewrite locate_extend, removelast_last.
    apply is_dir_stat in Hd. exact Hd.
Qed.

(* ================================================================== *)
(** * The files of a component *)
(* ================================================================== *)

Lemma lower_ascii_slash (a : ascii) :
  Ascii.eqb (lower_ascii a) "/" = Ascii.eqb a "/".
Proof. destruct a as [[] [] [] [] [] [] [] []]; reflexivity. Qed.

Lemma no_slash_lower (s : string) : no_slash (lower s) = no_slash s.
Proof.
  induction s as [|a s IH]; [reflexivity |].
  cbn. now rewrite lower_ascii_slash, IH.
Qed.

Lemma stat_put_extend fs (root : Path.t) (q1 q2 : list string) (n : node) :
  q1 <> q2 -> q1 <> [] ->
  stat (put (locate fs root ++ q1) n fs) (Path.extend root q2)
  = stat fs (Path.extend root q2).
Proof.
  intros Hne Hq. rewrite stat_put.
  - rewrite locate_extend. destruct (decide _) as [E|]; [| reflexivity].
    apply app_inv_head in E. contradiction.
  - intros E. apply app_eq_nil in E as [_ E]. contradiction.
Qed.

Lemma stat_put_same fs (root : Path.t) (q : list string) (n : node) :
  q <> [] ->
  stat (put (locate fs root ++ q) n fs) (Path.extend root q) = Some n.
Proof.
  intros Hq. rewrite stat_put.
  - rewrite locate_extend. destruct (decide _); [reflexivity | contradiction].
  - intros E. apply app_eq_nil in E as [_ E]. contradiction.
Qed.

Lemma component_parts_kind (c : ProjectConfig.t) (k1 k2 f1 f2 : string) :
  k1 <> k2 -> component_parts c k1 f1 <> component_parts c k2 f2.
Proof.
  unfold component_parts. intros Hk E.
  apply app_inj_tail in E as [E _]. apply app_inv_head in E. congruence.
Qed.

Lemma component_parts_not_manifest (c : ProjectConfig.t) (k f : string) :
  component_parts c k f <> [SCAFFOLD_METADATA_FILE].
Proof.
  unfold component_parts. intros E.
  apply (f_equal (@List.length string)) in E.
  rewrite !length_app in E. cbn in E. lia.
Qed.

Lemma component_parts_nonempty (c : ProjectConfig.t) (k f : string) :
  component_parts c k f <> [].
Proof. unfold component_parts. intros E. apply app_eq_nil in E as [_ E]. discriminate. Qed.

Section Component.
Import ProjectGenerator.
Variable g : ProjectGenerator.t.
Variable request : ComponentConfig.t.
Local Abbreviation c := (config g).
Local Abbreviation root := (project_root g).
Local Abbreviation name := (lower (ComponentConfig.name request)).
Hypothesis name_ok : name_fits c.
Hypothesis request_ok : no_slash (ComponentConfig.name request) = true.

Lemma package_dir (kind : string) :
  starts_with_slash kind = false -> Path.parts_of kind = [kind] ->
  _api_root g // "app" // kind = Path.extend root (api_parts c ++ ["app"; kind]).
Proof.
  intros Hs Hp. rewrite (api_root_extend g name_ok).
  rewrite (div_extend _ _ "app") by reflexivity.
  rewrite (div_extend _ _ kind Hs), Hp.
  change (Path.parts_of "app") with ["app"]. now rewrite <- app_assoc.
Qed.

Lemma component_path_extend (kind : string) :
  starts_with_slash kind = false -> Path.parts_of kind = [kind] ->
  _api_root g // "app" // kind // (name +:+ ".py")
  = Path.extend root (component_parts c kind (name +:+ ".py")).
Proof.
  intros Hs Hp. rewrite (package_dir kind Hs Hp).
  rewrite div_suffixed; [| now rewrite no_slash_lower | reflexivity | cbn; lia].
  now rewrite extend_extend.
Qed.

End Component.

Lemma not_exists_not_dir fs p : Path_exists fs p = false -> is_dir fs p = false.
Proof. unfold Path_exists, is_dir. now destruct (stat fs p) as [[|]|]. Qed.

Lemma Path_exists_stat fs fs' p p' :
  stat fs' p' = stat fs p -> Path_exists fs' p' = Path_exists fs p.
Proof. unfold Path_exists. now intros ->. Qed.

Lemma is_dir_same_stat fs fs' p p' :
  stat fs' p' = stat fs p -> is_dir fs' p' = is_dir fs p.
Proof. unfold is_dir. now intros ->. Qed.

Lemma manifest_of_put_other fs (root : Path.t) (q : list string) (n : node) :
  q <> [SCAFFOLD_METADATA_FILE] -> q <> [] ->
  manifest_of (put (locate fs root ++ q) n fs) root = manifest_of fs root.
Proof.
  intros Hq Hne. unfold manifest_of.
  rewrite div_root by reflexivity.
  change (Path.parts_of SCAFFOLD_METADATA_FILE) with [SCAFFOLD_METADATA_FILE].
  now rewrite stat_put_extend.
Qed.

Lemma is_dir_root_put fs (root : Path.t) (q : list string) (n : node) :
  q <> [] ->
  is_dir (put (locate fs root ++ q) n fs) root = is_dir fs root.
Proof.
  intros Hq. apply is_dir_same_stat. rewrite stat_put.
  - destruct (decide _) as [E|]; [| reflexivity].
    rewrite <- (app_nil_r (locate fs root)) in E at 2.
    apply app_inv_head in E. contradiction.
  - intros E. apply app_eq_nil in E as [_ E]. contradiction.
Qed.

Section Extension.
Import ProjectGenerator.
Variable g : ProjectGenerator.t.
Variable request : ComponentConfig.t.
Local Abbreviation c := (config g).
Local Abbreviation root := (project_root g).
Local Abbreviation name := (lower (ComponentConfig.name request)).
Local Abbreviation file := (lower (ComponentConfig.name request) +:+ ".py").
Hypothesis name_ok : name_fits c.
Hypothesis request_ok : no_slash (ComponentConfig.name request) = true.

Lemma dirs_ready_parts fs :
  dirs_ready g fs = true ->
  is_dir fs root = true /\
  is_dir fs (Path.extend root (api_parts c ++ ["app"; "models"])) = true /\
  is_dir fs (Path.extend root (api_parts c ++ ["app"; "schemas"])) = true /\
  is_dir fs (Path.extend root (api_parts c ++ ["app"; "routers"])) = true.
Proof.
  unfold dirs_ready.
  rewrite !(package_dir g name_ok) by reflexivity.
  now intros [[[H1 H2]%andb_prop H3]%andb_prop H4]%andb_prop.
Qed.

(** [add_model] where the model is already there. *)
Lemma add_model_existing st :
  Path_exists (fs st) (component_path g "models" (ComponentConfig.name request)) = true ->
  api.add_model g request st
  = (Return (error_result
               ("Model already exists: "
                +:+ Path.to_string (component_path g "models" (ComponentConfig.name request)))),
     st).
Proof.
  intros He. unfold api.add_model, component_path in *. cbv zeta.
  rewrite (bind_Return _ _ _ _ _ (run_path_exists _ _)). now rewrite He.
Qed.

(** [add_model] where the model is not there yet. *)
Lemma add_model_fresh meta l st :
  dirs_ready g (fs st) = true ->
  Path_exists (fs st) (component_path g "models" (ComponentConfig.name request)) = false ->
  manifest_of (fs st) root = Some meta ->
  components_of meta = Some l ->
  exists r,
    api.add_model g request st = (Return r, model_added g request meta l st) /\
    status_of r = Some (JStr "success").
Proof.
  intros Hready Hfree Hm Hc.
  apply dirs_ready_parts in Hready as (Hroot & Hmodels & Hschemas & _).
  unfold component_path in *.
  rewrite (component_path_extend g request name_ok request_ok) in * by reflexivity.
  unfold api.add_model. cbv zeta.
  rewrite !(component_path_extend g request name_ok request_ok) by reflexivity.
  rewrite (bind_Return _ _ _ _ _ (run_path_exists _ _)), Hfree.
  unfold model_added. cbv zeta. unfold component_parts in *.
  rewrite (bind_Return _ _ _ _ _
             (_write_at g _ _ _ st Hmodels (not_exists_not_dir _ _ Hfree))).
  set (fs_model := put _ _ (fs st)).
  rewrite (bind_Return _ _ _ _ _ (run_path_exists _ _)). cbn [fs files_created].
  assert (Hmodel_ne : (api_parts c ++ ["app"; "models"]) ++ [file] <> [])
    by apply (component_parts_nonempty c "models").
  assert (Hschema_ne : (api_parts c ++ ["app"; "schemas"]) ++ [file] <> [])
    by apply (component_parts_nonempty c "schemas").
  assert (Hs_same : stat fs_model (Path.extend root ((api_parts c ++ ["app"; "schemas"]) ++ [file]))
                    = stat (fs st) (Path.extend root ((api_parts c ++ ["app"; "schemas"]) ++ [file]))).
  { apply stat_put_extend; [| exact Hmodel_ne].
    apply (component_parts_kind c "models" "schemas"). discriminate. }
  assert (Hm_model : manifest_of fs_model root = Some meta).
  { subst fs_model. rewrite manifest_of_put_other; [exact Hm | | exact Hmodel_ne].
    apply (component_parts_not_manifest c "models"). }
  assert (Hroot_model : is_dir fs_model root = true).
  { subst fs_model. now rewrite is_dir_root_put. }
  rewrite (Path_exists_stat _ _ _ _ Hs_same).
  destruct (Path_exists (fs st) (Path.extend root ((api_parts c ++ ["app"; "schemas"]) ++ [file])))
    eqn:Hhad; cbn [negb].
  - rewrite bind_ret.
    rewrite (bind_Return _ _ _ _ _
               (on_fs_run _ (mkState _ fs_model) _ _
                  (_update_metadata_appends root "db_model" name fs_model meta l
                     Hm_model Hc Hroot_model))).
    eexists. split;
      [ unfold bind, api.get_files_created, ret; cbn [fs files_created];
        now rewrite app_nil_r
      | reflexivity ].
  - assert (Hschemas' : is_dir fs_model (Path.extend root (api_parts c ++ ["app"; "schemas"])) = true).
    { rewrite (is_dir_same_stat (fs st) _ (Path.extend root (api_parts c ++ ["app"; "schemas"])));
        [exact Hschemas |].
      apply stat_put_extend; [| exact Hmodel_ne].
      intros E. apply (f_equal (@List.length string)) in E.
      rewrite !length_app in E. cbn in E. lia. }
    assert (Hnd' : is_dir fs_model
                     (Path.extend root ((api_parts c ++ ["app"; "schemas"]) ++ [file])) = false)
      by (rewrite (is_dir_same_stat _ _ _ _ Hs_same); now apply not_exists_not_dir).
    rewrite (bind_Return _ _ _ _ _
               (_write_at g _ _ _ (mkState _ fs_model) Hschemas' Hnd')).
    cbn [fs files_created].
    set (fs_schema := put _ _ fs_model).
    assert (Hm_schema : manifest_of fs_schema root = Some meta).
    { subst fs_schema.
      rewrite manifest_of_put_other; [exact Hm_model | | exact Hschema_ne].
      apply (component_parts_not_manifest c "schemas"). }
    assert (Hroot_schema : is_dir fs_schema root = true).
    { subst fs_schema. rewrite is_dir_root_put; [exact Hroot_model | exact Hschema_ne]. }
    rewrite (bind_Return _ _ _ _ _
               (on_fs_run _ (mkState _ fs_schema) _ _
                  (_update_metadata_appends root "db_model" name fs_schema meta l
                     Hm_schema Hc Hroot_schema))).
    eexists. split;
      [ unfold bind, api.get_files_created, ret; cbn [fs files_created];
        now rewrite <- app_assoc
      | reflexivity ].
Qed.

End Extension.

(* ================================================================== *)
(** * After a model has been added *)
(* ================================================================== *)

Lemma locate_cwd fs fs0 p : cwd fs = cwd fs0 -> locate fs p = locate fs0 p.
Proof. unfold locate. now intros ->. Qed.

Lemma stat_put_under fs fs0 (root : Path.t) (q1 q2 : list string) (n : node) :
  cwd fs = cwd fs0 -> q1 <> q2 -> q1 <> [] ->
  stat (put (locate fs0 root ++ q1) n fs) (Path.extend root q2)
  = stat fs (Path.extend root q2).
Proof.
  intros Hc Hne Hq. rewrite <- (locate_cwd fs fs0 root Hc). now apply stat_put_extend.
Qed.

Lemma stat_put_here fs fs0 (root : Path.t) (q : list string) (n : node) :
  cwd fs = cwd fs0 -> q <> [] ->
  stat (put (locate fs0 root ++ q) n fs) (Path.extend root q) = Some n.
Proof.
  intros Hc Hq. rewrite <- (locate_cwd fs fs0 root Hc). now apply stat_put_same.
Qed.

Section AfterModel.
Import ProjectGenerator.
Variable g : ProjectGenerator.t.
Variable request : ComponentConfig.t.
Variables (meta : dict) (l : list json) (st : state).
Local Abbreviation c := (config g).
Local Abbreviation root := (project_root g).
Local Abbreviation name := (lower (ComponentConfig.name request)).
Local Abbreviation file := (lower (ComponentConfig.name request) +:+ ".py").
Local Abbreviation st1 := (model_added g request meta l st).

(** Adding a model leaves everything but its two files and the manifest
    as it was. *)
Lemma model_added_stat (q : list string) :
  q <> component_parts c "models" file ->
  q <> component_parts c "schemas" file ->
  q <> [SCAFFOLD_METADATA_FILE] ->
  stat (fs st1) (Path.extend root q) = stat (fs st) (Path.extend root q).
Proof.
  intros Hm Hs Hman. unfold model_added. cbv zeta. cbn [fs].
  rewrite stat_put_under;
    [| now destruct (Path_exists _ _) | congruence | discriminate].
  destruct (Path_exists _ _).
  - rewrite stat_put_under;
      [reflexivity | reflexivity | congruence | apply component_parts_nonempty].
  - rewrite stat_put_under;
      [| reflexivity | congruence | apply component_parts_nonempty].
    rewrite stat_put_under;
      [reflexivity | reflexivity | congruence | apply component_parts_nonempty].
Qed.

Lemma model_added_root : stat (fs st1) root = stat (fs st) root.
Proof.
  rewrite <- (extend_nil root). apply model_added_stat.
  - intros E. symmetry in E. now apply component_parts_nonempty in E.
  - intros E. symmetry in E. now apply component_parts_nonempty in E.
  - discriminate.
Qed.

(** The model file is there. *)
Lemma model_added_model :
  stat (fs st1) (Path.extend root (component_parts c "models" file))
  = Some (File (ModelCode name (api.fields_or_empty request))).
Proof.
  unfold model_added. cbv zeta. cbn [fs].
  rewrite stat_put_under;
    [| now destruct (Path_exists _ _) | | discriminate].
  2: { intros E. symmetry in E. now apply component_parts_not_manifest in E. }
  destruct (Path_exists _ _).
  - rewrite stat_put_here; [reflexivity | reflexivity | apply component_parts_nonempty].
  - rewrite stat_put_under; [| reflexivity | | apply component_parts_nonempty].
    + rewrite stat_put_here; [reflexivity | reflexivity | apply component_parts_nonempty].
    + apply component_parts_kind. discriminate.
Qed.

(** The schema file is there: the one that was, or the new one. *)
Lemma model_added_schema :
  is_dir (fs st) (Path.extend root (component_parts c "schemas" file)) = false ->
  is_file (fs st1) (Path.extend root (component_parts c "schemas" file)) = true.
Proof.
  intros Hnd. unfold is_file, model_added. cbv zeta. cbn [fs].
  rewrite stat_put_under;
    [| now destruct (Path_exists _ _) | | discriminate].
  2: { intros E. symmetry in E. now apply component_parts_not_manifest in E. }
  destruct (Path_exists _ _) eqn:Hhad.
  - rewrite stat_put_under; [| reflexivity | | apply component_parts_nonempty].
    + unfold Path_exists in Hhad. unfold is_dir in Hnd.
      now destruct (stat (fs st) _) as [[|]|].
    + apply component_parts_kind. discriminate.
  - now rewrite stat_put_here; [| reflexivity | apply component_parts_nonempty].
Qed.

(** The manifest has one more entry, the model. *)
Lemma model_added_manifest :
  manifest_of (fs st1) root
  = Some (dict_set "components"
            (JList (l ++ [api.component_entry "db_model" name])) meta).
Proof.
  unfold manifest_of. rewrite div_root by reflexivity.
  change (Path.parts_of SCAFFOLD_METADATA_FILE) with [SCAFFOLD_METADATA_FILE].
  unfold model_added. cbv zeta. cbn [fs].
  rewrite stat_put_here; [reflexivity | now destruct (Path_exists _ _) | discriminate].
Qed.

End AfterModel.

Lemma components_of_set (meta : dict) (l : list json) :
  components_of (dict_set "components" (JList l) meta) = Some l.
Proof. unfold components_of. now rewrite dict_get_set_eq. Qed.

(* ================================================================== *)
(** * The router of a component *)
(* ================================================================== *)

(** [add_router] is the model, when fields are given, and then the
    router. *)
Lemma add_router_steps (g : ProjectGenerator.t) (request : ComponentConfig.t) :
  api.add_router g request
  = match api.fields_or_empty request with
    | [] => router_step g request
    | _ =>
        let* result := api.add_model g request in
        if api.is_error result then ret result else router_step g request
    end.
Proof. reflexivity. Qed.

Section Router.
Import ProjectGenerator.
Variable g : ProjectGenerator.t.
Variable request : ComponentConfig.t.
Local Abbreviation c := (config g).
Local Abbreviation root := (project_root g).
Local Abbreviation name := (lower (ComponentConfig.name request)).
Local Abbreviation file := (lower (ComponentConfig.name request) +:+ ".py").
Hypothesis name_ok : name_fits c.
Hypothesis request_ok : no_slash (ComponentConfig.name request) = true.

(** The router is already there. *)
Lemma router_step_existing st :
  Path_exists (fs st) (component_path g "routers" (ComponentConfig.name request)) = true ->
  router_step g request st
  = (Return (error_result
               ("Router already exists: "
                +:+ Path.to_string (component_path g "routers" (ComponentConfig.name request)))),
     st).
Proof.
  intros He. unfold router_step, component_path in *. cbv zeta.
  rewrite (bind_Return _ _ _ _ _ (run_path_exists _ _)). now rewrite He.
Qed.

(** The router is not there, and fields were given. *)
Lemma router_step_fresh meta l st :
  api.fields_or_empty request <> [] ->
  is_dir (fs st) root = true ->
  is_dir (fs st) (Path.extend root (api_parts c ++ ["app"; "routers"])) = true ->
  Path_exists (fs st) (component_path g "routers" (ComponentConfig.name request)) = false ->
  manifest_of (fs st) root = Some meta ->
  components_of meta = Some l ->
  exists r,
    router_step g request st = (Return r, router_added g request meta l st) /\
    status_of r = Some (JStr "success").
Proof.
  intros Hfields Hroot Hrouters Hfree Hm Hc.
  unfold component_path in *.
  rewrite (component_path_extend g request name_ok request_ok) in * by reflexivity.
  unfold router_step. cbv zeta.
  rewrite !(component_path_extend g request name_ok request_ok) by reflexivity.
  rewrite (bind_Return _ _ _ _ _ (run_path_exists _ _)), Hfree.
  unfold router_added. cbv zeta. unfold component_parts in *.
  rewrite (bind_Return _ _ _ _ _
             (_write_at g _ _ _ st Hrouters (not_exists_not_dir _ _ Hfree))).
  set (fs_router := put _ _ (fs st)).
  destruct (api.fields_or_empty request) as [|f fields] eqn:Hf; [contradiction |].
  rewrite bind_ret.
  assert (Hne : (api_parts c ++ ["app"; "routers"]) ++ [file] <> [])
    by apply (component_parts_nonempty c "routers").
  assert (Hm_router : manifest_of fs_router root = Some meta).
  { subst fs_router. rewrite manifest_of_put_other; [exact Hm | | exact Hne].
    apply (component_parts_not_manifest c "routers"). }
  assert (Hroot_router : is_dir fs_router root = true).
  { subst fs_router. now rewrite is_dir_root_put. }
  rewrite (bind_Return _ _ _ _ _
             (on_fs_run _ (mkState _ fs_router) _ _
                (_update_metadata_appends root "api_router" name fs_router meta l
                   Hm_router Hc Hroot_router))).
  eexists. split;
    [ unfold bind, api.get_files_created, ret; cbn [fs files_created]; reflexivity
    | reflexivity ].
Qed.

End Router.

(* ================================================================== *)
(** * Loading a generator from the manifest *)
(* ================================================================== *)

Lemma reads_only_bind {S A B} (m : M S A) (k : A -> M S B) :
  reads_only m -> (forall a, reads_only (k a)) -> reads_only (bind m k).
Proof.
  intros Pm Pk s b s1 H.
  apply bind_Return_inv in H as (a & s0 & Hm & Hk).
  apply Pm in Hm as [-> Hm]. apply Pk in Hk as [-> Hk].
  split; [reflexivity |]. intros s2.
  now rewrite (bind_Return _ _ _ _ _ (Hm s2)).
Qed.

Lemma reads_only_get {S} meta key d : reads_only (@ProjectGenerator.get S meta key d).
Proof.
  unfold ProjectGenerator.get.
  destruct meta; auto using @reads_only_ret, @reads_only_raise.
Qed.

Lemma reads_only_subscript {S} meta key : reads_only (@ProjectGenerator.subscript S meta key).
Proof.
  unfold ProjectGenerator.subscript.
  destruct meta as [| | | | |d]; auto using @reads_only_ret, @reads_only_raise.
  destruct (dict_get key d); auto using @reads_only_ret, @reads_only_raise.
Qed.

Lemma reads_only_create_with {S} cb ci kw :
  reads_only (@ProjectConfig.create_with S cb ci kw).
Proof.
  unfold ProjectConfig.create_with.
  repeat (apply reads_only_bind; [auto with readers | intros ?]).
  apply reads_only_ret.
Qed.

Lemma reads_only_create {S} kw : reads_only (@ProjectConfig.create S kw).
Proof. apply reads_only_create_with. Qed.

Lemma reads_only_config_from_metadata {S} project_dir meta :
  reads_only (@ProjectGenerator.config_from_metadata S project_dir meta).
Proof.
  unfold ProjectGenerator.config_from_metadata.
  repeat (apply reads_only_bind;
          [first [apply reads_only_get | apply reads_only_subscript] | intros ?]).
  apply reads_only_create.
Qed.

(** The list of components is not read when the configuration is
    rebuilt. *)
Lemma config_from_metadata_components {S} project_dir (v : json) (meta : dict) :
  @ProjectGenerator.config_from_metadata S project_dir
     (JDict (dict_set "components" v meta))
  = ProjectGenerator.config_from_metadata project_dir (JDict meta).
Proof.
  unfold ProjectGenerator.config_from_metadata, ProjectGenerator.get,
    ProjectGenerator.subscript, dict_get_default.
  now rewrite !(dict_get_set_ne "components") by reflexivity.
Qed.

(** A generator that was loaded: the manifest holds a JSON object, from
    which the configuration was built, and nothing was written. *)
Lemma from_existing_inv project_dir fs g fs' :
  ProjectGenerator.from_existing project_dir fs = (Return g, fs') ->
  fs' = fs /\
  exists meta c,
    manifest_of fs (Path.of_string project_dir) = Some meta /\
    (forall s : FileSystem,
        ProjectGenerator.config_from_metadata project_dir (JDict meta) s = (Return c, s)) /\
    g = ProjectGenerator.__init__ c.
Proof.
  unfold ProjectGenerator.from_existing, manifest_of. cbv zeta. intros H.
  apply bind_Return_inv in H as (found & s0 & Hf & H).
  unfold path_exists in Hf. injection Hf as <- <-.
  unfold Path_exists in H.
  destruct (stat fs _) as [[|text]|] eqn:Hstat; cbn [negb] in H;
    try discriminate H.
  - assert (Hr : read_text (Path.of_string project_dir // SCAFFOLD_METADATA_FILE) fs
                 = (Raise IsADirectoryError, fs))
      by (unfold read_text; now rewrite Hstat).
    rewrite (bind_Raise _ _ _ _ _ Hr) in H. discriminate H.
  - rewrite (bind_Return _ _ _ _ _ (read_text_of_stat _ _ _ Hstat)) in H.
    apply bind_Return_inv in H as (j & s1 & Hj & H).
    destruct text as [| | | | | |j0]; try discriminate Hj.
    cbn [json_loads] in Hj. injection Hj as <- <-.
    apply bind_Return_inv in H as (c0 & s0 & Hc & H).
    injection H as <- <-.
    destruct j0 as [| | | | |meta]; try discriminate Hc.
    apply reads_only_config_from_metadata in Hc as [-> Hc].
    split; [reflexivity |]. exists meta, c0. auto.
Qed.

(** Loading again from a manifest that differs in its components only. *)
Lemma from_existing_again project_dir fs meta c (v : json) :
  manifest_of fs (Path.of_string project_dir)
  = Some (dict_set "components" v meta) ->
  (forall s : FileSystem,
      ProjectGenerator.config_from_metadata project_dir (JDict meta) s = (Return c, s)) ->
  ProjectGenerator.from_existing project_dir fs
  = (Return (ProjectGenerator.__init__ c), fs).
Proof.
  intros Hm Hc. unfold manifest_of in Hm.
  destruct (stat fs _) as [[|text]|] eqn:Hstat; try discriminate Hm.
  destruct text as [| | | | | |j]; try discriminate Hm.
  destruct j as [| | | | |meta0]; try discriminate Hm.
  injection Hm as ->.
  unfold ProjectGenerator.from_existing. cbv zeta.
  rewrite (bind_Return _ _ _ _ _ (path_exists_of_stat _ _ _ Hstat)). cbn [negb].
  rewrite (bind_Return _ _ _ _ _ (read_text_of_stat _ _ _ Hstat)).
  cbn [json_loads]. rewrite bind_ret.
  rewrite config_from_metadata_components.
  now rewrite (bind_Return _ _ _ _ _ (Hc fs)).
Qed.

Lemma fst_Return {S A} (x : outcome A * S) (a : A) :
  fst x = Return a -> x = (Return a, snd x).
Proof. destruct x as [r s]. cbn. now intros ->. Qed.

(* ================================================================== *)
(** * After a router has been added *)
(* ================================================================== *)

Section AfterRouter.
Import ProjectGenerator.
Variable g : ProjectGenerator.t.
Variable request : ComponentConfig.t.
Variables (meta : dict) (l : list json) (st : state).
Local Abbreviation c := (config g).
Local Abbreviation root := (project_root g).
Local Abbreviation name := (lower (ComponentConfig.name request)).
Local Abbreviation file := (lower (ComponentConfig.name request) +:+ ".py").
Local Abbreviation st2 := (router_added g request meta l st).

(** Adding a router leaves everything but its file and the manifest as it
    was. *)
Lemma router_added_stat (q : list string) :
  q <> component_parts c "routers" file ->
  q <> [SCAFFOLD_METADATA_FILE] ->
  stat (fs st2) (Path.extend root q) = stat (fs st) (Path.extend root q).
Proof.
  intros Hr Hman. unfold router_added. cbv zeta. cbn [fs].
  rewrite stat_put_under; [| reflexivity | congruence | discriminate].
  rewrite stat_put_under;
    [reflexivity | reflexivity | congruence | apply component_parts_nonempty].
Qed.

Lemma router_added_router :
  stat (fs st2) (Path.extend root (component_parts c "routers" file))
  = Some (File (RouterCode name (api.fields_or_empty request)
                           (ProjectConfig.include_auth c))).
Proof.
  unfold router_added. cbv zeta. cbn [fs].
  rewrite stat_put_under; [| reflexivity | | discriminate].
  - rewrite stat_put_here; [reflexivity | reflexivity | apply component_parts_nonempty].
  - intros E. symmetry in E. now apply component_parts_not_manifest in E.
Qed.

Lemma router_added_manifest :
  manifest_of (fs st2) root
  = Some (dict_set "components"
            (JList (l ++ [api.component_entry "api_router" name])) meta).
Proof.
  unfold manifest_of. rewrite div_root by reflexivity.
  change (Path.parts_of SCAFFOLD_METADATA_FILE) with [SCAFFOLD_METADATA_FILE].
  unfold router_added. cbv zeta. cbn [fs].
  rewrite stat_put_here; [reflexivity | reflexivity | discriminate].
Qed.

End AfterRouter.

(* ================================================================== *)
(** * A call that extends a project *)
(* ================================================================== *)

Lemma package_parts_not_component (c : ProjectConfig.t) (k1 k2 f : string) :
  api_parts c ++ ["app"; k1] <> component_parts c k2 f.
Proof.
  unfold component_parts. intros E.
  apply (f_equal (@List.length string)) in E.
  rewrite !length_app in E. cbn in E. lia.
Qed.

Lemma package_parts_not_manifest (c : ProjectConfig.t) (k : string) :
  api_parts c ++ ["app"; k] <> [SCAFFOLD_METADATA_FILE].
Proof.
  intros E. apply (f_equal (@List.length string)) in E.
  rewrite !length_app in E. cbn in E. lia.
Qed.

Lemma success_is_not_error (r : dict) :
  status_of r = Some (JStr "success") -> api.is_error r = false.
Proof. unfold status_of, api.is_error. now intros ->. Qed.

Section Call.
Import ProjectGenerator.
Variable request : ComponentConfig.t.
Variable files : FileSystem.
Variable g : ProjectGenerator.t.
Local Abbreviation c := (config g).
Local Abbreviation root := (project_root g).
Local Abbreviation name := (lower (ComponentConfig.name request)).
Local Abbreviation file := (lower (ComponentConfig.name request) +:+ ".py").
Hypothesis loaded :
  fst (from_existing (ComponentConfig.project_dir request) files) = Return g.
Hypothesis name_ok : no_slash (ProjectConfig.name c) = true.
Hypothesis request_ok : no_slash (ComponentConfig.name request) = true.
Hypothesis root_ok : root = Path.of_string (ComponentConfig.project_dir request).

Lemma name_ok_fits : name_fits c.
Proof. intros _. exact name_ok. Qed.

Lemma component_path_parts (kind : string) :
  starts_with_slash kind = false -> Path.parts_of kind = [kind] ->
  component_path g kind (ComponentConfig.name request)
  = Path.extend root (component_parts c kind file).
Proof.
  intros Hs Hp. unfold component_path.
  now apply (component_path_extend g request name_ok_fits request_ok).
Qed.

(** The call runs the extension on the generator that was loaded. *)
Lemma add_component_run :
  server.add_component request files
  = server.with_generator (ProjectGenerator_add_component g request) files.
Proof.
  pose proof (fst_Return _ _ loaded) as E.
  destruct (from_existing_inv _ _ _ _ E) as [Hsame _].
  rewrite Hsame in E. unfold server.add_component.
  now rewrite (bind_Return _ _ _ _ _ E).
Qed.

(** A later call, on a manifest that differs in its components only,
    loads the same generator. *)
Lemma add_component_again (files' : FileSystem) (meta : dict) (v : json) :
  manifest_of files root = Some meta ->
  manifest_of files' root = Some (dict_set "components" v meta) ->
  server.add_component request files'
  = server.with_generator (ProjectGenerator_add_component g request) files'.
Proof.
  intros Hm Hm'.
  pose proof (fst_Return _ _ loaded) as E.
  destruct (from_existing_inv _ _ _ _ E) as (_ & meta0 & c0 & Hm0 & Hc & Hg).
  rewrite root_ok in Hm, Hm'. rewrite Hm in Hm0. injection Hm0 as <-.
  unfold server.add_component.
  rewrite (bind_Return _ _ _ _ _ (from_existing_again _ _ _ _ _ Hm' Hc)).
  now rewrite <- Hg.
Qed.

Variables (meta : dict) (l : list json).
Hypothesis ready : dirs_ready g files = true.
Hypothesis model_free :
  Path_exists files (component_path g "models" (ComponentConfig.name request)) = false.
Hypothesis manifest : manifest_of files root = Some meta.
Hypothesis components : components_of meta = Some l.

Local Abbreviation st0 := (mkState [] files).
Local Abbreviation st1 := (model_added g request meta l (mkState [] files)).

(** The model of the call, where there is none yet. *)
Lemma call_add_model :
  exists r,
    api.add_model g request st0 = (Return r, st1) /\
    status_of r = Some (JStr "success").
Proof.
  now apply (add_model_fresh g request name_ok_fits request_ok meta l st0).
Qed.

(** With fields, the router step runs on what the model left. *)
Lemma call_add_router :
  api.fields_or_empty request <> [] ->
  api.add_router g request st0 = router_step g request st1.
Proof.
  intros Hfields. rewrite add_router_steps.
  destruct (api.fields_or_empty request) as [|f fields]; [contradiction |].
  destruct call_add_model as (r & Hrun & Hstatus).
  rewrite (bind_Return _ _ _ _ _ Hrun).
  now rewrite (success_is_not_error r Hstatus).
Qed.

Lemma after_model_router :
  Path_exists (fs st1) (component_path g "routers" (ComponentConfig.name request))
  = Path_exists files (component_path g "routers" (ComponentConfig.name request)).
Proof.
  rewrite component_path_parts by reflexivity.
  apply Path_exists_stat.
  apply (model_added_stat g request meta l st0).
  - apply component_parts_kind. discriminate.
  - apply component_parts_kind. discriminate.
  - apply component_parts_not_manifest.
Qed.

Lemma after_model_dirs :
  is_dir (fs st1) root = true /\
  is_dir (fs st1) (Path.extend root (api_parts c ++ ["app"; "routers"])) = true.
Proof.
  apply (dirs_ready_parts g name_ok_fits) in ready as (Hroot & _ & _ & Hrouters).
  split.
  - rewrite (is_dir_same_stat files _ root root); [exact Hroot |].
    apply (model_added_root g request meta l st0).
  - rewrite (is_dir_same_stat files _ _ _
               (model_added_stat g request meta l st0
                  (api_parts c ++ ["app"; "routers"])
                  (package_parts_not_component c _ _ _)
                  (package_parts_not_component c _ _ _)
                  (package_parts_not_manifest c _))).
    exact Hrouters.
Qed.

Lemma after_model_manifest :
  manifest_components (fs st1) root
  = Some (l ++ [api.component_entry "db_model" name]).
Proof.
  unfold manifest_components.
  now rewrite model_added_manifest, components_of_set.
Qed.

Lemma after_model_model :
  stat (fs st1) (component_path g "models" (ComponentConfig.name request))
  = Some (File (ModelCode name (api.fields_or_empty request))).
Proof.
  rewrite component_path_parts by reflexivity. apply model_added_model.
Qed.

Lemma after_model_schema :
  Path_exists files (component_path g "schemas" (ComponentConfig.name request)) = false ->
  stat (fs st1) (component_path g "schemas" (ComponentConfig.name request))
  = Some (File (SchemaCode name (api.fields_or_empty request))).
Proof.
  intros Hfree. rewrite component_path_parts in Hfree |- * by reflexivity.
  unfold model_added. cbv zeta. cbn [fs]. rewrite Hfree.
  rewrite stat_put_under; [| reflexivity | | discriminate].
  2: { intros E. symmetry in E. now apply component_parts_not_manifest in E. }
  now rewrite stat_put_here; [| reflexivity | apply component_parts_nonempty].
Qed.

(** The router of the call, where there is none yet: what it leaves. *)
Lemma call_router_fresh :
  api.fields_or_empty request <> [] ->
  Path_exists files (component_path g "routers" (ComponentConfig.name request)) = false ->
  exists r,
    api.add_router g request st0
    = (Return r,
       router_added g request
         (dict_set "components"
            (JList (l ++ [api.component_entry "db_model" name])) meta)
         (l ++ [api.component_entry "db_model" name]) st1) /\
    status_of r = Some (JStr "success").
Proof.
  intros Hfields Hfree. rewrite (call_add_router Hfields).
  destruct after_model_dirs as [Hroot Hrouters].
  apply (router_step_fresh g request name_ok_fits request_ok); auto.
  - now rewrite after_model_router.
  - apply model_added_manifest.
  - apply components_of_set.
Qed.

End Call.

(* ================================================================== *)
(** * A router without fields *)
(* ================================================================== *)

Lemma bind_assoc {S A B C} (m : M S A) (k1 : A -> M S B) (k2 : B -> M S C) s :
  bind (bind m k1) k2 s = bind m (fun a => bind (k1 a) k2) s.
Proof. unfold bind. now destruct (m s) as [[a|e] s1]. Qed.

Section RouterAlone.
Import ProjectGenerator.
Variable g : ProjectGenerator.t.
Variable request : ComponentConfig.t.
Local Abbreviation c := (config g).
Local Abbreviation root := (project_root g).
Local Abbreviation name := (lower (ComponentConfig.name request)).
Local Abbreviation file := (lower (ComponentConfig.name request) +:+ ".py").
Hypothesis name_ok : name_fits c.
Hypothesis request_ok : no_slash (ComponentConfig.name request) = true.

(** The router is not there, and no fields were given. *)
Lemma router_step_alone meta l st :
  api.fields_or_empty request = [] ->
  dirs_ready g (fs st) = true ->
  Path_exists (fs st) (component_path g "routers" (ComponentConfig.name request)) = false ->
  manifest_of (fs st) root = Some meta ->
  components_of meta = Some l ->
  exists r,
    router_step g request st = (Return r, router_alone_added g request meta l st) /\
    status_of r = Some (JStr "success") /\
    dict_get "files_created" r
    = Some (JList (map JStr (files_created (router_alone_added g request meta l st)))).
Proof.
  intros Hfields Hready Hfree Hm Hc.
  apply (dirs_ready_parts g name_ok) in Hready as (Hroot & _ & Hschemas & Hrouters).
  unfold component_path in *.
  rewrite (component_path_extend g request name_ok request_ok) in * by reflexivity.
  unfold router_step. cbv zeta. rewrite Hfields.
  rewrite !(component_path_extend g request name_ok request_ok) by reflexivity.
  rewrite (bind_Return _ _ _ _ _ (run_path_exists _ _)), Hfree.
  unfold router_alone_added. cbv zeta. unfold component_parts in *.
  rewrite (bind_Return _ _ _ _ _
             (_write_at g _ _ _ st Hrouters (not_exists_not_dir _ _ Hfree))).
  set (fs_router := put _ _ (fs st)).
  rewrite bind_assoc.
  rewrite (bind_Return _ _ _ _ _ (run_path_exists _ _)). cbn [fs files_created].
  assert (Hrouter_ne : (api_parts c ++ ["app"; "routers"]) ++ [file] <> [])
    by apply (component_parts_nonempty c "routers").
  assert (Hschema_ne : (api_parts c ++ ["app"; "schemas"]) ++ [file] <> [])
    by apply (component_parts_nonempty c "schemas").
  assert (Hs_same : stat fs_router (Path.extend root ((api_parts c ++ ["app"; "schemas"]) ++ [file]))
                    = stat (fs st) (Path.extend root ((api_parts c ++ ["app"; "schemas"]) ++ [file]))).
  { apply stat_put_extend; [| exact Hrouter_ne].
    apply (component_parts_kind c "routers" "schemas"). discriminate. }
  assert (Hm_router : manifest_of fs_router root = Some meta).
  { subst fs_router. rewrite manifest_of_put_other; [exact Hm | | exact Hrouter_ne].
    apply (component_parts_not_manifest c "routers"). }
  assert (Hroot_router : is_dir fs_router root = true).
  { subst fs_router. now rewrite is_dir_root_put. }
  rewrite (Path_exists_stat _ _ _ _ Hs_same).
  destruct (Path_exists (fs st) (Path.extend root ((api_parts c ++ ["app"; "schemas"]) ++ [file])))
    eqn:Hhad; cbn [negb].
  - rewrite bind_ret.
    rewrite (bind_Return _ _ _ _ _
               (on_fs_run _ (mkState _ fs_router) _ _
                  (_update_metadata_appends root "api_router" name fs_router meta l
                     Hm_router Hc Hroot_router))).
    eexists. split; [| split];
      [ unfold bind, api.get_files_created, ret; cbn [fs files_created];
        now rewrite app_nil_r
      | reflexivity
      | reflexivity ].
  - assert (Hschemas' : is_dir fs_router (Path.extend root (api_parts c ++ ["app"; "schemas"])) = true).
    { rewrite (is_dir_same_stat (fs st) _ (Path.extend root (api_parts c ++ ["app"; "schemas"])));
        [exact Hschemas |].
      apply stat_put_extend; [| exact Hrouter_ne].
      intros E. apply (f_equal (@List.length string)) in E.
      rewrite !length_app in E. cbn in E. lia. }
    assert (Hnd' : is_dir fs_router
                     (Path.extend root ((api_parts c ++ ["app"; "schemas"]) ++ [file])) = false)
      by (rewrite (is_dir_same_stat _ _ _ _ Hs_same); now apply not_exists_not_dir).
    rewrite (bind_Return _ _ _ _ _
               (_write_at g _ _ _ (mkState _ fs_router) Hschemas' Hnd')).
    cbn [fs files_created].
    set (fs_schema := put _ _ fs_router).
    assert (Hm_schema : manifest_of fs_schema root = Some meta).
    { subst fs_schema.
      rewrite manifest_of_put_other; [exact Hm_router | | exact Hschema_ne].
      apply (component_parts_not_manifest c "schemas"). }
    assert (Hroot_schema : is_dir fs_schema root = true).
    { subst fs_schema. rewrite is_dir_root_put; [exact Hroot_router | exact Hschema_ne]. }
    rewrite (bind_Return _ _ _ _ _
               (on_fs_run _ (mkState _ fs_schema) _ _
                  (_update_metadata_appends root "api_router" name fs_schema meta l
                     Hm_schema Hc Hroot_schema))).
    eexists. split; [| split];
      [ unfold bind, api.get_files_created, ret; cbn [fs files_created];
        now rewrite <- app_assoc
      | reflexivity
      | cbn [files_created]; rewrite <- app_assoc; reflexivity ].
Qed.

End RouterAlone.

Section AfterRouterAlone.
Import ProjectGenerator.
Variable g : ProjectGenerator.t.
Variable request : ComponentConfig.t.
Variables (meta : dict) (l : list json) (st : state).
Local Abbreviation c := (config g).
Local Abbreviation root := (project_root g).
Local Abbreviation name := (lower (ComponentConfig.name request)).
Local Abbreviation file := (lower (ComponentConfig.name request) +:+ ".py").
Local Abbreviation st3 := (router_alone_added g request meta l st).

Lemma router_alone_stat (q : list string) :
  q <> component_parts c "routers" file ->
  q <> component_parts c "schemas" file ->
  q <> [SCAFFOLD_METADATA_FILE] ->
  stat (fs st3) (Path.extend root q) = stat (fs st) (Path.extend root q).
Proof.
  intros Hr Hs Hman. unfold router_alone_added. cbv zeta. cbn [fs].
  rewrite stat_put_under;
    [| now destruct (Path_exists _ _) | congruence | discriminate].
  destruct (Path_exists _ _).
  - rewrite stat_put_under;
      [reflexivity | reflexivity | congruence | apply component_parts_nonempty].
  - rewrite stat_put_under;
      [| reflexivity | congruence | apply component_parts_nonempty].
    rewrite stat_put_under;
      [reflexivity | reflexivity | congruence | apply component_parts_nonempty].
Qed.

Lemma router_alone_router :
  stat (fs st3) (Path.extend root (component_parts c "routers" file))
  = Some (File (RouterCode name [] (ProjectConfig.include_auth c))).
Proof.
  unfold router_alone_added. cbv zeta. cbn [fs].
  rewrite stat_put_under;
    [| now destruct (Path_exists _ _) | | discriminate].
  2: { intros E. symmetry in E. now apply component_parts_not_manifest in E. }
  destruct (Path_exists _ _).
  - rewrite stat_put_here; [reflexivity | reflexivity | apply component_parts_nonempty].
  - rewrite stat_put_under; [| reflexivity | | apply component_parts_nonempty].
    + rewrite stat_put_here; [reflexivity | reflexivity | apply component_parts_nonempty].
    + apply component_parts_kind. discriminate.
Qed.

Lemma router_alone_schema :
  stat (fs st3) (Path.extend root (component_parts c "schemas" file))
  = if Path_exists (fs st) (Path.extend root (component_parts c "schemas" file))
    then stat (fs st) (Path.extend root (component_parts c "schemas" file))
    else Some (File (SchemaCode name [])).
Proof.
  unfold router_alone_added. cbv zeta. cbn [fs].
  rewrite stat_put_under;
    [| now destruct (Path_exists _ _) | | discriminate].
  2: { intros E. symmetry in E. now apply component_parts_not_manifest in E. }
  destruct (Path_exists _ _).
  - rewrite stat_put_under; [reflexivity | reflexivity | | apply component_parts_nonempty].
    apply component_parts_kind. discriminate.
  - now rewrite stat_put_here; [| reflexivity | apply component_parts_nonempty].
Qed.

Lemma router_alone_manifest :
  manifest_of (fs st3) root
  = Some (dict_set "components"
            (JList (l ++ [api.component_entry "api_router" name])) meta).
Proof.
  unfold manifest_of. rewrite div_root by reflexivity.
  change (Path.parts_of SCAFFOLD_METADATA_FILE) with [SCAFFOLD_METADATA_FILE].
  unfold router_alone_added. cbv zeta. cbn [fs].
  rewrite stat_put_here; [reflexivity | now destruct (Path_exists _ _) | discriminate].
Qed.

End AfterRouterAlone.

(* ================================================================== *)
(** * Results of the extension *)
(* ================================================================== *)

Lemma lower_ascii_idempotent (a : ascii) : lower_ascii (lower_ascii a) = lower_ascii a.
Proof. destruct a as [[] [] [] [] [] [] [] []]; reflexivity. Qed.

Lemma lower_idempotent (s : string) : lower (lower s) = lower s.
Proof.
  induction s as [|a s IH]; [reflexivity |].
  cbn. now rewrite lower_ascii_idempotent, IH.
Qed.


(* ================================================================== *)
(** * The validator's report *)
(* ================================================================== *)

Lemma filter_nil_iff {A} (f : A -> bool) (l : list A) :
  List.filter f l = [] <-> Forall (fun x => f x = false) l.
Proof.
  split; [| apply filter_none].
  induction l as [|x l IH]; cbn; [constructor |].
  destruct (f x) eqn:E; [discriminate |]. intros H. constructor; auto.
Qed.

Lemma filter_length_le {A} (f : A -> bool) (l : list A) :
  (length (List.filter f l) <= length l)%nat.
Proof. induction l as [|x l IH]; cbn; [lia |]. destruct (f x); cbn; lia. Qed.

(* ================================================================== *)
(** * Non-empty directories *)
(* ================================================================== *)

Lemma children_of_entry (fs : FileSystem) (k : list string) (x : string) :
  stat_key fs (k ++ [x]) <> None -> children fs k <> [].
Proof.
  intros Hx. unfold stat_key in Hx.
  destruct (k ++ [x]) as [|y k'] eqn:Hk; [now destruct k |].
  rewrite <- Hk in Hx.
  destruct (nodes fs !! (k ++ [x])) as [n|] eqn:Hn; [| contradiction].
  assert (Hin : In (k ++ [x]) (List.filter (is_child_of k) (map fst (map_to_list (nodes fs))))).
  { apply filter_In. split.
    - apply in_map_iff. exists (k ++ [x], n). split; [reflexivity |].
      apply list_elem_of_In. now apply elem_of_map_to_list.
    - unfold is_child_of. rewrite Hk, <- Hk.
      apply bool_decide_eq_true_2. apply removelast_last. }
  unfold children. intros E. now rewrite E in Hin.
Qed.

(* ================================================================== *)
(** * The configuration that is loaded back *)
(* ================================================================== *)

Lemma resolved_db_name_reloaded (c : ProjectConfig.t) (project_dir : string) :
  ProjectConfig.resolved_db_name (reloaded c project_dir)
  = ProjectConfig.resolved_db_name c.
Proof.
  unfold reloaded, ProjectConfig.resolved_db_name.
  cbn [ProjectConfig.db_name ProjectConfig.name].
  destruct (ProjectConfig.db_name c) as [s|].
  - destruct (truthy s) eqn:Hs; [now rewrite Hs |].
    destruct (truthy (hyphens_to_underscores (ProjectConfig.name c))) eqn:E; reflexivity.
  - destruct (truthy (hyphens_to_underscores (ProjectConfig.name c))) eqn:E; reflexivity.
Qed.

(** What the manifest that generation wrote loads to. *)
Lemma loaded_after_generate (c : ProjectConfig.t) now fs d fs' :
  identifier_token (ProjectConfig.name c) = true ->
  server.create_project c now fs = (Return d, fs') ->
  status_of d = Some (JStr "success") ->
  let root := ProjectGenerator.project_root (ProjectGenerator.__init__ c) in
  dict_get "project_root" d = Some (JStr (Path.to_string root)) /\
  ProjectGenerator.from_existing (Path.to_string root) fs'
  = (Return (ProjectGenerator.__init__ (reloaded c (Path.to_string root))), fs') /\
  ProjectGenerator.project_root
    (ProjectGenerator.__init__ (reloaded c (Path.to_string root))) = root /\
  stat fs' (root // SCAFFOLD_METADATA_FILE)
  = Some (File (JsonText (JDict (ProjectGenerator.metadata (ProjectGenerator.__init__ c) now)))).
Proof.
  intros Hname Hrun Hstatus root.
  destruct (create_project_success c now fs d fs' (identifier_name_fits c Hname)
              Hrun Hstatus) as (_ & Hroot & _).
  destruct (project_root_reloaded c Hname) as [Hclean Hsame].
  pose proof (create_project_manifest c now fs d fs' Hrun Hstatus) as Hmanifest.
  fold root in Hroot, Hclean, Hsame, Hmanifest.
  split; [exact Hroot |]. split; [| split; [exact Hsame | exact Hmanifest]].
  rewrite <- (of_string_to_string root Hclean) in Hmanifest.
  now apply from_existing_generated in Hmanifest.
Qed.
(* ================================================================== *)
(** * Names *)
(* ================================================================== *)

Lemma hyphens_to_underscores_truthy (s : string) :
  truthy (hyphens_to_underscores s) = truthy s.
Proof. now destruct s. Qed.

Lemma hyphens_to_underscores_no_hyphen (s : string) :
  has_char "-" (hyphens_to_underscores s) = false.
Proof.
  induction s as [|a s IH]; [reflexivity |].
  cbn. fold hyphens_to_underscores. rewrite IH.
  destruct (Ascii.eqb a "-") eqn:E; [reflexivity |]. now rewrite E.
Qed.

Lemma hyphens_to_underscores_length (s : string) :
  String.length (hyphens_to_underscores s) = String.length s.
Proof.
  induction s as [|a s IH]; [reflexivity |].
  cbn. fold hyphens_to_underscores. now rewrite IH.
Qed.

Lemma hyphens_to_underscores_fixed (s : string) :
  has_char "-" s = false -> hyphens_to_underscores s = s.
Proof.
  induction s as [|a s IH]; [reflexivity |].
  cbn. fold hyphens_to_underscores.
  destruct (Ascii.eqb a "-") eqn:E; [discriminate |]. cbn.
  intros H. now rewrite IH.
Qed.

(* ================================================================== *)
(** * Making a chain of directories *)
(* ================================================================== *)

Lemma mkdir_unfold_last (a : bool) (bp q : list string) (x : string) exist_ok fs :
  mkdir (Path.extend (Path.mk a bp) (q ++ [x])) true exist_ok fs
  = match os_mkdir (Path.extend (Path.mk a bp) (q ++ [x])) fs with
    | (Raise (FileNotFoundError m), _) =>
        (mkdir (Path.extend (Path.mk a bp) q) true true
         >> mkdir_here (Path.extend (Path.mk a bp) (q ++ [x])) exist_ok) fs
    | (Raise e, _) =>
        if exist_ok && is_dir fs (Path.extend (Path.mk a bp) (q ++ [x]))
        then (Return tt, fs) else (Raise e, fs)
    | r => r
    end.
Proof.
  unfold mkdir, Path.extend. cbn [Path.anchor Path.parts].
  rewrite (app_assoc bp q [x]), rev_unit. cbn [mkdir_up].
  assert (Hp : rev (x :: rev (bp ++ q)) = (bp ++ q) ++ [x])
    by (cbn [rev]; now rewrite rev_involutive).
  rewrite Hp. reflexivity.
Qed.

Lemma mkdir_chain (base : Path.t) (q0 : list string) :
  forall fs exist_ok,
    is_dir fs base = true ->
    (forall p r, q0 = p ++ r -> not_file fs (Path.extend base p) = true) ->
    (exist_ok = true \/ stat fs (Path.extend base q0) = None) ->
    exists fs',
      mkdir (Path.extend base q0) true exist_ok fs = (Return tt, fs') /\
      cwd fs' = cwd fs /\
      stat fs' (Path.extend base q0) = Some Dir /\
      forall k, stat_key fs' k = stat_key fs k \/
                (stat_key fs k = None /\ stat_key fs' k = Some Dir /\
                 exists p r, q0 = p ++ r /\ p <> [] /\ k = locate fs base ++ p).
Proof.
  induction q0 as [|x q IH] using rev_ind; intros fs exist_ok Hbase Hfree Hok.
  - rewrite extend_nil in *. exists fs.
    destruct Hok as [-> | Hnone].
    + rewrite (mkdir_existing_dir _ _ Hbase).
      split; [reflexivity |]. split; [reflexivity |].
      split; [now apply is_dir_stat | auto].
    + apply is_dir_stat in Hbase. congruence.
  - destruct base as [a bp]. rewrite mkdir_unfold_last.
    assert (Hkey : forall fs0, cwd fs0 = cwd fs ->
                stat fs0 (Path.extend (Path.mk a bp) (q ++ [x]))
                = stat_key fs0 ((locate fs (Path.mk a bp) ++ q) ++ [x])).
    { intros fs0 Hc. unfold stat. rewrite locate_extend, app_assoc.
      now rewrite (locate_cwd fs0 fs _ Hc). }
    assert (Hparent : forall fs0, cwd fs0 = cwd fs ->
                stat fs0 (Path.extend (Path.mk a bp) q)
                = stat_key fs0 (locate fs (Path.mk a bp) ++ q)).
    { intros fs0 Hc. unfold stat. rewrite locate_extend.
      now rewrite (locate_cwd fs0 fs _ Hc). }
    assert (Hcreate : forall fs0, cwd fs0 = cwd fs ->
                stat fs0 (Path.extend (Path.mk a bp) (q ++ [x])) = None ->
                stat fs0 (Path.extend (Path.mk a bp) q) = Some Dir ->
                os_mkdir (Path.extend (Path.mk a bp) (q ++ [x])) fs0
                = (Return tt,
                   put ((locate fs (Path.mk a bp) ++ q) ++ [x]) Dir fs0)).
    { intros fs0 Hc Hn Hd. unfold os_mkdir, create_entry. rewrite Hn.
      unfold stat in Hd. rewrite locate_extend in Hd.
      rewrite locate_extend, app_assoc, removelast_last, Hd.
      now rewrite (locate_cwd fs0 fs _ Hc). }
    pose proof (Hfree (q ++ [x]) [] (eq_sym (app_nil_r _))) as Hself.
    pose proof (Hfree q [x] eq_refl) as Hpar.
    unfold not_file in Hself, Hpar.
    destruct (stat fs (Path.extend (Path.mk a bp) (q ++ [x]))) as [[|c]|] eqn:Hs;
      [| discriminate Hself |].
    + (* the directory is there *)
      destruct Hok as [-> | Hnone]; [| discriminate Hnone].
      assert (Hos : os_mkdir (Path.extend (Path.mk a bp) (q ++ [x])) fs
                    = (Raise FileExistsError, fs))
        by (unfold os_mkdir; now rewrite Hs).
      assert (Hd : is_dir fs (Path.extend (Path.mk a bp) (q ++ [x])) = true)
        by now apply is_dir_stat.
      rewrite Hos, Hd. cbn [andb]. exists fs. auto.
    + destruct (stat fs (Path.extend (Path.mk a bp) q)) as [[|c]|] eqn:Hq;
        [| discriminate Hpar |].
      * (* the parent is there *)
        rewrite (Hcreate fs eq_refl Hs Hq).
        eexists. split; [reflexivity |]. split; [reflexivity |].
        split.
        -- rewrite (Hkey (put _ Dir fs) eq_refl), stat_key_put.
           destruct (decide _); [| congruence].
           now destruct (locate fs (Path.mk a bp) ++ q).
        -- intros k. rewrite stat_key_put.
           destruct (decide (_ = k)) as [<-|]; [| now left].
           right. rewrite <- (Hkey fs eq_refl), Hs.
           split; [reflexivity |]. split.
           ++ now destruct (locate fs (Path.mk a bp) ++ q).
           ++ exists (q ++ [x]), []. rewrite app_nil_r, app_assoc.
              split; [reflexivity |]. split; [| reflexivity].
              intros E. now apply app_eq_nil in E as [_ [=]].
      * (* the parents are made first *)
        assert (Hfnf : exists m, os_mkdir (Path.extend (Path.mk a bp) (q ++ [x])) fs
                                 = (Raise (FileNotFoundError m), fs)).
        { unfold os_mkdir, create_entry. rewrite Hs.
          unfold stat in Hq. rewrite locate_extend in Hq.
          rewrite locate_extend, app_assoc, removelast_last, Hq. eauto. }
        destruct Hfnf as [m ->].
        destruct (IH fs true Hbase) as (fs1 & Hrun & Hcwd & Hdir & Hkeys).
        { intros p r E. apply (Hfree p (r ++ [x])). now rewrite E, app_assoc. }
        { now left. }
        rewrite (bind_Return _ _ _ _ _ Hrun).
        assert (Hs1 : stat fs1 (Path.extend (Path.mk a bp) (q ++ [x])) = None).
        { rewrite (Hkey fs1 Hcwd).
          destruct (Hkeys ((locate fs (Path.mk a bp) ++ q) ++ [x]))
            as [-> | (_ & _ & p & r & E & _ & Hk)].
          - now rewrite <- (Hkey fs eq_refl).
          - rewrite <- app_assoc in Hk. apply app_inv_head in Hk.
            rewrite <- Hk in E. apply (f_equal (@List.length string)) in E.
            rewrite !length_app in E. cbn in E. lia. }
        unfold mkdir_here. rewrite (Hcreate fs1 Hcwd Hs1 Hdir).
        eexists. split; [reflexivity |]. split; [exact Hcwd |].
        split.
        -- unfold stat. rewrite locate_extend, app_assoc.
           change (locate (put _ _ fs1) (Path.mk a bp)) with (locate fs1 (Path.mk a bp)).
           rewrite (locate_cwd fs1 fs _ Hcwd), stat_key_put.
           destruct (decide _); [| congruence].
           now destruct (locate fs (Path.mk a bp) ++ q).
        -- intros k. rewrite stat_key_put.
           destruct (decide (_ = k)) as [<-|].
           ++ right. rewrite <- (Hkey fs eq_refl), Hs.
              split; [reflexivity |]. split.
              ** now destruct (locate fs (Path.mk a bp) ++ q).
              ** exists (q ++ [x]), []. rewrite app_nil_r, app_assoc.
                 split; [reflexivity |]. split; [| reflexivity].
                 intros E. now apply app_eq_nil in E as [_ [=]].
           ++ destruct (Hkeys k) as [-> | (Hn & Hd & p & r & E & Hp & Hk)];
                [now left |].
              right. split; [exact Hn |]. split; [exact Hd |].
              exists p, (r ++ [x]). rewrite E, app_assoc. auto.
Qed.
(* ================================================================== *)
(** * Writing into a file system that is ready *)
(* ================================================================== *)

Lemma not_file_stat fs p :
  not_file fs p = true <-> stat fs p = None \/ stat fs p = Some Dir.
Proof.
  unfold not_file. destruct (stat fs p) as [[|c]|]; split; auto;
    intros H; try destruct H as [H | H]; discriminate H.
Qed.

Lemma stat_same_key fs fs' (root : Path.t) (q : list string) :
  cwd fs' = cwd fs ->
  stat fs' (Path.extend root q) = stat_key fs' (locate fs root ++ q).
Proof.
  intros Hc. unfold stat. rewrite locate_extend.
  now rewrite (locate_cwd fs' fs _ Hc).
Qed.

Lemma stat_root_key fs fs' (root : Path.t) :
  cwd fs' = cwd fs -> stat fs' root = stat_key fs' (locate fs root).
Proof. intros Hc. unfold stat. now rewrite (locate_cwd fs' fs _ Hc). Qed.

Section Ready.
Variable root : Path.t.
Variables P D : list (list string).
Hypothesis plan : plan_ok P D.

Lemma ready_after_dirs fs fs' d :
  In d D -> ready_for root P D fs -> dirs_made fs fs' root d ->
  ready_for root P D fs'.
Proof.
  intros Hd (Hroot & Hfiles & Hways & Hdirs) [Hcwd Hk].
  destruct plan as (Hne & Hpp & Hpd).
  split; [| split; [| split]].
  - apply is_dir_stat. apply is_dir_stat in Hroot.
    rewrite (stat_root_key fs fs' _ Hcwd). unfold stat in Hroot.
    destruct (Hk (locate fs root)) as [-> | (_ & -> & _)]; auto.
  - intros q Hq. specialize (Hfiles q Hq). unfold is_dir in *.
    rewrite (stat_same_key fs fs' _ _ Hcwd).
    unfold stat in Hfiles. rewrite locate_extend in Hfiles.
    destruct (Hk (locate fs root ++ q)) as [-> | (_ & _ & p & r & E & _ & Hkey)];
      [exact Hfiles |].
    apply app_inv_head in Hkey. subst p. now apply Hpd in E.
  - intros q p r Hq E Hr. specialize (Hways q p r Hq E Hr).
    apply not_file_stat. apply not_file_stat in Hways.
    rewrite (stat_same_key fs fs' _ _ Hcwd).
    unfold stat in Hways. rewrite locate_extend in Hways.
    destruct (Hk (locate fs root ++ p)) as [-> | (_ & -> & _)]; auto.
  - intros d' p r Hd' E. specialize (Hdirs d' p r Hd' E).
    apply not_file_stat. apply not_file_stat in Hdirs.
    rewrite (stat_same_key fs fs' _ _ Hcwd).
    unfold stat in Hdirs. rewrite locate_extend in Hdirs.
    destruct (Hk (locate fs root ++ p)) as [-> | (_ & -> & _)]; auto.
Qed.

Lemma ready_after_file fs fs' q0 :
  In q0 P -> ready_for root P D fs -> touched fs fs' root q0 ->
  ready_for root P D fs'.
Proof.
  intros Hq0 (Hroot & Hfiles & Hways & Hdirs) [Hcwd Hk].
  destruct plan as (Hne & Hpp & Hpd).
  split; [| split; [| split]].
  - apply is_dir_stat. apply is_dir_stat in Hroot.
    rewrite (stat_root_key fs fs' _ Hcwd). unfold stat in Hroot.
    destruct (Hk (locate fs root))
      as [-> | [(Hkey & _) | (_ & -> & _)]]; auto.
    rewrite <- (app_nil_r (locate fs root)) in Hkey at 1.
    apply app_inv_head in Hkey. symmetry in Hkey. now apply Hne in Hkey.
  - intros q Hq. specialize (Hfiles q Hq). unfold is_dir in *.
    rewrite (stat_same_key fs fs' _ _ Hcwd).
    unfold stat in Hfiles. rewrite locate_extend in Hfiles.
    destruct (Hk (locate fs root ++ q))
      as [-> | [(_ & c & ->) | (_ & _ & p & r & E & _ & Hr & Hkey)]];
      [exact Hfiles | reflexivity |].
    apply app_inv_head in Hkey. subst p.
    now apply (Hpp q q0 r Hq Hq0) in E.
  - intros q p r Hq E Hr. specialize (Hways q p r Hq E Hr).
    apply not_file_stat. apply not_file_stat in Hways.
    rewrite (stat_same_key fs fs' _ _ Hcwd).
    unfold stat in Hways. rewrite locate_extend in Hways.
    destruct (Hk (locate fs root ++ p))
      as [-> | [(Hkey & _) | (_ & -> & _)]]; auto.
    apply app_inv_head in Hkey. subst p.
    now apply (Hpp q0 q r Hq0 Hq) in E.
  - intros d p r Hd E. specialize (Hdirs d p r Hd E).
    apply not_file_stat. apply not_file_stat in Hdirs.
    rewrite (stat_same_key fs fs' _ _ Hcwd).
    unfold stat in Hdirs. rewrite locate_extend in Hdirs.
    destruct (Hk (locate fs root ++ p))
      as [-> | [(Hkey & _) | (_ & -> & _)]]; auto.
    apply app_inv_head in Hkey. subst p.
    now apply (Hpd q0 d r Hq0 Hd) in E.
Qed.

(** The parent directories of a planned file can be made, and the file
    can then be put. *)
Lemma parents_made fs (q : list string) (x : string) :
  In (q ++ [x]) P -> ready_for root P D fs ->
  exists fs1,
    mkdir (Path.parent (Path.extend root (q ++ [x]))) true true fs = (Return tt, fs1) /\
    cwd fs1 = cwd fs /\
    stat fs1 (Path.extend root q) = Some Dir /\
    stat fs1 (Path.extend root (q ++ [x])) = stat fs (Path.extend root (q ++ [x])) /\
    (forall k, stat_key fs1 k = stat_key fs k \/
               (stat_key fs k = None /\ stat_key fs1 k = Some Dir /\
                exists p r, q ++ [x] = p ++ r /\ p <> [] /\ r <> [] /\
                            k = locate fs root ++ p)).
Proof.
  intros Hq (Hroot & Hfiles & Hways & Hdirs).
  rewrite parent_extend.
  destruct (mkdir_chain root q fs true Hroot) as (fs1 & Hrun & Hcwd & Hdir & Hk).
  { intros p r E. apply (Hways (q ++ [x]) p (r ++ [x]) Hq).
    - now rewrite E, app_assoc.
    - intros E'. now apply app_eq_nil in E' as [_ [=]]. }
  { now left. }
  exists fs1. split; [exact Hrun |]. split; [exact Hcwd |]. split; [exact Hdir |].
  split.
  - rewrite (stat_same_key fs fs1 _ _ Hcwd).
    unfold stat at 1. rewrite locate_extend.
    destruct (Hk (locate fs root ++ q ++ [x])) as [-> | (_ & _ & p & r & E & _ & Hkey)];
      [reflexivity |].
    apply app_inv_head in Hkey. subst p.
    apply (f_equal (@List.length string)) in E.
    rewrite !length_app in E. cbn in E. lia.
  - intros k. destruct (Hk k) as [-> | (Hn & Hd & p & r & E & Hp & Hkey)];
      [now left |].
    right. split; [exact Hn |]. split; [exact Hd |].
    exists p, (r ++ [x]). rewrite E, app_assoc.
    split; [reflexivity |]. split; [exact Hp |]. split; [| exact Hkey].
    intros E'. now apply app_eq_nil in E' as [_ [=]].
Qed.

End Ready.
(* ================================================================== *)
(** * Methods that run to their end *)
(* ================================================================== *)

Section Performs.
Import ProjectGenerator.
Variable self : ProjectGenerator.t.
Local Abbreviation c := (config self).
Local Abbreviation root := (project_root self).

Lemma performs_ret {A} (a : A) : performs self [] (ret a).
Proof. intros P st _ _ Hready. now exists a, st. Qed.

Lemma performs_read {A} (f : state -> A) :
  performs self [] (fun st => (Return (f st), st)).
Proof. intros P st _ _ Hready. now exists (f st), st. Qed.

Lemma performs_bind {A B} (m : M state A) (k : A -> M state B) L1 L2 :
  performs self L1 m -> (forall a, performs self L2 (k a)) ->
  performs self (L1 ++ L2) (bind m k).
Proof.
  intros Hm Hk P st Hincl Hplan Hready.
  apply incl_app_inv in Hincl as [H1 H2].
  destruct (Hm P st H1 Hplan Hready) as (a & st1 & Hrun1 & Hready1).
  destruct (Hk a P st1 H2 Hplan Hready1) as (b & st2 & Hrun2 & Hready2).
  exists b, st2. split; [| exact Hready2].
  now rewrite (bind_Return _ _ _ _ _ Hrun1).
Qed.

Lemma performs_eq {A} (m : M state A) L L' :
  performs self L m -> L = L' -> performs self L' m.
Proof. now intros H <-. Qed.

Lemma performs_if {A} (b : bool) (m1 m2 : M state A) L1 L2 :
  performs self L1 m1 -> performs self L2 m2 ->
  performs self (if b then L1 else L2) (if b then m1 else m2).
Proof. now destruct b. Qed.

Lemma performs_project_type {A} (t : ProjectType) (m1 m2 : M state A) L1 L2 :
  performs self L1 m1 -> performs self L2 m2 ->
  performs self (match t with work => L1 | personal => L2 end)
           (match t with work => m1 | personal => m2 end).
Proof. now destruct t. Qed.

Lemma performs_mkdir (d : list string) :
  In d (made_dirs c) ->
  performs self [] (on_fs (mkdir (Path.extend root d) true true)).
Proof.
  intros Hd P st _ Hplan Hready.
  pose proof Hready as (Hroot & _ & _ & Hdirs).
  destruct (mkdir_chain root d (fs st) true Hroot) as (fs1 & Hrun & Hcwd & _ & Hk).
  { intros p r E. now apply (Hdirs d p r Hd). }
  { now left. }
  exists tt, (mkState (files_created st) fs1).
  split; [now apply on_fs_run |]. cbn [fs].
  apply (ready_after_dirs root P _ Hplan (fs st) fs1 d Hd Hready).
  now split.
Qed.

Lemma performs__write (q : list string) (text : content) :
  performs self [q] (_write self (Path.extend root q) text).
Proof.
  intros P st Hincl Hplan Hready.
  assert (Hq : In q P) by (apply Hincl; now left).
  pose proof Hplan as (Hne & _). pose proof (Hne q Hq) as Hq_ne.
  destruct (exists_last Hq_ne) as (q' & x & ->).
  pose proof Hready as (_ & Hfiles & _).
  destruct (parents_made root P _ (fs st) q' x Hq Hready)
    as (fs1 & Hmk & Hcwd & Hpar & Hsame & Hk).
  unfold _write.
  rewrite (bind_Return _ _ _ _ _ (on_fs_run _ st _ _ Hmk)).
  assert (Hwr : write_text (Path.extend root (q' ++ [x])) text fs1
                = (Return tt,
                   put (locate (fs st) root ++ q' ++ [x]) (File text) fs1)).
  { rewrite write_text_at.
    - now rewrite locate_extend, (locate_cwd fs1 (fs st) _ Hcwd).
    - unfold is_dir. rewrite Hsame. apply (Hfiles _ Hq).
    - rewrite locate_extend, app_assoc, removelast_last.
      unfold stat in Hpar. now rewrite locate_extend in Hpar. }
  rewrite (bind_Return _ _ _ _ _ (on_fs_run _ (mkState _ fs1) _ _ Hwr)).
  unfold record_created. rewrite relative_to_extend.
  eexists tt, _. split; [reflexivity |]. cbn [fs].
  apply (ready_after_file root P _ Hplan (fs st) _ (q' ++ [x]) Hq Hready).
  split; [exact Hcwd |]. intros k. rewrite stat_key_put.
  destruct (decide (_ = k)) as [<-|].
  - right. left. split; [reflexivity |]. exists text.
    rewrite app_assoc. now destruct (locate (fs st) root ++ q').
  - destruct (Hk k) as [-> | H]; [now left | right; now right].
Qed.

Lemma performs__write_empty (q : list string) :
  performs self [q] (_write_empty self (Path.extend root q)).
Proof.
  intros P st Hincl Hplan Hready.
  assert (Hq : In q P) by (apply Hincl; now left).
  pose proof Hplan as (Hne & _). pose proof (Hne q Hq) as Hq_ne.
  destruct (exists_last Hq_ne) as (q' & x & ->).
  pose proof Hready as (_ & Hfiles & _).
  destruct (parents_made root P _ (fs st) q' x Hq Hready)
    as (fs1 & Hmk & Hcwd & Hpar & Hsame & Hk).
  unfold _write_empty.
  rewrite (bind_Return _ _ _ _ _ (on_fs_run _ st _ _ Hmk)).
  assert (Htouch : exists fs2,
             touch (Path.extend root (q' ++ [x])) fs1 = (Return tt, fs2) /\
             touched (fs st) fs2 root (q' ++ [x])).
  { unfold touch.
    destruct (stat fs1 (Path.extend root (q' ++ [x]))) as [n|] eqn:Hs.
    - exists fs1. split; [reflexivity |]. split; [exact Hcwd |].
      intros k. destruct (Hk k) as [-> | H]; [now left | right; now right].
    - unfold create_entry.
      rewrite locate_extend, app_assoc, removelast_last.
      unfold stat in Hpar. rewrite locate_extend in Hpar. rewrite Hpar.
      eexists. split; [reflexivity |]. split; [exact Hcwd |].
      intros k. rewrite stat_key_put.
      destruct (decide (_ = k)) as [<-|].
      + right. left. rewrite (locate_cwd fs1 (fs st) _ Hcwd), <- app_assoc.
        split; [reflexivity |]. exists Empty.
        rewrite app_assoc. now destruct (locate (fs st) root ++ q').
      + destruct (Hk k) as [-> | H]; [now left | right; now right]. }
  destruct Htouch as (fs2 & Hrun & Htouched).
  rewrite (bind_Return _ _ _ _ _ (on_fs_run _ (mkState _ fs1) _ _ Hrun)).
  unfold record_created. rewrite relative_to_extend.
  eexists tt, _. split; [reflexivity |]. cbn [fs].
  now apply (ready_after_file root P _ Hplan (fs st) _ (q' ++ [x]) Hq Hready).
Qed.

(** The loops over [(template, out)] pairs. *)
Lemma performs_write_rendered (bq : list string) (pairs : list (string * string)) :
  Forall (fun pr => starts_with_slash (snd pr) = false /\ Path.parts_of (snd pr) <> [])
         pairs ->
  performs self (map (fun pr => bq ++ Path.parts_of (snd pr)) pairs)
           (write_rendered self (Path.extend root bq) pairs).
Proof.
  unfold write_rendered.
  induction 1 as [|[tmpl out] pairs [Hs Hp] _ IH]; cbn [for_each map].
  - apply performs_ret.
  - change (?x :: ?l) with ([x] ++ l).
    apply performs_bind; [| intros _; exact IH].
    cbn [snd]. rewrite (div_extend _ _ _ Hs).
    apply performs__write.
Qed.

Lemma performs_write_rendered_root (pairs : list (string * string)) :
  Forall (fun pr => starts_with_slash (snd pr) = false /\ Path.parts_of (snd pr) <> [])
         pairs ->
  performs self (map (fun pr => [] ++ Path.parts_of (snd pr)) pairs)
           (write_rendered self root pairs).
Proof.
  intros H. pose proof (performs_write_rendered [] pairs H) as W.
  now rewrite extend_nil in W.
Qed.

End Performs.
Ltac perform :=
  lazymatch goal with
  | |- performs _ _ (bind _ _) => eapply performs_bind; [perform | intros ?; perform]
  | |- performs _ _ (ret _) => apply performs_ret
  | |- performs _ _ (if _ then _ else _) => eapply performs_if; perform
  | |- performs _ _ (ProjectGenerator._write _ _ _) => eapply performs__write
  | |- performs _ _ (ProjectGenerator._write_empty _ _) => eapply performs__write_empty
  | |- performs _ _ (ProjectGenerator.write_rendered _ (Path.extend _ _) _) =>
      eapply performs_write_rendered; pairs_ok
  | |- performs _ _ (ProjectGenerator.write_rendered _ _ _) =>
      eapply performs_write_rendered_root; pairs_ok
  end.

(** A phase is run, and what it writes is compared with the list stated. *)
Ltac run_phase Hname :=
  norm_paths Hname;
  (eapply performs_eq; [perform | reflexivity]).

Section PhaseRuns.
Import ProjectGenerator.
Variable self : ProjectGenerator.t.
Local Abbreviation c := (config self).
Hypothesis name_ok :
  ProjectConfig.frontend_type c = react -> no_slash (ProjectConfig.name c) = true.

Lemma performs_generate_common : performs self (common_parts c) (_generate_common self).
Proof.
  unfold _generate_common, common_parts, api_parts, frontend_parts.
  run_phase name_ok.
Qed.

Lemma performs_generate_docker : performs self docker_parts (_generate_docker self).
Proof. unfold _generate_docker. run_phase name_ok. Qed.

Lemma performs_generate_api : performs self (api_tree_parts c) (_generate_api self).
Proof.
  unfold _generate_api, api_tree_parts, api_parts.
  norm_paths name_ok;
    (eapply performs_eq; [perform | destruct (ProjectConfig.include_sse c); reflexivity]).
Qed.

Lemma performs_generate_react_frontend :
  ProjectConfig.frontend_type c = react ->
  performs self (react_parts c) (_generate_react_frontend self).
Proof.
  intros Hreact. pose proof (name_ok Hreact) as Hns.
  unfold _generate_react_frontend, react_parts, frontend_parts, _frontend_root.
  cbv zeta. rewrite !(div_suffixed _ _ _ Hns) by (first [reflexivity | cbn; lia]).
  repeat first [rewrite div_extend by reflexivity | rewrite div_root by reflexivity].
  rewrite ?extend_extend.
  eapply performs_eq.
  - do 6 (eapply performs_bind; [perform | intros ?]).
    apply performs_mkdir. unfold made_dirs, frontend_parts. rewrite Hreact.
    now left.
  - now rewrite app_nil_r.
Qed.

Lemma performs_generate_htmx_templates :
  performs self (htmx_parts c) (_generate_htmx_templates self).
Proof.
  unfold _generate_htmx_templates, htmx_parts, api_parts.
  run_phase name_ok.
Qed.

Lemma performs_generate_azure_cicd :
  performs self (azure_parts c) (_generate_azure_cicd self).
Proof.
  unfold _generate_azure_cicd, azure_parts, api_parts, frontend_parts.
  run_phase name_ok.
Qed.

Lemma performs_generate_render_config :
  performs self [["render.yaml"]] (_generate_render_config self).
Proof. unfold _generate_render_config. run_phase name_ok. Qed.

Lemma performs_generate_alembic :
  performs self (alembic_parts c) (_generate_alembic self).
Proof.
  unfold _generate_alembic, alembic_parts, api_parts.
  run_phase name_ok.
Qed.

Lemma performs_generate_auth : performs self (auth_parts c) (_generate_auth self).
Proof.
  unfold _generate_auth, auth_parts, api_parts.
  run_phase name_ok.
Qed.

Lemma performs_generate_claude :
  performs self [["CLAUDE.md"]] (_generate_claude self).
Proof. unfold _generate_claude. run_phase name_ok. Qed.

Lemma performs_write_metadata now :
  performs self [[".scaffold.json"]] (_write_metadata self now).
Proof. unfold _write_metadata. run_phase name_ok. Qed.

Lemma performs_frontend {A} (m1 m2 : M state A) L1 L2 :
  (ProjectConfig.frontend_type c = react -> performs self L1 m1) ->
  (ProjectConfig.frontend_type c = htmx -> performs self L2 m2) ->
  performs self (match ProjectConfig.frontend_type c with react => L1 | htmx => L2 end)
           (match ProjectConfig.frontend_type c with react => m1 | htmx => m2 end).
Proof. destruct (ProjectConfig.frontend_type c); auto. Qed.

(** The whole of generation runs to its end. *)
Lemma performs_generate_phases now :
  performs self (generated_parts c) (generate_phases self now).
Proof.
  unfold generate_phases. eapply performs_eq.
  - eapply performs_bind; [apply performs_generate_common | intros _].
    eapply performs_bind; [apply performs_generate_docker | intros _].
    eapply performs_bind; [apply performs_generate_api | intros _].
    eapply performs_bind;
      [eapply performs_frontend;
       [apply performs_generate_react_frontend
       | intros _; apply performs_generate_htmx_templates]
      | intros _].
    eapply performs_bind;
      [eapply performs_project_type;
       [apply performs_generate_azure_cicd | apply performs_generate_render_config]
      | intros _].
    eapply performs_bind;
      [eapply performs_if; [apply performs_generate_alembic | apply performs_ret]
      | intros _].
    eapply performs_bind;
      [eapply performs_if; [apply performs_generate_auth | apply performs_ret]
      | intros _].
    eapply performs_bind; [apply performs_generate_claude | intros _].
    eapply performs_bind; [apply performs_write_metadata | intros _].
    apply performs_read.
  - reflexivity.
Qed.

End PhaseRuns.
(* ================================================================== *)
(** * The plan of generation has no file in the way *)
(* ================================================================== *)

Lemma ends_with_append (n suffix : string) : ends_with suffix (n +:+ suffix) = true.
Proof.
  induction n as [|a n IH].
  - rewrite append_nil_l. destruct suffix; cbn [ends_with]; now rewrite String.eqb_refl.
  - rewrite append_cons. cbn [ends_with]. rewrite IH. apply orb_true_r.
Qed.

Lemma prefixb_app (p r : list string) : prefixb p (p ++ r) = true.
Proof.
  induction p as [|x p IH]; [reflexivity |].
  cbn. now rewrite String.eqb_refl.
Qed.

Lemma blocks_false (p q r : list string) :
  q = p ++ r -> blocks p q = false -> r = [].
Proof.
  intros -> H. unfold blocks in H. rewrite prefixb_app in H. cbn in H.
  apply negb_false_iff, Nat.eqb_eq in H. rewrite length_app in H.
  destruct r; [reflexivity | cbn in H; lia].
Qed.

Lemma suffixes_differ (n : string) : n +:+ "-api" <> n +:+ "-frontend".
Proof.
  induction n as [|a n IH].
  - rewrite !append_nil_l. discriminate.
  - rewrite !append_cons. intros [= E]. now apply IH.
Qed.

Lemma plan_check_all ft pt alembic sse auth : plan_check ft pt alembic sse auth = true.
Proof. destruct ft, pt, alembic, sse, auth; vm_compute; reflexivity. Qed.

Lemma generated_plan_ok (c : ProjectConfig.t) :
  plan_ok (generated_parts c) (made_dirs c).
Proof.
  rewrite generated_parts_tokens. unfold tokens_of, made_dirs.
  pose proof (plan_check_all (ProjectConfig.frontend_type c)
                (ProjectConfig.project_type c) (ProjectConfig.include_alembic c)
                (ProjectConfig.include_sse c) (ProjectConfig.include_auth c)) as Hcheck.
  unfold plan_check in Hcheck. cbv zeta in Hcheck.
  apply andb_prop in Hcheck as [Htok Hpair].
  rewrite forallb_forall in Htok.
  assert (Hpairs : forall t1 t2,
             In t1 (generated_tokens (ProjectConfig.frontend_type c)
                      (ProjectConfig.project_type c) (ProjectConfig.include_alembic c)
                      (ProjectConfig.include_sse c) (ProjectConfig.include_auth c)) ->
             In t2 (generated_tokens (ProjectConfig.frontend_type c)
                      (ProjectConfig.project_type c) (ProjectConfig.include_alembic c)
                      (ProjectConfig.include_sse c) (ProjectConfig.include_auth c)) ->
             pair_ok (match ProjectConfig.frontend_type c with
                      | react => true | htmx => false end) t1 t2 = true).
  { intros t1 t2 H1 H2. rewrite forallb_forall in Hpair.
    specialize (Hpair t1 H1). rewrite forallb_forall in Hpair. now apply Hpair. }
  clear Hpair.
  set (ts := generated_tokens _ _ _ _ _) in *.
  unfold place, api_parts, frontend_parts, ProjectConfig.is_multi_repo.
  destruct (ProjectConfig.frontend_type c).
  - (* two repositories *)
    split; [| split].
    + intros q Hq. apply in_map_iff in Hq as ([b p] & <- & Ht).
      specialize (Htok _ Ht). unfold token_ok in Htok. cbn [fst snd] in *.
      destruct p; [discriminate |]. now destruct b.
    + intros q1 q2 r H1 H2 E.
      apply in_map_iff in H1 as ([b1 p1] & <- & Ht1).
      apply in_map_iff in H2 as ([b2 p2] & <- & Ht2).
      pose proof (Htok _ Ht1) as Hok1. pose proof (Htok _ Ht2) as Hok2.
      pose proof (Hpairs _ _ Ht1 Ht2) as Hp.
      unfold token_ok, pair_ok in *. cbn [fst snd andb] in *.
      destruct p1 as [|x1 p1]; [discriminate |].
      destruct p2 as [|x2 p2]; [discriminate |].
      destruct b1, b2; cbn [base_eqb negb app] in *.
      * apply negb_true_iff in Hp.
        apply (blocks_false (x1 :: p1) (x2 :: p2) r); [exact E | exact Hp].
      * injection E as E1 E2. subst x1.
        rewrite ends_with_append in Hok1. discriminate.
      * injection E as E1 E2. subst x1.
        rewrite ends_with_append, andb_false_r in Hok1. discriminate.
      * injection E as E1 E2. subst x2.
        rewrite ends_with_append in Hok2. discriminate.
      * assert (E2 : x2 :: p2 = (x1 :: p1) ++ r) by (cbn [app]; congruence).
        apply negb_true_iff in Hp.
        apply (blocks_false (x1 :: p1) (x2 :: p2) r); [exact E2 | exact Hp].
      * injection E as E1 E2. symmetry in E1. now apply suffixes_differ in E1.
      * injection E as E1 E2. subst x2.
        rewrite ends_with_append, andb_false_r in Hok2. discriminate.
      * injection E as E1 E2. now apply suffixes_differ in E1.
      * assert (E2 : x2 :: p2 = (x1 :: p1) ++ r) by (cbn [app]; congruence).
        apply negb_true_iff in Hp.
        apply (blocks_false (x1 :: p1) (x2 :: p2) r); [exact E2 | exact Hp].
    + intros q d r Hq [<- | []] E.
      apply in_map_iff in Hq as ([b p] & <- & Ht).
      pose proof (Htok _ Ht) as Hok. unfold token_ok in Hok. cbn [fst snd] in *.
      destruct p as [|x p]; [discriminate |].
      destruct b; cbn [app] in E.
      * injection E as E1 E2. subst x.
        rewrite ends_with_append in Hok. rewrite andb_false_r in Hok. discriminate.
      * injection E as E1 E2. symmetry in E1. now apply suffixes_differ in E1.
      * assert (E1 : ["public"] = (x :: p) ++ r) by (cbn [app]; congruence).
        apply negb_true_iff in Hok. rewrite E1, prefixb_app in Hok. discriminate.
  - (* one repository *)
    split; [| split].
    + intros q Hq. apply in_map_iff in Hq as ([b p] & <- & Ht).
      specialize (Htok _ Ht). unfold token_ok in Htok. cbn [fst snd] in *.
      destruct p; [discriminate |]. now destruct b.
    + intros q1 q2 r H1 H2 E.
      apply in_map_iff in H1 as ([b1 p1] & <- & Ht1).
      apply in_map_iff in H2 as ([b2 p2] & <- & Ht2).
      pose proof (Htok _ Ht1) as Hok1. pose proof (Htok _ Ht2) as Hok2.
      pose proof (Hpairs _ _ Ht1 Ht2) as Hp.
      unfold token_ok, pair_ok in *. cbn [fst snd andb] in *.
      destruct p1 as [|x1 p1]; [discriminate |].
      destruct p2 as [|x2 p2]; [discriminate |].
      apply negb_true_iff in Hp.
      destruct b1, b2; try discriminate; cbn [app] in E;
        (apply (blocks_false (x1 :: p1) (x2 :: p2) r); [exact E | exact Hp]).
    + intros q d r _ [].
Qed.
(* ================================================================== *)
(** * A target directory that is ready *)
(* ================================================================== *)

Lemma well_formed_parent (fs : FileSystem) (k : list string) (n : node) :
  well_formed fs = true -> nodes fs !! k = Some n ->
  stat_key fs (removelast k) = Some Dir.
Proof.
  unfold well_formed. rewrite forallb_forall. intros Hwf Hk.
  assert (Hin : In k (map fst (map_to_list (nodes fs)))).
  { apply in_map_iff. exists (k, n). split; [reflexivity |].
    apply list_elem_of_In. now apply elem_of_map_to_list. }
  specialize (Hwf k Hin).
  now destruct (stat_key fs (removelast k)) as [[|c]|].
Qed.

(** Nothing is below a path that is not there. *)
Lemma nothing_below (fs : FileSystem) (k q : list string) :
  well_formed fs = true -> stat_key fs k = None -> stat_key fs (k ++ q) = None.
Proof.
  intros Hwf Hk. induction q as [|x q IH] using rev_ind.
  - now rewrite app_nil_r.
  - destruct (stat_key fs (k ++ q ++ [x])) as [n|] eqn:E; [| reflexivity].
    exfalso. rewrite app_assoc in E. unfold stat_key in E.
    destruct ((k ++ q) ++ [x]) as [|y l] eqn:Hl; [now destruct (k ++ q) |].
    rewrite <- Hl in E. apply (well_formed_parent fs _ _ Hwf) in E.
    rewrite removelast_last in E. congruence.
Qed.

Lemma fresh_root_ready (root : Path.t) (P D : list (list string)) (fs : FileSystem) :
  is_dir fs root = true ->
  (forall q, q <> [] -> stat fs (Path.extend root q) = None) ->
  (forall q, In q P -> q <> []) ->
  ready_for root P D fs.
Proof.
  intros Hroot Hfree Hne.
  assert (Hany : forall p, not_file fs (Path.extend root p) = true).
  { intros p. unfold not_file. destruct p as [|x p].
    - rewrite extend_nil. apply is_dir_stat in Hroot. now rewrite Hroot.
    - now rewrite Hfree. }
  split; [exact Hroot |]. split; [| split].
  - intros q Hq. unfold is_dir. now rewrite (Hfree q (Hne q Hq)).
  - intros q p r _ _ _. apply Hany.
  - intros d p r _ _. apply Hany.
Qed.

Lemma firstn_prefix {A} (p r : list A) : firstn (length p) (p ++ r) = p.
Proof.
  rewrite firstn_app, Nat.sub_diag, firstn_all. cbn. apply app_nil_r.
Qed.

Lemma way_clear_prefixes (fs : FileSystem) (p : Path.t) :
  way_clear fs p = true ->
  is_dir fs (Path.mk (Path.anchor p) []) = true /\
  forall q r, Path.parts p = q ++ r ->
              not_file fs (Path.extend (Path.mk (Path.anchor p) []) q) = true.
Proof.
  unfold way_clear. intros [Hd Hall]%andb_prop. split; [exact Hd |].
  intros q r E. rewrite forallb_forall in Hall.
  specialize (Hall (length q)). rewrite E, firstn_prefix in Hall.
  apply Hall. apply in_seq. rewrite length_app. lia.
Qed.

Section Target.
Import ProjectGenerator.
Variable c : ProjectConfig.t.
Local Abbreviation self := (__init__ c).
Local Abbreviation root := (project_root (__init__ c)).
Variable fs0 : FileSystem.
Hypothesis tree : well_formed fs0 = true.

(** A directory that is there and is empty. *)
Lemma empty_root_ready (P D : list (list string)) :
  is_dir fs0 root = true ->
  children fs0 (locate fs0 root) = [] ->
  (forall q, In q P -> q <> []) ->
  ready_for root P D fs0.
Proof.
  intros Hroot Hempty Hne. apply fresh_root_ready; [exact Hroot | | exact Hne].
  intros [|x q] Hq; [contradiction |].
  unfold stat. rewrite locate_extend.
  change (x :: q) with ([x] ++ q). rewrite app_assoc.
  apply nothing_below; [exact tree |].
  destruct (stat_key fs0 (locate fs0 root ++ [x])) eqn:E; [| reflexivity].
  exfalso. apply (children_of_entry fs0 (locate fs0 root) x); [| exact Hempty].
  now rewrite E.
Qed.

(** A directory that is not there, and the way to which is clear: it can
    be made, and is then ready. *)
Lemma made_root_ready (P D : list (list string)) :
  Path_exists fs0 root = false ->
  way_clear fs0 root = true ->
  (forall q, In q P -> q <> []) ->
  exists fs1,
    mkdir root true false fs0 = (Return tt, fs1) /\
    ready_for root P D fs1.
Proof.
  intros Habsent Hway Hne.
  apply way_clear_prefixes in Hway as [Hbase Hclear].
  assert (Hroot : Path.extend (Path.mk (Path.anchor root) []) (Path.parts root) = root)
    by now destruct root.
  assert (Hnone : stat fs0 root = None)
    by (unfold Path_exists in Habsent; now destruct (stat fs0 root)).
  destruct (mkdir_chain (Path.mk (Path.anchor root) []) (Path.parts root) fs0 false
              Hbase Hclear) as (fs1 & Hrun & Hcwd & Hdir & Hk).
  { right. now rewrite Hroot. }
  rewrite Hroot in Hrun, Hdir.
  exists fs1. split; [exact Hrun |].
  apply fresh_root_ready; [now apply is_dir_stat | | exact Hne].
  intros q Hq. rewrite (stat_same_key fs0 fs1 _ _ Hcwd).
  destruct (Hk (locate fs0 root ++ q)) as [-> | (_ & _ & p & r & E & _ & Hkey)].
  - apply nothing_below; [exact tree | exact Hnone].
  - exfalso. rewrite <- Hroot in Hkey at 1. rewrite locate_extend in Hkey.
    rewrite <- app_assoc in Hkey. apply app_inv_head in Hkey.
    rewrite <- Hkey in E. apply (f_equal (@List.length string)) in E.
    rewrite !length_app in E. destruct q; [contradiction | cbn in E; lia].
Qed.

End Target.

(* ================================================================== *)
(** * Generation runs to its end *)
(* ================================================================== *)

Lemma generation_runs (c : ProjectConfig.t) (now : string)
        (fs : FileSystem) :
  identifier_token (ProjectConfig.name c) = true ->
  well_formed fs = true ->
  target_ready c fs = true ->
  exists d fs',
    server.create_project c now fs = (Return d, fs') /\
    status_of d = Some (JStr "success") /\
    file_list d = map JStr (map join_slash (generated_parts c)) /\
    is_dir fs' (ProjectGenerator.project_root (ProjectGenerator.__init__ c)) = true.
Proof.
  intros Hname Htree Htarget.
  pose proof (identifier_name_fits c Hname) as Hfits.
  pose proof (generated_plan_ok c) as Hplan.
  pose proof Hplan as (Hne & _).
  set (self := ProjectGenerator.__init__ c).
  assert (Hphases : forall st,
             ready_for (ProjectGenerator.project_root self) (generated_parts c)
                       (made_dirs c) (ProjectGenerator.fs st) ->
             exists st', ProjectGenerator.generate_phases self now st
                         = (Return (success_summary self st'), st')).
  { intros st Hready.
    destruct (performs_generate_phases self Hfits now (generated_parts c) st
                (incl_refl _) Hplan Hready) as (d & st' & Hrun & _).
    pose proof (generate_phases_result self now st d st' Hrun) as ->.
    now exists st'. }
  assert (Hrun : exists st',
             ProjectGenerator.generate self now (ProjectGenerator.mkState [] fs)
             = (Return (success_summary self st'), st')).
  { unfold target_ready in Htarget. cbv zeta in Htarget. fold self in Htarget.
    unfold ProjectGenerator.generate.
    change (ProjectGenerator.config self) with c.
    destruct (ProjectConfig.use_current_dir c).
    - apply andb_prop in Htarget as [Hdir Hempty].
      rewrite (bind_Return _ _ _ _ _ (run_path_exists _ _)).
      cbn [ProjectGenerator.fs]. rewrite (is_dir_exists _ _ Hdir). cbn [negb].
      rewrite (bind_Return _ _ _ _ _
                 (run_any_iterdir_dir _ (ProjectGenerator.mkState [] fs) Hdir)).
      cbn [ProjectGenerator.fs].
      destruct (children fs (locate fs (ProjectGenerator.project_root self))) eqn:Hc;
        [| discriminate Hempty].
      apply Hphases. cbn [ProjectGenerator.fs].
      now apply (empty_root_ready c fs Htree).
    - apply andb_prop in Htarget as [Habsent Hway].
      apply negb_true_iff in Habsent.
      rewrite (bind_Return _ _ _ _ _ (run_path_exists _ _)).
      cbn [ProjectGenerator.fs]. rewrite Habsent.
      destruct (made_root_ready c fs Htree (generated_parts c) (made_dirs c)
                  Habsent Hway Hne) as (fs1 & Hmk & Hready).
      rewrite (bind_Return _ _ _ _ _
                 (on_fs_run _ (ProjectGenerator.mkState [] fs) _ _ Hmk)).
      now apply Hphases. }
  destruct Hrun as (st' & Hrun).
  exists (success_summary self st'), (ProjectGenerator.fs st').
  assert (Hcall : server.create_project c now fs
                  = (Return (success_summary self st'), ProjectGenerator.fs st')).
  { unfold server.create_project, server.with_generator. fold self. now rewrite Hrun. }
  split; [exact Hcall |]. split; [reflexivity |].
  destruct (create_project_success c now fs _ _ Hfits Hcall eq_refl)
    as (Hlist & _ & _ & _ & Hdir).
  now split.
Qed.

(** A project that generation has written passes validation. *)
Lemma generated_project_is_valid (c : ProjectConfig.t) (now : string)
      (fs fs' : FileSystem) (d : dict) :
  identifier_token (ProjectConfig.name c) = true ->
  server.create_project c now fs = (Return d, fs') ->
  status_of d = Some (JStr "success") ->
  let root := ProjectGenerator.project_root (ProjectGenerator.__init__ c) in
  dict_get "project_root" d = Some (JStr (Path.to_string root)) /\
  server.validate_project (Path.to_string root) fs'
  = (Return (valid_result (ProjectGenerator.__init__ (reloaded c (Path.to_string root)))),
     fs').
Proof.
  intros Hname Hrun Hstatus root.
  destruct (loaded_after_generate c now fs d fs' Hname Hrun Hstatus)
    as (Hroot & Hload & Hsame & _).
  pose proof (expected_files_present c now fs d fs' Hname Hrun Hstatus) as Hpresent.
  fold root in Hroot, Hload, Hsame, Hpresent.
  split; [exact Hroot |].
  unfold server.validate_project.
  rewrite (bind_Return _ _ _ _ _ Hload).
  unfold server.with_generator.
  rewrite validate_all_present; [reflexivity |].
  cbn [ProjectGenerator.fs]. rewrite Hsame, expected_files_reloaded. exact Hpresent.
Qed.

(* ================================================================== *)
(** * The types of fields *)
(* ================================================================== *)










(** A type that one map knows, the other knows. *)
Lemma types_agree (k : string) :
  types_find k SQLALCHEMY_TYPES_MAP = None <-> types_find k PYDANTIC_TYPES_MAP = None.
Proof.
  unfold SQLALCHEMY_TYPES_MAP, PYDANTIC_TYPES_MAP. cbn [types_find].
  repeat match goal with
         | |- context [String.eqb ?a k] => destruct (String.eqb a k)
         end; split; intros H; first [reflexivity | discriminate H].
Qed.


(* ================================================================== *)
(** * A root that is not there *)
(* ================================================================== *)

Lemma expected_file_under_root (self : ProjectGenerator.t) (f : string) :
  no_slash (ProjectConfig.name (ProjectGenerator.config self)) = true ->
  In f (ProjectGenerator._expected_files self) ->
  exists q, q <> [] /\
            ProjectGenerator.project_root self // f
            = Path.extend (ProjectGenerator.project_root self) q.
Proof.
  intros Hns Hf. rewrite expected_files_tokens in Hf.
  apply in_map_iff in Hf as (t & <- & Ht).
  assert (Hgen : In t (tokens_of generated_tokens (ProjectGenerator.config self))).
  { apply list_elem_of_In. apply (expected_tokens_generated _ _ _ _ _ t).
    now apply list_elem_of_In. }
  pose proof (generated_tokens_clean
                (ProjectConfig.frontend_type (ProjectGenerator.config self))
                (ProjectConfig.project_type (ProjectGenerator.config self))
                (ProjectConfig.include_alembic (ProjectGenerator.config self))
                (ProjectConfig.include_sse (ProjectGenerator.config self))
                (ProjectConfig.include_auth (ProjectGenerator.config self))) as Hclean.
  rewrite List.Forall_forall in Hclean. destruct (Hclean t Hgen) as [Hne Hparts].
  destruct (place_clean _ t Hns Hne Hparts) as [Hplace_ne Hplace].
  exists (place (ProjectGenerator.config self) t).
  split; [exact Hplace_ne | now apply div_join].
Qed.

Lemma expected_files_nonempty (self : ProjectGenerator.t) :
  ProjectGenerator._expected_files self <> [].
Proof. rewrite expected_files_tokens. unfold tokens_of, expected_tokens. discriminate. Qed.

Lemma filter_all {A} (f : A -> bool) (l : list A) :
  Forall (fun x => f x = true) l -> List.filter f l = l.
Proof.
  induction 1 as [|x l Hx _ IH]; cbn; [reflexivity |]. now rewrite Hx, IH.
Qed.


Section ModelFiles.
Import ProjectGenerator.
Variable g : ProjectGenerator.t.
Variable request : ComponentConfig.t.
Local Abbreviation c := (config g).
Local Abbreviation root := (project_root g).
Local Abbreviation name := (lower (ComponentConfig.name request)).
Local Abbreviation file := (lower (ComponentConfig.name request) +:+ ".py").
Hypothesis name_ok : name_fits c.
Hypothesis request_ok : no_slash (ComponentConfig.name request) = true.


End ModelFiles.

Lemma grown_run :
  server.create_project acme "t0" occupied_fs = (Return grown_summary, grown_fs).
Proof.
  unfold grown_fs.
  rewrite (surjective_pairing (server.create_project acme "t0" occupied_fs)) at 1.
  apply (f_equal2 pair); [vm_compute; reflexivity | reflexivity].
Qed.

(* ================================================================== *)
(** * A project without a name *)
(* ================================================================== *)

Lemma unnamed_run :
  server.create_project unnamed "t0" empty_fs = (Return unnamed_summary, unnamed_fs).
Proof.
  unfold unnamed_fs.
  rewrite (surjective_pairing (server.create_project unnamed "t0" empty_fs)) at 1.
  apply (f_equal2 pair); [vm_compute; reflexivity | reflexivity].
Qed.

(** The root is rebuilt as the parent of the project directory joined with
    the name, here [/tmp]: every expected file is looked for there. *)
Lemma unnamed_validated :
  fst (server.validate_project "/tmp/w" unnamed_fs) = Return unnamed_report.
Proof. vm_compute. reflexivity. Qed.

(* ================================================================== *)
(** * Properties of the specification *)
(* ================================================================== *)

(** C1, as the specification states it, does not hold: with no manifest in
    the project directory the three operations do not return an error
    result. *)
Lemma manifest_missing_counterexample : ~ manifest_missing_is_an_error_result.
Proof.
  intros H.
  destruct (H widget_model empty_fs eq_refl
              (server.validate_project "/tmp/w/acme"))
    as (d & fs' & Hrun & _).
  - right. left. reflexivity.
  - vm_compute in Hrun. discriminate Hrun.
Qed.

(** C1, amended: with no manifest in the project directory, [add_component],
    [validate_project] and [get_project_info] raise the [FileNotFoundError]
    of [from_existing], whose message names the directory, and leave the
    file system as it was. *)
Theorem manifest_missing_raises (request : ComponentConfig.t) (fs : FileSystem) :
  Path_exists fs (Path.of_string (ComponentConfig.project_dir request)
                  // SCAFFOLD_METADATA_FILE) = false ->
  let project_dir := ComponentConfig.project_dir request in
  let fault := FileNotFoundError (not_scaffolded_message project_dir) in
  server.add_component request fs = (Raise fault, fs) /\
  server.validate_project project_dir fs = (Raise fault, fs) /\
  server.get_project_info project_dir fs = (Raise fault, fs).
Proof.
  intros Hmissing. cbv zeta.
  assert (Hfrom : ProjectGenerator.from_existing (ComponentConfig.project_dir request) fs
                  = (Raise (FileNotFoundError
                              (not_scaffolded_message (ComponentConfig.project_dir request))),
                     fs)).
  { unfold ProjectGenerator.from_existing, bind, path_exists. now rewrite Hmissing. }
  unfold server.add_component, server.validate_project, server.get_project_info.
  now rewrite !(bind_Raise _ _ _ _ _ Hfrom).
Qed.

Lemma manifest_missing_raises_witness :
  server.add_component widget_model empty_fs
  = (Raise (FileNotFoundError (not_scaffolded_message "/tmp/w/acme")), empty_fs) /\
  server.validate_project "/tmp/w/acme" empty_fs
  = (Raise (FileNotFoundError (not_scaffolded_message "/tmp/w/acme")), empty_fs) /\
  server.get_project_info "/tmp/w/acme" empty_fs
  = (Raise (FileNotFoundError (not_scaffolded_message "/tmp/w/acme")), empty_fs).
Proof. apply (manifest_missing_raises widget_model empty_fs). reflexivity. Defined.

(** C4: [generate] returns an error result exactly in the three cases of the
    target directory (it does not exist, or is not empty, when generating in
    place; it already exists otherwise), and then nothing has been written:
    the file system and the list of created files are as they were. *)
Theorem generate_error_exactly (self : ProjectGenerator.t) (now : string)
        (st : ProjectGenerator.state) :
  (forall msg,
      PreconditionFailure self (ProjectGenerator.fs st) msg ->
      ProjectGenerator.generate self now st
      = (Return (ProjectGenerator.error_result msg), st)) /\
  (forall d st',
      ProjectGenerator.generate self now st = (Return d, st') ->
      status_of d = Some (JStr "error") ->
      exists msg, PreconditionFailure self (ProjectGenerator.fs st) msg /\
                  d = ProjectGenerator.error_result msg /\ st' = st).
Proof.
  split.
  - intros msg. apply generate_failure.
  - intros d st' Hrun Hstatus.
    apply generate_Return in Hrun as [Hfail | (st1 & _ & _ & _ & Hphases)].
    + exact Hfail.
    + apply generate_phases_result in Hphases. subst d.
      now apply error_is_not_success in Hstatus.
Qed.

Lemma generate_error_exactly_witness :
  let st := ProjectGenerator.mkState [] occupied_fs in
  ProjectGenerator.generate (ProjectGenerator.__init__ in_place) "t0" st
  = (Return (ProjectGenerator.error_result
               "Directory is not empty: /tmp/w. use_current_dir requires an empty directory."),
     st).
Proof.
  intros st.
  apply (proj1 (generate_error_exactly (ProjectGenerator.__init__ in_place) "t0" st)).
  apply (target_not_empty (ProjectGenerator.__init__ in_place) occupied_fs).
  - reflexivity.
  - reflexivity.
  - vm_compute. discriminate.
Defined.

(** C9, as the specification states it, does not hold: the constructor
    takes an empty name. *)
Lemma empty_name_counterexample : ~ empty_name_rejected.
Proof.
  intros H. destruct (H (scenario_kwargs EmptyString) tt eq_refl) as [e He].
  vm_compute in He. discriminate He.
Qed.

(** C9, amended: the constructor asks of [name] only that it is a string.
    Keyword arguments that are accepted stay accepted when the name is
    replaced by any string, the empty one included, and the configuration
    differs in its name only. *)
Theorem name_takes_any_string (kw : dict) (c : ProjectConfig.t) (n : string) :
  ProjectConfig.create kw tt = (Return c, tt) ->
  ProjectConfig.create (dict_set "name" (JStr n) kw) tt = (Return (with_name n c), tt).
Proof. apply create_with_name. Qed.

Lemma name_takes_any_string_witness :
  ProjectConfig.create (dict_set "name" (JStr EmptyString) (scenario_kwargs "acme")) tt
  = (Return (with_name EmptyString
               (ProjectConfig.mk "acme" personal htmx EmptyString "/tmp/w" false None
                                 true true 8000 3000 false false false)), tt).
Proof. apply (name_takes_any_string (scenario_kwargs "acme")). reflexivity. Defined.

(** C3, as the specification states it, does not hold: generation records
    files that the validator does not expect. *)
Lemma same_file_plan_counterexample : ~ same_file_plan.
Proof.
  intros H.
  assert (E : fst (server.create_project acme "t0" empty_fs) = Return scenario_a_summary)
    by (vm_compute; reflexivity).
  destruct (H acme "t0" empty_fs scenario_a_summary E eq_refl
              "app/templates/partials/user_list.html") as [_ Hback].
  assert (Hin : In "app/templates/partials/user_list.html"
                   (ProjectGenerator._expected_files (ProjectGenerator.__init__ acme))).
  { apply Hback. vm_compute. tauto. }
  vm_compute in Hin.
  repeat (destruct Hin as [Hin | Hin]; [discriminate Hin |]).
  exact Hin.
Qed.

(** C3, amended: the validator's list is included in the file plan of
    generation.  Whenever [create_project] succeeds, every path that
    [_expected_files] lists is in the file list of the result. *)
Theorem expected_files_are_generated (c : ProjectConfig.t) (now : string)
        (fs fs' : FileSystem) (d : dict) :
  identifier_token (ProjectConfig.name c) = true ->
  server.create_project c now fs = (Return d, fs') ->
  status_of d = Some (JStr "success") ->
  forall f, In f (ProjectGenerator._expected_files (ProjectGenerator.__init__ c)) ->
            In (JStr f) (file_list d).
Proof.
  intros Hname Hrun Hstatus f Hf.
  destruct (create_project_success c now fs d fs' (identifier_name_fits c Hname)
              Hrun Hstatus) as (-> & _).
  apply In_JStr. now apply (expected_files_generated (ProjectGenerator.__init__ c)).
Qed.

Lemma expected_files_are_generated_witness :
  In (JStr "app/routers/pages.py") (file_list scenario_a_summary).
Proof.
  apply (expected_files_are_generated acme "t0" empty_fs scenario_a_fs).
  - reflexivity.
  - exact scenario_a_run.
  - reflexivity.
  - vm_compute. tauto.
Defined.

(** C7: a successful generation of a personal project with HTMX, into a new
    directory, puts the project root at [output_dir/name]; its file list has
    [render.yaml], [app/templates/base.html] and [app/routers/pages.py], which
    are there under the root, and no path with a [.github] directory. *)
Theorem personal_htmx_layout (c : ProjectConfig.t) (now : string)
        (fs fs' : FileSystem) (d : dict) :
  ProjectConfig.project_type c = personal ->
  ProjectConfig.frontend_type c = htmx ->
  ProjectConfig.use_current_dir c = false ->
  server.create_project c now fs = (Return d, fs') ->
  status_of d = Some (JStr "success") ->
  let root := Path.of_string (ProjectConfig.output_dir c) // ProjectConfig.name c in
  dict_get "project_root" d = Some (JStr (Path.to_string root)) /\
  is_dir fs' root = true /\
  (forall f,
      In f ["render.yaml"; "app/templates/base.html"; "app/routers/pages.py"] ->
      In (JStr f) (file_list d) /\ Path_exists fs' (root // f) = true) /\
  (forall f, In (JStr f) (file_list d) -> ~ In ".github" (split_slash f)).
Proof.
  intros Hpt Hft Hucd Hrun Hstatus root.
  destruct (create_project_success c now fs d fs' (htmx_name_fits c Hft) Hrun Hstatus)
    as (Hlist & Hroot & _ & Hthere & Hdir).
  assert (Hr : ProjectGenerator.project_root (ProjectGenerator.__init__ c) = root).
  { unfold ProjectGenerator.__init__. now rewrite Hucd. }
  rewrite Hr in *. rewrite (htmx_parts_are_tokens c Hft) in Hlist, Hthere.
  unfold tokens_of in *. rewrite Hpt, Hft in *.
  split; [exact Hroot |]. split; [exact Hdir |]. split.
  - intros f Hf. rewrite Hlist, In_JStr. rewrite List.Forall_forall in Hthere.
    cbn [In] in Hf.
    destruct (ProjectConfig.include_alembic c), (ProjectConfig.include_sse c),
      (ProjectConfig.include_auth c);
      destruct Hf as [<- | [<- | [<- | []]]];
      (split;
       [ apply list_elem_of_In; refine (bool_decide_eq_true_1 _ _);
         vm_compute; reflexivity
       | rewrite div_root by reflexivity; apply Hthere;
         apply list_elem_of_In; refine (bool_decide_eq_true_1 _ _);
         vm_compute; reflexivity ]).
  - intros f Hf. rewrite Hlist, In_JStr in Hf. rewrite <- list_elem_of_In.
    revert f Hf. apply List.Forall_forall.
    destruct (ProjectConfig.include_alembic c), (ProjectConfig.include_sse c),
      (ProjectConfig.include_auth c);
      refine (bool_decide_eq_true_1 _ _); vm_compute; reflexivity.
Qed.

Lemma personal_htmx_layout_witness :
  dict_get "project_root" scenario_a_summary = Some (JStr "/tmp/w/acme") /\
  is_dir scenario_a_fs (Path.of_string "/tmp/w" // "acme") = true /\
  (forall f,
      In f ["render.yaml"; "app/templates/base.html"; "app/routers/pages.py"] ->
      In (JStr f) (file_list scenario_a_summary) /\
      Path_exists scenario_a_fs (Path.of_string "/tmp/w" // "acme" // f) = true) /\
  (forall f, In (JStr f) (file_list scenario_a_summary) ->
             ~ In ".github" (split_slash f)).
Proof.
  apply (personal_htmx_layout acme "t0" empty_fs scenario_a_fs scenario_a_summary);
    first [exact scenario_a_run | reflexivity].
Defined.

(** C8, as the specification states it, does not hold: in a project of two
    repositories generation also creates files directly in the workspace
    root, under neither sub-root. *)
Lemma two_sub_roots_counterexample : ~ two_sub_roots_hold_everything.
Proof.
  intros H.
  destruct (fst (server.create_project acme_react "t0" empty_fs)) as [d|e] eqn:E;
    [| vm_compute in E; discriminate E].
  pose proof (H acme_react "t0" empty_fs d E) as Hunder.
  vm_compute in E. injection E as <-.
  destruct (Hunder eq_refl eq_refl "README.md") as [Hu | Hu].
  - vm_compute. tauto.
  - vm_compute in Hu. discriminate Hu.
  - vm_compute in Hu. discriminate Hu.
Qed.

(** C8, amended: [is_multi_repo] holds exactly for a React frontend.  A
    project of two repositories has its API root at [{name}-api] and its
    frontend root at [{name}-frontend] under the project root, and a
    successful generation records files in both; every file it records lies
    inside one of the two, or directly in the workspace root.  A project of
    one repository has its API root at the project root. *)
Theorem repository_topology (c : ProjectConfig.t) (now : string)
        (fs fs' : FileSystem) (d : dict) :
  identifier_token (ProjectConfig.name c) = true ->
  server.create_project c now fs = (Return d, fs') ->
  status_of d = Some (JStr "success") ->
  let self := ProjectGenerator.__init__ c in
  let root := ProjectGenerator.project_root self in
  let api := ProjectConfig.name c +:+ "-api" in
  let frontend := ProjectConfig.name c +:+ "-frontend" in
  (ProjectConfig.is_multi_repo c = true <-> ProjectConfig.frontend_type c = react) /\
  (ProjectConfig.is_multi_repo c = true ->
   ProjectGenerator._api_root self = Path.extend root [api] /\
   ProjectGenerator._frontend_root self = Path.extend root [frontend] /\
   file_list d = map JStr (map join_slash (generated_parts c)) /\
   Forall (in_workspace_or_sub_root c) (generated_parts c) /\
   In [api; ".gitignore"] (generated_parts c) /\
   In [frontend; ".gitignore"] (generated_parts c)) /\
  (ProjectConfig.is_multi_repo c = false ->
   ProjectGenerator._api_root self = root).
Proof.
  intros Hname Hrun Hstatus self root api frontend.
  pose proof (identifier_name_fits c Hname) as Hfits.
  pose proof (identifier_token_no_slash _ Hname) as Hns.
  destruct (create_project_success c now fs d fs' Hfits Hrun Hstatus) as (Hlist & _).
  split; [| split].
  - unfold ProjectConfig.is_multi_repo.
    destruct (ProjectConfig.frontend_type c); split; congruence.
  - intros Hmulti.
    assert (Hreact : ProjectConfig.frontend_type c = react).
    { unfold ProjectConfig.is_multi_repo in Hmulti.
      now destruct (ProjectConfig.frontend_type c). }
    split; [| split; [| split; [exact Hlist | split; [| split]]]].
    + subst self root. unfold ProjectGenerator._api_root, ProjectGenerator.__init__.
      cbn [ProjectGenerator.config ProjectGenerator.project_root]. rewrite Hmulti.
      apply div_suffixed; [exact Hns | reflexivity | cbn; lia].
    + subst self root. unfold ProjectGenerator._frontend_root, ProjectGenerator.__init__.
      cbn [ProjectGenerator.config ProjectGenerator.project_root].
      apply div_suffixed; [exact Hns | reflexivity | cbn; lia].
    + rewrite generated_parts_tokens. apply Forall_map.
      eapply List.Forall_impl; [| apply (react_tokens_in_place c Hreact)].
      intros t Ht. now apply token_place.
    + rewrite generated_parts_tokens. apply in_map_iff.
      exists (InApi, [".gitignore"]). split.
      * unfold place, api_parts. now rewrite Hmulti.
      * unfold tokens_of. rewrite Hreact. cbn. tauto.
    + rewrite generated_parts_tokens. apply in_map_iff.
      exists (InFrontend, [".gitignore"]). split.
      * reflexivity.
      * unfold tokens_of. rewrite Hreact. cbn. tauto.
  - intros Hsingle. subst self root.
    unfold ProjectGenerator._api_root, ProjectGenerator.__init__.
    cbn [ProjectGenerator.config ProjectGenerator.project_root]. now rewrite Hsingle.
Qed.

Lemma repository_topology_witness :
  In ["acme-api"; ".gitignore"] (generated_parts acme_react) /\
  In ["acme-frontend"; ".gitignore"] (generated_parts acme_react) /\
  Forall (in_workspace_or_sub_root acme_react) (generated_parts acme_react).
Proof.
  destruct (repository_topology acme_react "t0" empty_fs react_fs react_summary
              eq_refl react_run eq_refl)
    as (_ & Hmulti & _).
  destruct (Hmulti eq_refl) as (_ & _ & _ & Hall & Hapi & Hfrontend).
  auto.
Defined.

(** C2, as the specification states it, does not hold: with the empty
    string for a name, generation succeeds and writes the project into the
    output directory itself; validation rebuilds the root as the parent of
    that directory joined with the name, and misses all 39 expected
    files. *)
Lemma validate_after_generate_counterexample : ~ validate_misses_nothing.
Proof.
  intros H.
  destruct (H unnamed "t0" empty_fs unnamed_fs unnamed_summary unnamed_run eq_refl)
    as (project_dir & v & Hroot & Hv & Hcount).
  injection Hroot as <-.
  rewrite unnamed_validated in Hv. injection Hv as <-.
  discriminate Hcount.
Qed.

(** C2, amended: for a project whose name is one path part (not empty,
    without a slash, neither [.] nor [..]), after a successful generation,
    validating the project root that the result names, with the
    configuration rebuilt from the manifest, misses no file:
    [missing_count] is 0, whatever the kinds and the flags are. *)
Theorem validate_after_generate (c : ProjectConfig.t) (now : string)
        (fs fs' : FileSystem) (d : dict) :
  identifier_token (ProjectConfig.name c) = true ->
  server.create_project c now fs = (Return d, fs') ->
  status_of d = Some (JStr "success") ->
  exists project_dir v,
    dict_get "project_root" d = Some (JStr project_dir) /\
    server.validate_project project_dir fs' = (Return v, fs') /\
    dict_get "missing_count" v = Some (JInt 0) /\
    dict_get "missing_files" v = Some (JList []) /\
    status_of v = Some (JStr "valid").
Proof.
  intros Hname Hrun Hstatus.
  set (self := ProjectGenerator.__init__ c).
  set (root := ProjectGenerator.project_root self).
  destruct (create_project_success c now fs d fs' (identifier_name_fits c Hname)
              Hrun Hstatus) as (_ & Hroot & _).
  destruct (project_root_reloaded c Hname) as [Hclean Hsame].
  fold self root in Hroot, Hclean, Hsame.
  pose proof (create_project_manifest c now fs d fs' Hrun Hstatus) as Hmanifest.
  fold self root in Hmanifest.
  rewrite <- (of_string_to_string root Hclean) in Hmanifest.
  apply from_existing_generated in Hmanifest.
  change (ProjectGenerator.config self) with c in Hmanifest.
  pose proof (expected_files_present c now fs d fs' Hname Hrun Hstatus) as Hpresent.
  fold self root in Hpresent.
  exists (Path.to_string root),
         (valid_result (ProjectGenerator.__init__ (reloaded c (Path.to_string root)))).
  split; [exact Hroot |]. split; [| repeat split].
  assert (Hall :
    Forall (fun f =>
              Path_exists (ProjectGenerator.fs (ProjectGenerator.mkState [] fs'))
                (ProjectGenerator.project_root
                   (ProjectGenerator.__init__ (reloaded c (Path.to_string root))) // f)
              = true)
           (ProjectGenerator._expected_files
              (ProjectGenerator.__init__ (reloaded c (Path.to_string root))))).
  { rewrite Hsame, expected_files_reloaded. exact Hpresent. }
  unfold server.validate_project.
  rewrite (bind_Return _ _ _ _ _ Hmanifest).
  unfold server.with_generator.
  now rewrite (validate_all_present _ _ Hall).
Qed.

Lemma validate_after_generate_witness :
  exists project_dir v,
    dict_get "project_root" scenario_a_summary = Some (JStr project_dir) /\
    server.validate_project project_dir scenario_a_fs = (Return v, scenario_a_fs) /\
    dict_get "missing_count" v = Some (JInt 0) /\
    dict_get "missing_files" v = Some (JList []) /\
    status_of v = Some (JStr "valid").
Proof.
  apply (validate_after_generate acme "t0" empty_fs scenario_a_fs scenario_a_summary).
  - reflexivity.
  - exact scenario_a_run.
  - reflexivity.
Defined.

(** C5: a [db_model] component added twice to the same project.  The first
    call succeeds and appends one entry, the object with [type] [db_model]
    and [name] the name in lower case, to the components of the manifest;
    the second call returns the error result that the model already exists
    and leaves every file, the manifest with it, as the first call left
    it. *)
Theorem add_model_twice (request : ComponentConfig.t) (files : FileSystem)
        (g : ProjectGenerator.t) (l : list json) :
  ComponentConfig.component request = db_model ->
  fst (ProjectGenerator.from_existing (ComponentConfig.project_dir request) files)
  = Return g ->
  ProjectGenerator.project_root g
  = Path.of_string (ComponentConfig.project_dir request) ->
  no_slash (ProjectConfig.name (ProjectGenerator.config g)) = true ->
  no_slash (ComponentConfig.name request) = true ->
  ascii_only (ComponentConfig.name request) = true ->
  dirs_ready g files = true ->
  Path_exists files (component_path g "models" (ComponentConfig.name request)) = false ->
  manifest_components files (ProjectGenerator.project_root g) = Some l ->
  exists first files' second,
    server.add_component request files = (Return first, files') /\
    status_of first = Some (JStr "success") /\
    manifest_components files' (ProjectGenerator.project_root g)
    = Some (l ++ [JDict [("type", JStr "db_model");
                         ("name", JStr (lower (ComponentConfig.name request)))]]) /\
    server.add_component request files' = (Return second, files') /\
    status_of second = Some (JStr "error") /\
    dict_get "message" second
    = Some (JStr ("Model already exists: "
                  +:+ Path.to_string
                        (component_path g "models" (ComponentConfig.name request)))).
Proof.
  intros Hkind Hload Hroot Hname Hrequest _ Hready Hfree Hl.
  unfold manifest_components in Hl.
  destruct (manifest_of files (ProjectGenerator.project_root g)) as [meta|] eqn:Hm;
    [| discriminate Hl].
  destruct (call_add_model request files g Hname Hrequest meta l Hready Hfree Hm Hl)
    as (first & Hfirst & Hstatus).
  set (st1 := model_added g request meta l (ProjectGenerator.mkState [] files)) in *.
  exists first, (ProjectGenerator.fs st1).
  exists (ProjectGenerator.error_result
            ("Model already exists: "
             +:+ Path.to_string
                   (component_path g "models" (ComponentConfig.name request)))).
  split; [| split; [exact Hstatus | split; [| split; [| split; reflexivity]]]].
  - rewrite (add_component_run request files g Hload).
    unfold ProjectGenerator_add_component, server.with_generator.
    now rewrite Hkind, Hfirst.
  - apply (after_model_manifest request files g meta l).
  - rewrite (add_component_again request files g Hload Hroot
               (ProjectGenerator.fs st1) meta _ Hm
               (model_added_manifest g request meta l _)).
    unfold ProjectGenerator_add_component, server.with_generator.
    rewrite Hkind, add_model_existing; [reflexivity |].
    change (Path_exists (ProjectGenerator.fs st1)
              (component_path g "models" (ComponentConfig.name request)) = true).
    unfold Path_exists. subst st1.
    now rewrite (after_model_model request files g Hname Hrequest meta l).
Qed.

Lemma add_model_twice_witness :
  exists first files' second,
    server.add_component widget_model scenario_a_fs = (Return first, files') /\
    status_of first = Some (JStr "success") /\
    manifest_components files' (Path.of_string "/tmp/w/acme")
    = Some [JDict [("type", JStr "db_model"); ("name", JStr "widget")]] /\
    server.add_component widget_model files' = (Return second, files') /\
    status_of second = Some (JStr "error") /\
    dict_get "message" second
    = Some (JStr "Model already exists: /tmp/w/acme/app/models/widget.py").
Proof.
  apply (add_model_twice widget_model scenario_a_fs acme_generator []);
    vm_compute; reflexivity.
Defined.

(** C6: an [api_router] component with fields, added to a project that has
    neither the model, nor the schema, nor the router of that name.  The
    call succeeds; the model, the schema and the router are written under
    [app/models], [app/schemas] and [app/routers] of the API root, in files
    named by the name in lower case; and the components of the manifest gain
    two entries, the object with [type] [db_model] and then the object with
    [type] [api_router], each with [name] the name in lower case. *)
Theorem add_router_with_fields (request : ComponentConfig.t) (files : FileSystem)
        (g : ProjectGenerator.t) (l : list json)
        (field : string * string) (more : list (string * string)) :
  ComponentConfig.component request = api_router ->
  ComponentConfig.fields request = Some (field :: more) ->
  fst (ProjectGenerator.from_existing (ComponentConfig.project_dir request) files)
  = Return g ->
  ProjectGenerator.project_root g
  = Path.of_string (ComponentConfig.project_dir request) ->
  no_slash (ProjectConfig.name (ProjectGenerator.config g)) = true ->
  no_slash (ComponentConfig.name request) = true ->
  ascii_only (ComponentConfig.name request) = true ->
  dirs_ready g files = true ->
  Path_exists files (component_path g "models" (ComponentConfig.name request)) = false ->
  Path_exists files (component_path g "schemas" (ComponentConfig.name request)) = false ->
  Path_exists files (component_path g "routers" (ComponentConfig.name request)) = false ->
  manifest_components files (ProjectGenerator.project_root g) = Some l ->
  let name := lower (ComponentConfig.name request) in
  exists result files',
    server.add_component request files = (Return result, files') /\
    status_of result = Some (JStr "success") /\
    stat files' (component_path g "models" (ComponentConfig.name request))
    = Some (File (ModelCode name (field :: more))) /\
    stat files' (component_path g "schemas" (ComponentConfig.name request))
    = Some (File (SchemaCode name (field :: more))) /\
    stat files' (component_path g "routers" (ComponentConfig.name request))
    = Some (File (RouterCode name (field :: more)
                    (ProjectConfig.include_auth (ProjectGenerator.config g)))) /\
    manifest_components files' (ProjectGenerator.project_root g)
    = Some (l ++ [JDict [("type", JStr "db_model"); ("name", JStr name)];
                  JDict [("type", JStr "api_router"); ("name", JStr name)]]).
Proof.
  intros Hkind Hfields Hload Hroot Hname Hrequest _ Hready Hmodel Hschema Hrouter Hl name.
  unfold manifest_components in Hl.
  destruct (manifest_of files (ProjectGenerator.project_root g)) as [meta|] eqn:Hm;
    [| discriminate Hl].
  assert (Hf : api.fields_or_empty request = field :: more)
    by (unfold api.fields_or_empty; now rewrite Hfields).
  assert (Hsome : api.fields_or_empty request <> []) by now rewrite Hf.
  destruct (call_router_fresh request files g Hname Hrequest meta l Hready Hmodel Hm Hl
              Hsome Hrouter) as (result & Hrun & Hstatus).
  pose proof (after_model_model request files g Hname Hrequest meta l) as Hm1.
  pose proof (after_model_schema request files g Hname Hrequest meta l Hschema) as Hs1.
  rewrite (component_path_parts request g Hname Hrequest) in Hm1, Hs1 by reflexivity.
  subst name.
  rewrite !(component_path_parts request g Hname Hrequest) by reflexivity.
  rewrite <- Hf.
  eexists result, _.
  split; [| split; [exact Hstatus | split; [| split; [| split; [| ]]]]].
  - rewrite (add_component_run request files g Hload).
    unfold ProjectGenerator_add_component, server.with_generator.
    rewrite Hkind, Hrun. reflexivity.
  - rewrite router_added_stat; [exact Hm1 | |].
    + apply component_parts_kind. discriminate.
    + apply component_parts_not_manifest.
  - rewrite router_added_stat; [exact Hs1 | |].
    + apply component_parts_kind. discriminate.
    + apply component_parts_not_manifest.
  - apply router_added_router.
  - unfold manifest_components.
    rewrite router_added_manifest, components_of_set.
    now rewrite <- app_assoc.
Qed.

Lemma add_router_with_fields_witness :
  exists result files',
    server.add_component widget_router scenario_a_fs = (Return result, files') /\
    status_of result = Some (JStr "success") /\
    stat files' (Path.of_string "/tmp/w/acme" // "app" // "models" // "widget.py")
    = Some (File (ModelCode "widget" [("title", "string"); ("price", "float")])) /\
    stat files' (Path.of_string "/tmp/w/acme" // "app" // "schemas" // "widget.py")
    = Some (File (SchemaCode "widget" [("title", "string"); ("price", "float")])) /\
    stat files' (Path.of_string "/tmp/w/acme" // "app" // "routers" // "widget.py")
    = Some (File (RouterCode "widget" [("title", "string"); ("price", "float")] true)) /\
    manifest_components files' (Path.of_string "/tmp/w/acme")
    = Some [JDict [("type", JStr "db_model"); ("name", JStr "widget")];
            JDict [("type", JStr "api_router"); ("name", JStr "widget")]].
Proof.
  apply (add_router_with_fields widget_router scenario_a_fs acme_generator []
           ("title", "string") [("price", "float")]);
    vm_compute; reflexivity.
Defined.

(** C10: an [api_router] component with fields, where the router is there
    and the model is not.  The call returns the error result that the router
    already exists; the model, the schema if there was none, and the entry
    of the manifest, the object with [type] [db_model] and [name] the name
    in lower case, have been written all the same and are there after the
    call. *)
Theorem add_router_not_atomic (request : ComponentConfig.t) (files : FileSystem)
        (g : ProjectGenerator.t) (l : list json)
        (field : string * string) (more : list (string * string)) :
  ComponentConfig.component request = api_router ->
  ComponentConfig.fields request = Some (field :: more) ->
  fst (ProjectGenerator.from_existing (ComponentConfig.project_dir request) files)
  = Return g ->
  ProjectGenerator.project_root g
  = Path.of_string (ComponentConfig.project_dir request) ->
  no_slash (ProjectConfig.name (ProjectGenerator.config g)) = true ->
  no_slash (ComponentConfig.name request) = true ->
  ascii_only (ComponentConfig.name request) = true ->
  dirs_ready g files = true ->
  Path_exists files (component_path g "routers" (ComponentConfig.name request)) = true ->
  Path_exists files (component_path g "models" (ComponentConfig.name request)) = false ->
  manifest_components files (ProjectGenerator.project_root g) = Some l ->
  let name := lower (ComponentConfig.name request) in
  exists result files',
    server.add_component request files = (Return result, files') /\
    status_of result = Some (JStr "error") /\
    dict_get "message" result
    = Some (JStr ("Router already exists: "
                  +:+ Path.to_string
                        (component_path g "routers" (ComponentConfig.name request)))) /\
    stat files (component_path g "models" (ComponentConfig.name request)) = None /\
    stat files' (component_path g "models" (ComponentConfig.name request))
    = Some (File (ModelCode name (field :: more))) /\
    (Path_exists files (component_path g "schemas" (ComponentConfig.name request)) = false ->
     stat files' (component_path g "schemas" (ComponentConfig.name request))
     = Some (File (SchemaCode name (field :: more)))) /\
    manifest_components files' (ProjectGenerator.project_root g)
    = Some (l ++ [JDict [("type", JStr "db_model"); ("name", JStr name)]]).
Proof.
  intros Hkind Hfields Hload Hroot Hname Hrequest _ Hready Hrouter Hmodel Hl name.
  unfold manifest_components in Hl.
  destruct (manifest_of files (ProjectGenerator.project_root g)) as [meta|] eqn:Hm;
    [| discriminate Hl].
  assert (Hf : api.fields_or_empty request = field :: more)
    by (unfold api.fields_or_empty; now rewrite Hfields).
  assert (Hsome : api.fields_or_empty request <> []) by now rewrite Hf.
  pose proof (call_add_router request files g Hname Hrequest meta l Hready Hmodel Hm Hl
                Hsome) as Hrun.
  rewrite router_step_existing in Hrun
    by now rewrite (after_model_router request files g Hname Hrequest meta l).
  subst name. rewrite <- Hf.
  exists (ProjectGenerator.error_result
            ("Router already exists: "
             +:+ Path.to_string
                   (component_path g "routers" (ComponentConfig.name request)))),
         (ProjectGenerator.fs
            (model_added g request meta l (ProjectGenerator.mkState [] files))).
  split; [| split; [reflexivity | split; [reflexivity | split; [| split; [| split]]]]].
  - rewrite (add_component_run request files g Hload).
    unfold ProjectGenerator_add_component, server.with_generator.
    rewrite Hkind, Hrun. reflexivity.
  - unfold Path_exists in Hmodel. now destruct (stat files _).
  - apply (after_model_model request files g Hname Hrequest meta l).
  - apply (after_model_schema request files g Hname Hrequest meta l).
  - apply (after_model_manifest request files g meta l).
Qed.

Lemma add_router_not_atomic_witness :
  exists result files',
    server.add_component widget_router router_only_fs = (Return result, files') /\
    status_of result = Some (JStr "error") /\
    dict_get "message" result
    = Some (JStr "Router already exists: /tmp/w/acme/app/routers/widget.py") /\
    stat router_only_fs (component_path acme_generator "models" "Widget") = None /\
    stat files' (component_path acme_generator "models" "Widget")
    = Some (File (ModelCode "widget" [("title", "string"); ("price", "float")])) /\
    (Path_exists router_only_fs (component_path acme_generator "schemas" "Widget") = false ->
     stat files' (component_path acme_generator "schemas" "Widget")
     = Some (File (SchemaCode "widget" [("title", "string"); ("price", "float")]))) /\
    manifest_components files' (Path.of_string "/tmp/w/acme")
    = Some [JDict [("type", JStr "api_router"); ("name", JStr "widget")];
            JDict [("type", JStr "db_model"); ("name", JStr "widget")]].
Proof.
  apply (add_router_not_atomic widget_router router_only_fs acme_generator
           [JDict [("type", JStr "api_router"); ("name", JStr "widget")]]
           ("title", "string") [("price", "float")]);
    vm_compute; reflexivity.
Defined.

(* ================================================================== *)
(** * Further properties of the code *)
(* ================================================================== *)

(** X1: A component of a kind other than [api_router] and [db_model], asked of
    a project whose manifest loads: the call returns the error result that
    the kind is not yet implemented, and writes nothing. *)
Theorem unimplemented_component (request : ComponentConfig.t) (files : FileSystem)
        (g : ProjectGenerator.t) :
  fst (ProjectGenerator.from_existing (ComponentConfig.project_dir request) files)
  = Return g ->
  In (ComponentConfig.component request) [frontend_page; github_action; docker_service] ->
  server.add_component request files
  = (Return (ProjectGenerator.error_result
               ("Component type '"
                +:+ ComponentKind_str (ComponentConfig.component request)
                +:+ "' not yet implemented")),
     files).
Proof.
  intros Hload Hkind.
  rewrite (add_component_run request files g Hload).
  unfold ProjectGenerator_add_component, server.with_generator.
  destruct (ComponentConfig.component request); cbn [In] in Hkind;
    first [reflexivity | exfalso; intuition discriminate].
Qed.

Lemma unimplemented_component_witness :
  server.add_component about_page scenario_a_fs
  = (Return (ProjectGenerator.error_result
               "Component type 'frontend_page' not yet implemented"),
     scenario_a_fs).
Proof.
  apply (unimplemented_component about_page scenario_a_fs acme_generator).
  - vm_compute. reflexivity.
  - vm_compute. tauto.
Defined.





(** X4: Without fields [add_router] writes the router and, unless there is
    one, a schema without fields; it writes no model, and the components of
    the manifest gain one entry only, the object with [type] [api_router]
    and [name] the name in lower case. *)
Theorem add_router_without_fields (request : ComponentConfig.t) (files : FileSystem)
        (g : ProjectGenerator.t) (l : list json) :
  ComponentConfig.component request = api_router ->
  api.fields_or_empty request = [] ->
  fst (ProjectGenerator.from_existing (ComponentConfig.project_dir request) files)
  = Return g ->
  no_slash (ProjectConfig.name (ProjectGenerator.config g)) = true ->
  no_slash (ComponentConfig.name request) = true ->
  ascii_only (ComponentConfig.name request) = true ->
  dirs_ready g files = true ->
  Path_exists files (component_path g "routers" (ComponentConfig.name request)) = false ->
  manifest_components files (ProjectGenerator.project_root g) = Some l ->
  exists result files',
    server.add_component request files = (Return result, files') /\
    status_of result = Some (JStr "success") /\
    stat files' (component_path g "routers" (ComponentConfig.name request))
    = Some (File (RouterCode (lower (ComponentConfig.name request)) []
                    (ProjectConfig.include_auth (ProjectGenerator.config g)))) /\
    stat files' (component_path g "schemas" (ComponentConfig.name request))
    = (if Path_exists files (component_path g "schemas" (ComponentConfig.name request))
       then stat files (component_path g "schemas" (ComponentConfig.name request))
       else Some (File (SchemaCode (lower (ComponentConfig.name request)) []))) /\
    stat files' (component_path g "models" (ComponentConfig.name request))
    = stat files (component_path g "models" (ComponentConfig.name request)) /\
    manifest_components files' (ProjectGenerator.project_root g)
    = Some (l ++ [JDict [("type", JStr "api_router");
                         ("name", JStr (lower (ComponentConfig.name request)))]]).
Proof.
  intros Hkind Hfields Hload Hname Hrequest _ Hready Hfree Hl.
  unfold manifest_components in Hl.
  destruct (manifest_of files (ProjectGenerator.project_root g)) as [meta|] eqn:Hm;
    [| discriminate Hl].
  assert (Hfits : name_fits (ProjectGenerator.config g)) by (intros _; exact Hname).
  destruct (router_step_alone g request Hfits Hrequest meta l
              (ProjectGenerator.mkState [] files) Hfields Hready Hfree Hm Hl)
    as (result & Hrun & Hstatus & _).
  rewrite !(component_path_parts request g Hname Hrequest) by reflexivity.
  exists result,
    (ProjectGenerator.fs
       (router_alone_added g request meta l (ProjectGenerator.mkState [] files))).
  split; [| split; [exact Hstatus | split; [| split; [| split]]]].
  - rewrite (add_component_run request files g Hload).
    unfold ProjectGenerator_add_component, server.with_generator.
    now rewrite Hkind, add_router_steps, Hfields, Hrun.
  - apply router_alone_router.
  - apply (router_alone_schema g request meta l (ProjectGenerator.mkState [] files)).
  - apply (router_alone_stat g request meta l (ProjectGenerator.mkState [] files)).
    + apply component_parts_kind. discriminate.
    + apply component_parts_kind. discriminate.
    + apply component_parts_not_manifest.
  - unfold manifest_components.
    now rewrite router_alone_manifest, components_of_set.
Qed.

Lemma add_router_without_fields_witness :
  exists result files',
    server.add_component gadget_router scenario_a_fs = (Return result, files') /\
    status_of result = Some (JStr "success") /\
    stat files' (component_path acme_generator "routers" "Gadget")
    = Some (File (RouterCode "gadget" [] true)) /\
    stat files' (component_path acme_generator "schemas" "Gadget")
    = (if Path_exists scenario_a_fs (component_path acme_generator "schemas" "Gadget")
       then stat scenario_a_fs (component_path acme_generator "schemas" "Gadget")
       else Some (File (SchemaCode "gadget" []))) /\
    stat files' (component_path acme_generator "models" "Gadget")
    = stat scenario_a_fs (component_path acme_generator "models" "Gadget") /\
    manifest_components files' (Path.of_string "/tmp/w/acme")
    = Some [JDict [("type", JStr "api_router"); ("name", JStr "gadget")]].
Proof.
  apply (add_router_without_fields gadget_router scenario_a_fs acme_generator []);
    vm_compute; reflexivity.
Defined.

(** X5: The name of a component is taken in lower case.  For names of ASCII
    characters: after a model has been added, a request for a model whose
    name differs in the case of its letters only is refused, and leaves
    every file as it was. *)
Theorem add_model_ignores_case (request again : ComponentConfig.t)
        (files : FileSystem) (g : ProjectGenerator.t) (l : list json) :
  ComponentConfig.component request = db_model ->
  ComponentConfig.component again = db_model ->
  ComponentConfig.project_dir again = ComponentConfig.project_dir request ->
  ascii_only (ComponentConfig.name request) = true ->
  ascii_only (ComponentConfig.name again) = true ->
  lower (ComponentConfig.name again) = lower (ComponentConfig.name request) ->
  fst (ProjectGenerator.from_existing (ComponentConfig.project_dir request) files)
  = Return g ->
  ProjectGenerator.project_root g
  = Path.of_string (ComponentConfig.project_dir request) ->
  no_slash (ProjectConfig.name (ProjectGenerator.config g)) = true ->
  no_slash (ComponentConfig.name request) = true ->
  dirs_ready g files = true ->
  Path_exists files (component_path g "models" (ComponentConfig.name request)) = false ->
  manifest_components files (ProjectGenerator.project_root g) = Some l ->
  exists first files',
    server.add_component request files = (Return first, files') /\
    status_of first = Some (JStr "success") /\
    server.add_component again files'
    = (Return (ProjectGenerator.error_result
                 ("Model already exists: "
                  +:+ Path.to_string
                        (component_path g "models" (ComponentConfig.name request)))),
       files').
Proof.
  intros Hkind Hkind' Hdir _ _ Hlower Hload Hroot Hname Hrequest Hready Hfree Hl.
  unfold manifest_components in Hl.
  destruct (manifest_of files (ProjectGenerator.project_root g)) as [meta|] eqn:Hm;
    [| discriminate Hl].
  destruct (call_add_model request files g Hname Hrequest meta l Hready Hfree Hm Hl)
    as (first & Hfirst & Hstatus).
  exists first,
    (ProjectGenerator.fs
       (model_added g request meta l (ProjectGenerator.mkState [] files))).
  split; [| split; [exact Hstatus |]].
  - rewrite (add_component_run request files g Hload).
    unfold ProjectGenerator_add_component, server.with_generator.
    now rewrite Hkind, Hfirst.
  - assert (Hsame : component_path g "models" (ComponentConfig.name again)
                    = component_path g "models" (ComponentConfig.name request))
      by (unfold component_path; now rewrite Hlower).
    rewrite <- Hdir in Hload, Hroot.
    rewrite (add_component_again again files g Hload Hroot _ meta _ Hm
               (model_added_manifest g request meta l _)).
    unfold ProjectGenerator_add_component, server.with_generator.
    rewrite Hkind', add_model_existing; rewrite Hsame; [reflexivity |].
    unfold Path_exists. cbn [ProjectGenerator.fs].
    now rewrite (after_model_model request files g Hname Hrequest meta l).
Qed.

Lemma add_model_ignores_case_witness :
  exists first files',
    server.add_component widget_model scenario_a_fs = (Return first, files') /\
    status_of first = Some (JStr "success") /\
    server.add_component widget_model_upper files'
    = (Return (ProjectGenerator.error_result
                 "Model already exists: /tmp/w/acme/app/models/widget.py"),
       files').
Proof.
  apply (add_model_ignores_case widget_model widget_model_upper scenario_a_fs
           acme_generator []);
    vm_compute; reflexivity.
Defined.

(** X6: [validate] always returns, and changes nothing; its status is [valid]
    exactly when every expected file is there under the project root, and
    [invalid] otherwise. *)
Theorem validate_decides (self : ProjectGenerator.t) (st : ProjectGenerator.state) :
  exists d,
    ProjectGenerator.validate self st = (Return d, st) /\
    (status_of d = Some (JStr "valid") <->
     Forall (fun f => Path_exists (ProjectGenerator.fs st)
                        (ProjectGenerator.project_root self // f) = true)
            (ProjectGenerator._expected_files self)) /\
    (status_of d <> Some (JStr "valid") -> status_of d = Some (JStr "invalid")).
Proof.
  unfold ProjectGenerator.validate. cbv zeta. eexists. split; [reflexivity |].
  unfold status_of. cbn [dict_get String.eqb Ascii.eqb Bool.eqb].
  destruct (List.filter _ _) as [|f missing] eqn:E.
  - split; [| congruence]. split; [intros _ | reflexivity].
    apply filter_nil_iff in E. eapply List.Forall_impl; [| exact E].
    cbn. intros f Hf. now destruct (Path_exists _ _).
  - split; [| reflexivity]. split; [discriminate |].
    intros Hall. exfalso.
    assert (Hin : In f (List.filter
                          (fun f => negb (Path_exists (ProjectGenerator.fs st)
                                            (ProjectGenerator.project_root self // f)))
                          (ProjectGenerator._expected_files self)))
      by (rewrite E; now left).
    apply filter_In in Hin as [Hin Hf].
    rewrite List.Forall_forall in Hall. now rewrite (Hall f Hin) in Hf.
Qed.

(** X7: The report of [validate]: the missing files are the expected files
    that are not there, in the order of the expected list; [missing_count]
    is their number, which is at most [total_expected], the number of
    expected files. *)
Theorem validate_reports_missing (self : ProjectGenerator.t)
        (st : ProjectGenerator.state) :
  exists d missing,
    ProjectGenerator.validate self st = (Return d, st) /\
    dict_get "missing_files" d = Some (JList (map JStr missing)) /\
    dict_get "missing_count" d = Some (JInt (Z.of_nat (length missing))) /\
    dict_get "total_expected" d
    = Some (JInt (Z.of_nat (length (ProjectGenerator._expected_files self)))) /\
    (length missing <= length (ProjectGenerator._expected_files self))%nat /\
    (forall f, In f missing <->
               In f (ProjectGenerator._expected_files self) /\
               Path_exists (ProjectGenerator.fs st)
                 (ProjectGenerator.project_root self // f) = false).
Proof.
  unfold ProjectGenerator.validate. cbv zeta. eexists. eexists.
  split; [reflexivity |]. split; [reflexivity |]. split; [reflexivity |].
  split; [reflexivity |]. split; [apply filter_length_le |].
  intros f. rewrite filter_In. now destruct (Path_exists _ _).
Qed.

(** X8: What [get_project_info] returns for a project that generation has
    just written, when the name of the project is one path part (not empty,
    without a slash, neither [.] nor [..]): the project root of the summary,
    the manifest as it was written, and the structure, of two repositories
    exactly for a React frontend. *)
Theorem info_after_generate (c : ProjectConfig.t) (now : string)
        (fs fs' : FileSystem) (d : dict) :
  identifier_token (ProjectConfig.name c) = true ->
  server.create_project c now fs = (Return d, fs') ->
  status_of d = Some (JStr "success") ->
  exists project_dir,
    dict_get "project_root" d = Some (JStr project_dir) /\
    server.get_project_info project_dir fs'
    = (Return [("project_root", JStr project_dir);
               ("config",
                JDict (ProjectGenerator.metadata (ProjectGenerator.__init__ c) now));
               ("structure",
                JStr (match ProjectConfig.frontend_type c with
                      | react => "multi-repo"
                      | htmx => "single-repo"
                      end))],
       fs').
Proof.
  intros Hname Hrun Hstatus.
  destruct (loaded_after_generate c now fs d fs' Hname Hrun Hstatus)
    as (Hroot & Hload & Hsame & Hmanifest).
  eexists. split; [exact Hroot |].
  unfold server.get_project_info.
  rewrite (bind_Return _ _ _ _ _ Hload).
  unfold server.with_generator, ProjectGenerator.info.
  rewrite Hsame.
  rewrite (bind_Return _ _ _ _ _
             (on_fs_run _ (ProjectGenerator.mkState [] fs') _ _
                (read_text_of_stat _ _ _ Hmanifest))).
  cbn [json_loads]. rewrite bind_ret.
  unfold ret, ProjectConfig.is_multi_repo, reloaded.
  cbn [ProjectGenerator.config ProjectGenerator.__init__ ProjectConfig.frontend_type
       ProjectGenerator.fs].
  now destruct (ProjectConfig.frontend_type c).
Qed.

Lemma info_after_generate_witness :
  exists project_dir,
    dict_get "project_root" scenario_a_summary = Some (JStr project_dir) /\
    server.get_project_info project_dir scenario_a_fs
    = (Return [("project_root", JStr project_dir);
               ("config",
                JDict (ProjectGenerator.metadata (ProjectGenerator.__init__ acme) "t0"));
               ("structure", JStr "single-repo")],
       scenario_a_fs).
Proof.
  apply (info_after_generate acme "t0" empty_fs scenario_a_fs scenario_a_summary).
  - reflexivity.
  - exact scenario_a_run.
  - reflexivity.
Defined.

(** X9: The manifest is a faithful record of a configuration whose name is
    one path part (not empty, without a slash, neither [.] nor [..]):
    loading the project that generation has just written gives a generator
    with the same project root and a configuration with the same name,
    kinds, description, flags, ports and database name. *)
Theorem from_existing_after_generate (c : ProjectConfig.t) (now : string)
        (fs fs' : FileSystem) (d : dict) :
  identifier_token (ProjectConfig.name c) = true ->
  server.create_project c now fs = (Return d, fs') ->
  status_of d = Some (JStr "success") ->
  exists project_dir g,
    dict_get "project_root" d = Some (JStr project_dir) /\
    ProjectGenerator.from_existing project_dir fs' = (Return g, fs') /\
    ProjectGenerator.project_root g
    = ProjectGenerator.project_root (ProjectGenerator.__init__ c) /\
    let c' := ProjectGenerator.config g in
    ProjectConfig.name c' = ProjectConfig.name c /\
    ProjectConfig.project_type c' = ProjectConfig.project_type c /\
    ProjectConfig.frontend_type c' = ProjectConfig.frontend_type c /\
    ProjectConfig.description c' = ProjectConfig.description c /\
    ProjectConfig.use_current_dir c' = ProjectConfig.use_current_dir c /\
    ProjectConfig.resolved_db_name c' = ProjectConfig.resolved_db_name c /\
    ProjectConfig.include_auth c' = ProjectConfig.include_auth c /\
    ProjectConfig.include_alembic c' = ProjectConfig.include_alembic c /\
    ProjectConfig.api_port c' = ProjectConfig.api_port c /\
    ProjectConfig.frontend_port c' = ProjectConfig.frontend_port c /\
    ProjectConfig.include_tdd c' = ProjectConfig.include_tdd c /\
    ProjectConfig.include_redis c' = ProjectConfig.include_redis c /\
    ProjectConfig.include_sse c' = ProjectConfig.include_sse c.
Proof.
  intros Hname Hrun Hstatus.
  destruct (loaded_after_generate c now fs d fs' Hname Hrun Hstatus)
    as (Hroot & Hload & Hsame & _).
  eexists _, _. split; [exact Hroot |]. split; [exact Hload |].
  split; [exact Hsame |]. cbv zeta.
  cbn [ProjectGenerator.config ProjectGenerator.__init__].
  rewrite resolved_db_name_reloaded. repeat split.
Qed.

Lemma from_existing_after_generate_witness :
  exists project_dir g,
    dict_get "project_root" scenario_a_summary = Some (JStr project_dir) /\
    ProjectGenerator.from_existing project_dir scenario_a_fs = (Return g, scenario_a_fs) /\
    ProjectGenerator.project_root g
    = ProjectGenerator.project_root (ProjectGenerator.__init__ acme) /\
    let c' := ProjectGenerator.config g in
    ProjectConfig.name c' = ProjectConfig.name acme /\
    ProjectConfig.project_type c' = ProjectConfig.project_type acme /\
    ProjectConfig.frontend_type c' = ProjectConfig.frontend_type acme /\
    ProjectConfig.description c' = ProjectConfig.description acme /\
    ProjectConfig.use_current_dir c' = ProjectConfig.use_current_dir acme /\
    ProjectConfig.resolved_db_name c' = ProjectConfig.resolved_db_name acme /\
    ProjectConfig.include_auth c' = ProjectConfig.include_auth acme /\
    ProjectConfig.include_alembic c' = ProjectConfig.include_alembic acme /\
    ProjectConfig.api_port c' = ProjectConfig.api_port acme /\
    ProjectConfig.frontend_port c' = ProjectConfig.frontend_port acme /\
    ProjectConfig.include_tdd c' = ProjectConfig.include_tdd acme /\
    ProjectConfig.include_redis c' = ProjectConfig.include_redis acme /\
    ProjectConfig.include_sse c' = ProjectConfig.include_sse acme.
Proof.
  apply (from_existing_after_generate acme "t0" empty_fs scenario_a_fs scenario_a_summary).
  - reflexivity.
  - exact scenario_a_run.
  - reflexivity.
Defined.

(** X10: A manifest that is a JSON object without [project_name]: loading it
    raises the [KeyError] of the missing key, in each of the three tools
    that load a project, and nothing is written. *)
Theorem manifest_without_name_raises (request : ComponentConfig.t)
        (fs : FileSystem) (meta : dict) :
  manifest_of fs (Path.of_string (ComponentConfig.project_dir request)) = Some meta ->
  dict_get "project_name" meta = None ->
  server.add_component request fs = (Raise (KeyError "project_name"), fs) /\
  server.validate_project (ComponentConfig.project_dir request) fs
  = (Raise (KeyError "project_name"), fs) /\
  server.get_project_info (ComponentConfig.project_dir request) fs
  = (Raise (KeyError "project_name"), fs).
Proof.
  intros Hm Hname.
  assert (Hload : ProjectGenerator.from_existing (ComponentConfig.project_dir request) fs
                  = (Raise (KeyError "project_name"), fs)).
  { unfold manifest_of in Hm.
    destruct (stat fs _) as [[|text]|] eqn:Hstat; try discriminate Hm.
    destruct text as [| | | | | |j]; try discriminate Hm.
    destruct j as [| | | | |meta0]; try discriminate Hm.
    injection Hm as ->.
    unfold ProjectGenerator.from_existing. cbv zeta.
    rewrite (bind_Return _ _ _ _ _ (path_exists_of_stat _ _ _ Hstat)). cbn [negb].
    rewrite (bind_Return _ _ _ _ _ (read_text_of_stat _ _ _ Hstat)).
    cbn [json_loads]. rewrite bind_ret.
    unfold ProjectGenerator.config_from_metadata, ProjectGenerator.get,
      ProjectGenerator.subscript. rewrite Hname. reflexivity. }
  unfold server.add_component, server.validate_project, server.get_project_info.
  now rewrite !(bind_Raise _ _ _ _ _ Hload).
Qed.

Lemma manifest_without_name_raises_witness :
  server.add_component (ComponentConfig.mk "/tmp/w" db_model "widget" None) nameless_fs
  = (Raise (KeyError "project_name"), nameless_fs) /\
  server.validate_project "/tmp/w" nameless_fs
  = (Raise (KeyError "project_name"), nameless_fs) /\
  server.get_project_info "/tmp/w" nameless_fs
  = (Raise (KeyError "project_name"), nameless_fs).
Proof.
  apply (manifest_without_name_raises
           (ComponentConfig.mk "/tmp/w" db_model "widget" None) nameless_fs
           [("project_type", JStr "work")]);
    vm_compute; reflexivity.
Defined.

(** X11: A manifest that holds JSON other than an object: [meta.get] raises
    [AttributeError], and nothing is written. *)
Theorem manifest_not_an_object_raises (project_dir : string) (fs : FileSystem)
        (j : json) :
  stat fs (Path.of_string project_dir // SCAFFOLD_METADATA_FILE)
  = Some (File (JsonText j)) ->
  is_JDict j = false ->
  ProjectGenerator.from_existing project_dir fs = (Raise AttributeError, fs).
Proof.
  intros Hstat Hj.
  unfold ProjectGenerator.from_existing. cbv zeta.
  rewrite (bind_Return _ _ _ _ _ (path_exists_of_stat _ _ _ Hstat)). cbn [negb].
  rewrite (bind_Return _ _ _ _ _ (read_text_of_stat _ _ _ Hstat)).
  cbn [json_loads]. rewrite bind_ret.
  destruct j; try discriminate Hj; reflexivity.
Qed.

Lemma manifest_not_an_object_raises_witness :
  ProjectGenerator.from_existing "/tmp/w" array_fs = (Raise AttributeError, array_fs).
Proof.
  apply (manifest_not_an_object_raises "/tmp/w" array_fs (JList []));
    vm_compute; reflexivity.
Defined.

(** X12: Generation is not repeated: after a generation that succeeded, the
    same configuration is refused at the check of the target directory, and
    nothing is written. *)
Theorem generate_twice_is_refused (c : ProjectConfig.t) (now again : string)
        (fs fs' : FileSystem) (d : dict) :
  no_slash (ProjectConfig.name c) = true ->
  server.create_project c now fs = (Return d, fs') ->
  status_of d = Some (JStr "success") ->
  let root := Path.to_string (ProjectGenerator.project_root (ProjectGenerator.__init__ c)) in
  server.create_project c again fs'
  = (Return (ProjectGenerator.error_result
               (if ProjectConfig.use_current_dir c
                then "Directory is not empty: " +:+ root
                     +:+ ". use_current_dir requires an empty directory."
                else "Directory already exists: " +:+ root)),
     fs').
Proof.
  intros Hname Hrun Hstatus root.
  destruct (create_project_success c now fs d fs' (fun _ => Hname) Hrun Hstatus)
    as (_ & _ & _ & Hthere & Hdir).
  unfold server.create_project, server.with_generator.
  rewrite (generate_failure (ProjectGenerator.__init__ c) again
             (ProjectGenerator.mkState [] fs')
             (if ProjectConfig.use_current_dir c
              then "Directory is not empty: " +:+ root
                   +:+ ". use_current_dir requires an empty directory."
              else "Directory already exists: " +:+ root)); [reflexivity |].
  cbn [ProjectGenerator.fs].
  destruct (ProjectConfig.use_current_dir c) eqn:Hu.
  - apply target_not_empty; [exact Hu | exact Hdir |].
    apply (children_of_entry _ _ "README.md").
    rewrite List.Forall_forall in Hthere.
    specialize (Hthere ["README.md"]).
    unfold Path_exists, stat in Hthere. rewrite locate_extend in Hthere.
    intros E. rewrite E in Hthere. discriminate Hthere.
    unfold generated_parts, common_parts. cbn. now left.
  - apply target_exists; [exact Hu | now apply is_dir_exists].
Qed.

Lemma generate_twice_is_refused_witness :
  server.create_project acme "t1" scenario_a_fs
  = (Return (ProjectGenerator.error_result "Directory already exists: /tmp/w/acme"),
     scenario_a_fs).
Proof.
  apply (generate_twice_is_refused acme "t0" "t1" empty_fs scenario_a_fs scenario_a_summary).
  - reflexivity.
  - exact scenario_a_run.
  - reflexivity.
Defined.

(** X13: Generation removes nothing: whenever [create_project] returns, with
    the summary or with an error result, every directory that was there is
    still a directory and every file that was there is still a file. *)
Theorem generate_removes_nothing (c : ProjectConfig.t) (now : string)
        (fs fs' : FileSystem) (d : dict) :
  no_slash (ProjectConfig.name c) = true ->
  server.create_project c now fs = (Return d, fs') ->
  forall p : Path.t,
    (is_dir fs p = true -> is_dir fs' p = true) /\
    (is_file fs p = true -> is_file fs' p = true).
Proof.
  intros Hname Hrun p.
  assert (Hg : fs_grows fs fs').
  { unfold server.create_project in Hrun.
    apply with_generator_Return in Hrun as (st' & Hrun & <-).
    apply generate_Return in Hrun
        as [(msg & _ & _ & ->) | (st1 & _ & Hg & _ & Hphases)].
    - apply fs_grows_refl.
    - apply (writes_generate_phases (ProjectGenerator.__init__ c) (fun _ => Hname))
        in Hphases as (_ & Hg' & _).
      eapply fs_grows_trans; eassumption. }
  split; [now apply is_dir_grows | now apply is_file_grows].
Qed.

Lemma generate_removes_nothing_witness :
  is_dir grown_fs (Path.of_string "/tmp/w") = true /\
  is_file grown_fs (Path.of_string "/tmp/w/notes.txt") = true.
Proof.
  split.
  - apply (generate_removes_nothing acme "t0" occupied_fs grown_fs grown_summary
             eq_refl grown_run (Path.of_string "/tmp/w")).
    vm_compute. reflexivity.
  - apply (generate_removes_nothing acme "t0" occupied_fs grown_fs grown_summary
             eq_refl grown_run (Path.of_string "/tmp/w/notes.txt")).
    vm_compute. reflexivity.
Defined.

(** X14: The package name has no hyphen and is as long as the project name;
    a name without hyphens is its own package name. *)
Theorem package_name_has_no_hyphen (c : ProjectConfig.t) :
  has_char "-" (ProjectConfig.python_package_name c) = false /\
  String.length (ProjectConfig.python_package_name c)
  = String.length (ProjectConfig.name c) /\
  (has_char "-" (ProjectConfig.name c) = false ->
   ProjectConfig.python_package_name c = ProjectConfig.name c).
Proof.
  unfold ProjectConfig.python_package_name.
  split; [apply hyphens_to_underscores_no_hyphen |].
  split; [apply hyphens_to_underscores_length | apply hyphens_to_underscores_fixed].
Qed.

(** X15: The name of the database: the one that was given, when it is not
    empty, and the package name when none was given or the one given is
    empty; with a project name that is not empty it is never empty. *)
Theorem resolved_db_name_is_given_or_derived (c : ProjectConfig.t) :
  (forall given, ProjectConfig.db_name c = Some given -> truthy given = true ->
                 ProjectConfig.resolved_db_name c = given) /\
  (ProjectConfig.db_name c = None \/ ProjectConfig.db_name c = Some EmptyString ->
   ProjectConfig.resolved_db_name c = ProjectConfig.python_package_name c) /\
  (truthy (ProjectConfig.name c) = true ->
   truthy (ProjectConfig.resolved_db_name c) = true).
Proof.
  unfold ProjectConfig.resolved_db_name, ProjectConfig.python_package_name.
  split; [| split].
  - intros given -> Hgiven. now rewrite Hgiven.
  - now intros [-> | ->].
  - intros Hname. destruct (ProjectConfig.db_name c) as [s|].
    + destruct (truthy s) eqn:Hs; [exact Hs |].
      now rewrite hyphens_to_underscores_truthy.
    + now rewrite hyphens_to_underscores_truthy.
Qed.

(** X16: A configuration that the constructor accepts was given its four
    required fields: the name and the output directory as strings, and the
    two kinds as one of their literals.  This holds whatever the conversions
    of the [bool] and [int] fields accept, and the state is left alone. *)
Theorem create_requires {S : Type} (as_bool : json -> option bool)
        (as_int : json -> option Z) (kw : dict) (s s' : S) (c : ProjectConfig.t) :
  ProjectConfig.create_with as_bool as_int kw s = (Return c, s') ->
  s' = s /\
  dict_get "name" kw = Some (JStr (ProjectConfig.name c)) /\
  dict_get "project_type" kw
  = Some (JStr (ProjectType_str (ProjectConfig.project_type c))) /\
  dict_get "frontend_type" kw
  = Some (JStr (FrontendType_str (ProjectConfig.frontend_type c))) /\
  dict_get "output_dir" kw = Some (JStr (ProjectConfig.output_dir c)).
Proof.
  intros H.
  split; [now destruct (reads_only_create_with as_bool as_int kw s c s' H) |].
  unfold ProjectConfig.create_with in H.
  apply bind_Return_inv in H as (n & s1 & Hn & H).
  apply bind_Return_inv in H as (pt & s2 & Hpt & H).
  apply bind_Return_inv in H as (ft & s3 & Hft & H).
  apply bind_Return_inv in H as (desc & s4 & _ & H).
  apply bind_Return_inv in H as (od & s5 & Hod & H).
  do 9 (apply bind_Return_inv in H as (? & ? & _ & H)).
  injection H as <- _. cbn [ProjectConfig.name ProjectConfig.project_type
                            ProjectConfig.frontend_type ProjectConfig.output_dir].
  unfold str_field, project_type_field, frontend_type_field, ret, raise in *.
  split; [| split; [| split]].
  - destruct (dict_get "name" kw) as [[| | |v| |]|]; try discriminate Hn.
    now injection Hn as <- _.
  - destruct (dict_get "project_type" kw) as [[| | |v| |]|]; try discriminate Hpt.
    destruct (String.eqb v "work") eqn:E1.
    + apply String.eqb_eq in E1 as ->. now injection Hpt as <- _.
    + destruct (String.eqb v "personal") eqn:E2; [| discriminate Hpt].
      apply String.eqb_eq in E2 as ->. now injection Hpt as <- _.
  - destruct (dict_get "frontend_type" kw) as [[| | |v| |]|]; try discriminate Hft.
    destruct (String.eqb v "react") eqn:E1.
    + apply String.eqb_eq in E1 as ->. now injection Hft as <- _.
    + destruct (String.eqb v "htmx") eqn:E2; [| discriminate Hft].
      apply String.eqb_eq in E2 as ->. now injection Hft as <- _.
  - destruct (dict_get "output_dir" kw) as [[| | |v| |]|]; try discriminate Hod.
    now injection Hod as <- _.
Qed.

Lemma create_requires_witness :
  tt = tt /\
  dict_get "name" lenient_kwargs = Some (JStr "acme") /\
  dict_get "project_type" lenient_kwargs = Some (JStr "personal") /\
  dict_get "frontend_type" lenient_kwargs = Some (JStr "htmx") /\
  dict_get "output_dir" lenient_kwargs = Some (JStr "/tmp/w").
Proof.
  apply (create_requires bool_of_json int_of_json lenient_kwargs tt tt
           (ProjectConfig.mk "acme" personal htmx EmptyString "/tmp/w" false None
              false true 9000 3000 false false true)).
  reflexivity.
Defined.

(** X17: A kind of project other than [work] and [personal] is refused, by a
    validation error, whatever the other arguments are. *)
Theorem create_rejects_unknown_project_type {S : Type} (kw : dict) (s : S)
        (kind : string) :
  dict_get "project_type" kw = Some (JStr kind) ->
  String.eqb kind "work" = false ->
  String.eqb kind "personal" = false ->
  exists field, ProjectConfig.create kw s = (Raise (ValidationError field), s).
Proof.
  intros Hk Hw Hp. unfold ProjectConfig.create, ProjectConfig.create_with.
  destruct (str_field "name" None kw s) as [[n|e] s1] eqn:Hn.
  - assert (reads_only (@str_field S "name" None kw)) as P
        by apply reads_only_str_field.
    apply P in Hn as [-> Hn].
    rewrite (bind_Return _ _ _ _ _ (Hn s)).
    unfold bind, project_type_field. rewrite Hk, Hw, Hp.
    now exists "project_type".
  - unfold str_field in Hn. unfold bind, str_field.
    destruct (dict_get "name" kw) as [[| | |v| |]|];
      try (injection Hn as <- <-; now exists "name").
    discriminate Hn.
Qed.

Lemma create_rejects_unknown_project_type_witness :
  exists field,
    ProjectConfig.create
      [("name", JStr "acme"); ("project_type", JStr "hobby");
       ("frontend_type", JStr "htmx"); ("output_dir", JStr "/tmp/w")] tt
    = (Raise (ValidationError field), tt).
Proof.
  apply (create_rejects_unknown_project_type _ tt "hobby"); reflexivity.
Defined.

(** X18: Where there is no manifest, [_update_metadata] does nothing and
    returns. *)
Theorem update_metadata_without_manifest (root : Path.t) (kind name : string)
        (fs : FileSystem) :
  Path_exists fs (root // SCAFFOLD_METADATA_FILE) = false ->
  api._update_metadata root kind name fs = (Return tt, fs).
Proof.
  intros H. unfold api._update_metadata. cbv zeta.
  unfold path_exists, bind. now rewrite H.
Qed.

Lemma update_metadata_without_manifest_witness :
  api._update_metadata (Path.of_string "/tmp/w") "db_model" "widget" occupied_fs
  = (Return tt, occupied_fs).
Proof.
  apply (update_metadata_without_manifest (Path.of_string "/tmp/w")
           "db_model" "widget" occupied_fs).
  vm_compute. reflexivity.
Defined.

(** X19: [_update_metadata] changes the list of components only: the new
    manifest has the entry, the object with [type] the kind and [name] the
    name that were given, at the end of the list; every other key of the
    manifest keeps its value, and every other file is as it was. *)
Theorem update_metadata_keeps_the_rest (root : Path.t) (kind name : string)
        (fs : FileSystem) (meta : dict) (l : list json) :
  manifest_of fs root = Some meta ->
  components_of meta = Some l ->
  is_dir fs root = true ->
  exists fs' meta',
    api._update_metadata root kind name fs = (Return tt, fs') /\
    manifest_of fs' root = Some meta' /\
    components_of meta'
    = Some (l ++ [JDict [("type", JStr kind); ("name", JStr name)]]) /\
    (forall k, String.eqb "components" k = false ->
               dict_get k meta' = dict_get k meta) /\
    (forall q, q <> [SCAFFOLD_METADATA_FILE] ->
               stat fs' (Path.extend root q) = stat fs (Path.extend root q)).
Proof.
  intros Hm Hc Hd. eexists _, _.
  split; [apply (_update_metadata_appends root kind name fs meta l Hm Hc Hd) |].
  split; [| split; [apply components_of_set | split]].
  - unfold manifest_of. rewrite div_root by reflexivity.
    change (Path.parts_of SCAFFOLD_METADATA_FILE) with [SCAFFOLD_METADATA_FILE].
    now rewrite stat_put_same.
  - intros k Hk. now apply dict_get_set_ne.
  - intros q Hq. apply stat_put_extend; [congruence | discriminate].
Qed.

Lemma update_metadata_keeps_the_rest_witness :
  exists fs' meta',
    api._update_metadata (Path.of_string "/tmp/w/acme") "db_model" "widget" scenario_a_fs
    = (Return tt, fs') /\
    manifest_of fs' (Path.of_string "/tmp/w/acme") = Some meta' /\
    components_of meta'
    = Some [JDict [("type", JStr "db_model"); ("name", JStr "widget")]] /\
    (forall k, String.eqb "components" k = false ->
               dict_get k meta'
               = dict_get k (ProjectGenerator.metadata (ProjectGenerator.__init__ acme) "t0")) /\
    (forall q, q <> [SCAFFOLD_METADATA_FILE] ->
               stat fs' (Path.extend (Path.of_string "/tmp/w/acme") q)
               = stat scenario_a_fs (Path.extend (Path.of_string "/tmp/w/acme") q)).
Proof.
  apply (update_metadata_keeps_the_rest (Path.of_string "/tmp/w/acme")
           "db_model" "widget" scenario_a_fs
           (ProjectGenerator.metadata (ProjectGenerator.__init__ acme) "t0") []);
    vm_compute; reflexivity.
Defined.

(** X20: A manifest whose [components] is not a list: the [append] raises
    [AttributeError], and the manifest is left as it was. *)
Theorem update_metadata_components_not_a_list (root : Path.t) (kind name : string)
        (fs : FileSystem) (meta : dict) :
  manifest_of fs root = Some meta ->
  components_of meta = None ->
  api._update_metadata root kind name fs = (Raise AttributeError, fs).
Proof.
  intros Hm Hc. unfold manifest_of in Hm.
  destruct (stat fs (root // SCAFFOLD_METADATA_FILE)) as [[|text]|] eqn:Hstat;
    try discriminate Hm.
  destruct text as [| | | | | |j]; try discriminate Hm.
  destruct j as [| | | | |meta0]; try discriminate Hm.
  injection Hm as ->.
  unfold api._update_metadata. cbv zeta.
  rewrite (bind_Return _ _ _ _ _ (path_exists_of_stat _ _ _ Hstat)).
  rewrite (bind_Return _ _ _ _ _ (read_text_of_stat _ _ _ Hstat)).
  cbn [json_loads]. rewrite bind_ret.
  unfold api.append_component, components_of in *.
  destruct (dict_get "components" meta) as [[| | | | |]|]; try discriminate Hc;
    reflexivity.
Qed.

Lemma update_metadata_components_not_a_list_witness :
  api._update_metadata (Path.of_string "/tmp/w") "db_model" "widget" odd_components_fs
  = (Raise AttributeError, odd_components_fs).
Proof.
  apply (update_metadata_components_not_a_list (Path.of_string "/tmp/w")
           "db_model" "widget" odd_components_fs [("components", JStr "none")]);
    vm_compute; reflexivity.
Defined.

(** X21: Generation succeeds wherever its target is ready: on a file system
    in which every entry is in a directory, for a name that is one path
    part, [create_project] returns the summary of a success, with all the
    files of the plan in its list, when the target directory is not there
    and no file stands on the way to it, or, with [use_current_dir], when the
    target is a directory that is empty. *)
Theorem create_project_succeeds (c : ProjectConfig.t) (now : string)
        (fs : FileSystem) :
  identifier_token (ProjectConfig.name c) = true ->
  well_formed fs = true ->
  target_ready c fs = true ->
  exists d fs',
    server.create_project c now fs = (Return d, fs') /\
    status_of d = Some (JStr "success") /\
    file_list d = map JStr (map join_slash (generated_parts c)) /\
    is_dir fs' (ProjectGenerator.project_root (ProjectGenerator.__init__ c)) = true.
Proof. apply generation_runs. Qed.

Lemma create_project_succeeds_witness :
  exists d fs',
    server.create_project acme "t0" empty_fs = (Return d, fs') /\
    status_of d = Some (JStr "success") /\
    file_list d = map JStr (map join_slash (generated_parts acme)) /\
    is_dir fs' (ProjectGenerator.project_root (ProjectGenerator.__init__ acme)) = true.
Proof.
  apply (create_project_succeeds acme "t0" empty_fs); vm_compute; reflexivity.
Defined.

(** X22: Generation and validation together: wherever the target is ready,
    [create_project] succeeds and [validate_project], run on the project
    root of its summary, then finds the project valid, with no file
    missing. *)
Theorem generate_then_validate (c : ProjectConfig.t) (now : string)
        (fs : FileSystem) :
  identifier_token (ProjectConfig.name c) = true ->
  well_formed fs = true ->
  target_ready c fs = true ->
  exists d fs' project_dir v,
    server.create_project c now fs = (Return d, fs') /\
    dict_get "project_root" d = Some (JStr project_dir) /\
    server.validate_project project_dir fs' = (Return v, fs') /\
    status_of v = Some (JStr "valid") /\
    dict_get "missing_count" v = Some (JInt 0).
Proof.
  intros Hname Htree Htarget.
  destruct (generation_runs c now fs Hname Htree Htarget)
    as (d & fs' & Hrun & Hstatus & _).
  destruct (generated_project_is_valid c now fs fs' d Hname Hrun Hstatus)
    as (Hroot & Hvalid).
  exists d, fs'. eexists _, _.
  split; [exact Hrun |]. split; [exact Hroot |]. split; [exact Hvalid |].
  split; reflexivity.
Qed.

Lemma generate_then_validate_witness :
  exists d fs' project_dir v,
    server.create_project in_place "t0" empty_target_fs = (Return d, fs') /\
    dict_get "project_root" d = Some (JStr project_dir) /\
    server.validate_project project_dir fs' = (Return v, fs') /\
    status_of v = Some (JStr "valid") /\
    dict_get "missing_count" v = Some (JInt 0).
Proof.
  apply (generate_then_validate in_place "t0" empty_target_fs);
    vm_compute; reflexivity.
Defined.

(** X23: The second default of [_generate_model] is never taken: a field whose
    SQLAlchemy type is not [String] has a type that [PYDANTIC_TYPES_MAP]
    knows, and its column is declared with that Python type. *)
Theorem pydantic_default_is_unused (field_name field_type : string) :
  String.eqb (sa_type field_type) "String" = false ->
  exists python_type,
    types_find (lower field_type) PYDANTIC_TYPES_MAP = Some python_type /\
    model_column (field_name, field_type)
    = "    " +:+ field_name +:+ ": Mapped[" +:+ python_type +:+ "] = mapped_column()".
Proof.
  intros Hsa. unfold model_column. rewrite Hsa. unfold py_type, types_get.
  destruct (types_find (lower field_type) PYDANTIC_TYPES_MAP) as [v|] eqn:E.
  - now exists v.
  - apply types_agree in E. unfold sa_type, types_get in Hsa.
    rewrite E in Hsa. discriminate Hsa.
Qed.

Lemma pydantic_default_is_unused_witness :
  exists python_type,
    types_find (lower "Float") PYDANTIC_TYPES_MAP = Some python_type /\
    model_column ("price", "Float")
    = "    " +:+ "price" +:+ ": Mapped[" +:+ python_type +:+ "] = mapped_column()".
Proof.
  apply (pydantic_default_is_unused "price" "Float"). reflexivity.
Defined.



(** X26: [validate_project] looks for the files under the root that the
    manifest gives, [output_dir/name], not under the directory it was asked
    about: where that root is not there, as after the project directory was
    renamed, every expected file is reported missing. *)
Theorem moved_project_is_invalid (project_dir : string) (fs : FileSystem)
        (g : ProjectGenerator.t) :
  fst (ProjectGenerator.from_existing project_dir fs) = Return g ->
  no_slash (ProjectConfig.name (ProjectGenerator.config g)) = true ->
  well_formed fs = true ->
  Path_exists fs (ProjectGenerator.project_root g) = false ->
  exists v,
    server.validate_project project_dir fs = (Return v, fs) /\
    status_of v = Some (JStr "invalid") /\
    dict_get "missing_files" v
    = Some (JList (map JStr (ProjectGenerator._expected_files g))) /\
    dict_get "missing_count" v = dict_get "total_expected" v.
Proof.
  intros Hload Hname Htree Habsent.
  pose proof (fst_Return _ _ Hload) as E.
  destruct (from_existing_inv _ _ _ _ E) as [Hsame _]. rewrite Hsame in E.
  assert (Hnone : stat fs (ProjectGenerator.project_root g) = None)
    by (unfold Path_exists in Habsent;
        now destruct (stat fs (ProjectGenerator.project_root g))).
  assert (Hall : List.filter
                   (fun f => negb (Path_exists fs (ProjectGenerator.project_root g // f)))
                   (ProjectGenerator._expected_files g)
                 = ProjectGenerator._expected_files g).
  { apply filter_all. apply List.Forall_forall. intros f Hf.
    destruct (expected_file_under_root g f Hname Hf) as (q & _ & ->).
    unfold Path_exists, stat. rewrite locate_extend.
    now rewrite (nothing_below fs _ q Htree Hnone). }
  unfold server.validate_project.
  rewrite (bind_Return _ _ _ _ _ E).
  unfold server.with_generator, ProjectGenerator.validate. cbv zeta.
  cbn [ProjectGenerator.fs]. rewrite Hall.
  eexists. split; [reflexivity |].
  split; [| split; reflexivity].
  pose proof (expected_files_nonempty g) as Hne.
  unfold status_of. cbn [dict_get String.eqb Ascii.eqb Bool.eqb].
  now destruct (ProjectGenerator._expected_files g).
Qed.

Lemma moved_project_is_invalid_witness :
  exists v,
    server.validate_project "/tmp/w/moved" moved_fs = (Return v, moved_fs) /\
    status_of v = Some (JStr "invalid") /\
    dict_get "missing_files" v
    = Some (JList (map JStr (ProjectGenerator._expected_files acme_generator))) /\
    dict_get "missing_count" v = dict_get "total_expected" v.
Proof.
  apply (moved_project_is_invalid "/tmp/w/moved" moved_fs acme_generator);
    vm_compute; reflexivity.
Defined.


